(** * update_year.py: the movie year renamer, embedded and verified

    A shallow embedding of [src/update_year.py]: the filename classifier
    ([has_year], [clean_title]), the metadata resolver ([get_movie_data]),
    the batch renamer ([rename_movies]) and the undo engine
    ([undo_last_batch]).

    Conventions of the embedding.
    - A Python [str] is a [string] whose characters are the code points
      U+0000..U+00FF; the character classes of [str.strip], [str.lower],
      [str.splitlines] and of the regular expressions are the ones Python
      uses on that range.
    - [os.path] is [posixpath] (the configured root is ["/Movies"]).
    - The file system is a finite map from path strings to file contents
      together with a finite set of directory paths.  A path is identified
      with its string: paths are taken normalised, without symbolic links.
    - Statements that can raise run in a state-and-exception monad over the
      [world]: file system, open log handle and the trace of requests,
      sleeps and printed messages.
    - The TMDb service and [os.walk] are inputs: the service is an oracle
      indexed by the number of requests made so far, and a walk is the
      sequence of [(root, files)] pairs the generator yields.
    - Standard input is the list of the lines still to be typed.
    - [main_menu] and the installation of [requests] at import time are
      not embedded. *)

From Stdlib Require Import ZArith NArith Ascii String List Bool Lia QArith.
From Stdlib Require Import DecimalString.
From stdpp Require Import base gmap strings list.

Local Open Scope Z_scope.

(** ** Python strings *)

Module PyStr.

Definition code (c : ascii) : N := N_of_ascii c.

Definition LF : ascii := ascii_of_N 10.
Definition CR : ascii := ascii_of_N 13.

(** [str.isspace] on one character, which is also the class [\s] of [re]. *)
Definition isspace (c : ascii) : bool :=
  let n := code c in
  ((9 <=? n) && (n <=? 13) || (28 <=? n) && (n <=? 32)
   || (n =? 133) || (n =? 160))%N.

(** The class [\d] of [re]. *)
Definition isdigit (c : ascii) : bool :=
  let n := code c in ((48 <=? n) && (n <=? 57))%N.

(** The line boundaries of [str.splitlines]. *)
Definition is_linebreak (c : ascii) : bool :=
  let n := code c in
  ((10 <=? n) && (n <=? 13) || (28 <=? n) && (n <=? 30) || (n =? 133))%N.

Definition lower_char (c : ascii) : ascii :=
  let n := code c in
  if ((65 <=? n) && (n <=? 90)
      || (192 <=? n) && (n <=? 222) && negb (n =? 215))%N
  then ascii_of_N (n + 32) else c.

Fixpoint lower (s : string) : string :=
  match s with
  | EmptyString => EmptyString
  | String c s' => String (lower_char c) (lower s')
  end.

Fixpoint lstrip (s : string) : string :=
  match s with
  | EmptyString => EmptyString
  | String c s' => if isspace c then lstrip s' else s
  end.

Fixpoint rstrip (s : string) : string :=
  match s with
  | EmptyString => EmptyString
  | String c s' =>
      match rstrip s' with
      | EmptyString => if isspace c then EmptyString else String c EmptyString
      | r => String c r
      end
  end.

Definition strip (s : string) : string := lstrip (rstrip s).

(** [s.rstrip(c)] for a single character [c]. *)
Fixpoint rstrip_char (c : ascii) (s : string) : string :=
  match s with
  | EmptyString => EmptyString
  | String x s' =>
      match rstrip_char c s' with
      | EmptyString => if Ascii.eqb x c then EmptyString else String x EmptyString
      | r => String x r
      end
  end.

Fixpoint startswith (p s : string) : bool :=
  match p, s with
  | EmptyString, _ => true
  | String a p', String b s' => Ascii.eqb a b && startswith p' s'
  | String _ _, EmptyString => false
  end.

Fixpoint endswith_char (c : ascii) (s : string) : bool :=
  match s with
  | EmptyString => false
  | String x EmptyString => Ascii.eqb x c
  | String _ s' => endswith_char c s'
  end.

Fixpoint drop (n : nat) (s : string) : string :=
  match n, s with
  | O, _ => s
  | S n', String _ s' => drop n' s'
  | S _, EmptyString => EmptyString
  end.

Fixpoint take (n : nat) (s : string) : string :=
  match n, s with
  | S n', String c s' => String c (take n' s')
  | _, _ => EmptyString
  end.

(** [s.find(sub)]: the least index at which [sub] occurs. *)
Fixpoint find (sub s : string) : option nat :=
  if startswith sub s then Some O
  else match s with
       | EmptyString => None
       | String _ s' => S <$> find sub s'
       end.

(** [sub in s]. *)
Definition contains (sub s : string) : bool :=
  match find sub s with Some _ => true | None => false end.

(** [s.split(sep, 1)]: one piece when [sep] does not occur, else the text
    before the first occurrence and the text after it. *)
Definition split1 (sep s : string) : list string :=
  match find sep s with
  | None => [s]
  | Some i => [take i s; drop (i + String.length sep) s]
  end.

(** [s.rfind(c)] for a single character, [-1] when absent. *)
Fixpoint rfind_from (c : ascii) (s : string) (i last : Z) : Z :=
  match s with
  | EmptyString => last
  | String x s' => rfind_from c s' (i + 1) (if Ascii.eqb x c then i else last)
  end.

Definition rfind_char (c : ascii) (s : string) : Z := rfind_from c s 0 (-1).

(** The slices [s[:i]] and [s[i:]] for [0 <= i]. *)
Definition slice_to (i : Z) (s : string) : string := take (Z.to_nat i) s.
Definition slice_from (i : Z) (s : string) : string := drop (Z.to_nat i) s.

Fixpoint all_char (c : ascii) (s : string) : bool :=
  match s with
  | EmptyString => true
  | String x s' => Ascii.eqb x c && all_char c s'
  end.

(** What reading a text file with [newline=None] does to its content:
    ["\r\n"] and a lone ["\r"] both become ["\n"]. *)
Fixpoint universal_newlines (s : string) : string :=
  match s with
  | EmptyString => EmptyString
  | String c s' =>
      if Ascii.eqb c CR then
        String LF
          (match s' with
           | String c2 s'' =>
               if Ascii.eqb c2 LF then universal_newlines s''
               else universal_newlines s'
           | EmptyString => EmptyString
           end)
      else String c (universal_newlines s')
  end.

(** [s.splitlines()]: the text between line boundaries, boundaries
    dropped, ["\r\n"] one boundary, no empty last line. *)
Fixpoint splitlines (s : string) : list string :=
  match s with
  | EmptyString => []
  | String c s' =>
      if is_linebreak c then
        EmptyString ::
          (match s' with
           | String c2 s'' =>
               if Ascii.eqb c CR && Ascii.eqb c2 LF then splitlines s''
               else splitlines s'
           | EmptyString => []
           end)
      else
        match splitlines s' with
        | [] => [String c EmptyString]
        | l :: ls => String c l :: ls
        end
  end.

End PyStr.

(** ** posixpath *)

Module OsPath.
Import PyStr.

Definition SEP : ascii := "/"%char.
Definition EXTSEP : ascii := "."%char.

(** [genericpath._splitext]: the extension starts at the last dot of the
    last component, unless that component has only dots before it. *)
Definition splitext (p : string) : string * string :=
  let sepIndex := rfind_char SEP p in
  let dotIndex := rfind_char EXTSEP p in
  if dotIndex >? sepIndex then
    let leading := take (Z.to_nat (dotIndex - (sepIndex + 1)))
                        (slice_from (sepIndex + 1) p) in
    if all_char EXTSEP leading then (p, EmptyString)
    else (slice_to dotIndex p, slice_from dotIndex p)
  else (p, EmptyString).

(** [posixpath.split]. *)
Definition split (p : string) : string * string :=
  let i := rfind_char SEP p + 1 in
  let head := slice_to i p in
  let tail := slice_from i p in
  let head := if all_char SEP head then head else rstrip_char SEP head in
  (head, tail).

Definition dirname (p : string) : string := fst (split p).

(** [posixpath.join] of two components. *)
Definition join (a b : string) : string :=
  if startswith "/" b then b
  else if String.eqb a EmptyString || endswith_char SEP a then a +:+ b
  else a +:+ "/" +:+ b.

End OsPath.

(** ** The two compiled patterns and the two inline substitutions *)

Module Re.
Import PyStr.

(** The regular expression [\(\d{4}\)], matched at the head of [s]. *)
Definition year_at (s : string) : bool :=
  match s with
  | String o (String d1 (String d2 (String d3 (String d4 (String c _))))) =>
      Ascii.eqb o "("%char && isdigit d1 && isdigit d2 && isdigit d3
      && isdigit d4 && Ascii.eqb c ")"%char
  | _ => false
  end.

(** [pattern.search(s)] as a truth value: a match somewhere in [s]. *)
Fixpoint year_search (s : string) : bool :=
  year_at s || match s with
               | EmptyString => false
               | String _ s' => year_search s'
               end.

(** The alternatives of [JUNK_PATTERN], in the order of the pattern
    ([H\.264] and [H\.265] with their dot unescaped). *)
Definition JUNK_TOKENS : list string :=
  ["1080p"; "720p"; "480p"; "BluRay"; "BRRip"; "DVDRip"; "HDR"; "WEBRip";
   "x264"; "x265"; "HEVC"; "AAC"; "DTS"; "H.264"; "H.265"].

(** A literal matched at the head of [s] under [re.IGNORECASE]. *)
Fixpoint istartswith (p s : string) : bool :=
  match p, s with
  | EmptyString, _ => true
  | String a p', String b s' =>
      Ascii.eqb (lower_char a) (lower_char b) && istartswith p' s'
  | String _ _, EmptyString => false
  end.

(** The first alternative that matches at the head of [s]. *)
Definition junk_at (s : string) : option string :=
  List.find (fun t => istartswith t s) JUNK_TOKENS.

(** [JUNK_PATTERN.sub] with the empty replacement: scanning from the
    left, every match is dropped and the scan resumes behind it; [skip]
    counts the characters of the current match still to drop. *)
Fixpoint junk_sub_from (skip : nat) (s : string) : string :=
  match s with
  | EmptyString => EmptyString
  | String c s' =>
      match skip with
      | S k => junk_sub_from k s'
      | O =>
          match junk_at s with
          | Some t => junk_sub_from (String.length t - 1) s'
          | None => String c (junk_sub_from O s')
          end
      end
  end.

Definition junk_sub (s : string) : string := junk_sub_from O s.

Definition is_separator (c : ascii) : bool :=
  Ascii.eqb c "."%char || Ascii.eqb c "_"%char.

(** [re.sub(r"[\._]+", " ", s)]: each maximal run of dots and underscores
    becomes one space; [in_run] says the previous character was in a run. *)
Fixpoint separators_sub_from (in_run : bool) (s : string) : string :=
  match s with
  | EmptyString => EmptyString
  | String c s' =>
      if is_separator c then
        if in_run then separators_sub_from true s'
        else String " "%char (separators_sub_from true s')
      else String c (separators_sub_from false s')
  end.

Definition separators_sub (s : string) : string := separators_sub_from false s.

Definition head_isspace (s : string) : bool :=
  match s with
  | String c _ => isspace c
  | EmptyString => false
  end.

(** [re.sub(r"\s{2,}", " ", s)]: each maximal run of two or more
    white-space characters becomes one space, a single one is kept. *)
Fixpoint spaces_sub_from (in_run : bool) (s : string) : string :=
  match s with
  | EmptyString => EmptyString
  | String c s' =>
      if isspace c then
        if in_run then spaces_sub_from true s'
        else if head_isspace s' then String " "%char (spaces_sub_from true s')
        else String c (spaces_sub_from false s')
      else String c (spaces_sub_from false s')
  end.

Definition spaces_sub (s : string) : string := spaces_sub_from false s.

End Re.

(** ** User configuration *)

Definition ROOT_FOLDER : string := "/Movies".
Definition VIDEO_EXTENSIONS : list string :=
  [".mp4"; ".mkv"; ".avi"; ".mov"; ".wmv"; ".m4v"; ".webm"].
(** The value that [TMDB_API_KEY] has until a key is pasted in. *)
Definition PLACEHOLDER_KEY : string := "PASTE_YOUR_TMDB_API_KEY_HERE".
Definition LOG_FILE : string := "rename_log.txt".
(** Delay between TMDb requests, in seconds. *)
Definition API_DELAY : Q := 25 # 100.

(** ** Helper functions *)

Definition has_year (filename : string) : bool := Re.year_search filename.

Definition clean_title (filename : string) (remove_junk : bool) : string :=
  let name := PyStr.strip (fst (OsPath.splitext filename)) in
  if remove_junk then
    let name := PyStr.strip (Re.junk_sub name) in
    let name := Re.separators_sub name in
    let name := Re.spaces_sub name in
    name
  else name.

(** ** Values decoded from JSON, with the Python operations used on them *)

(** What [response.json()] returns.  Python's [None] is [JNull]; a [dict]
    is the list of its items, looked up from the left; numbers are
    integers. *)
#[local] Set Warnings "-register-all".
Inductive json : Type :=
| JNull
| JBool (b : bool)
| JNum (n : Z)
| JStr (s : string)
| JArr (l : list json)
| JObj (items : list (string * json)).

(** The exception classes that the modelled statements can raise. *)
Inductive exn : Type :=
| AttributeError | TypeError | KeyError | ValueError | EOFError
| FileNotFoundError | FileExistsError | IsADirectoryError
| NotADirectoryError | OSError
| RequestException | HTTPError | JSONDecodeError.

Inductive result (A : Type) : Type :=
| Ok (a : A)
| Raise (e : exn).
Arguments Ok {A} a.
Arguments Raise {A} e.

Module Py.

(** Truth value of an object. *)
Definition truthy (v : json) : bool :=
  match v with
  | JNull => false
  | JBool b => b
  | JNum n => negb (n =? 0)
  | JStr s => negb (String.eqb s EmptyString)
  | JArr l => match l with [] => false | _ => true end
  | JObj items => match items with [] => false | _ => true end
  end.

Fixpoint assoc (k : string) (items : list (string * json)) : option json :=
  match items with
  | [] => None
  | (k', v) :: rest => if String.eqb k' k then Some v else assoc k rest
  end.

(** [v.get(k, default)]: only a [dict] has the method. *)
Definition get_default (v : json) (k : string) (default : json) : result json :=
  match v with
  | JObj items => Ok (from_option id default (assoc k items))
  | _ => Raise AttributeError
  end.

(** [v.get(k)]. *)
Definition get (v : json) (k : string) : result json := get_default v k JNull.

(** [v[k]] for a string key [k]. *)
Definition getitem (v : json) (k : string) : result json :=
  match v with
  | JObj items =>
      match assoc k items with Some x => Ok x | None => Raise KeyError end
  | _ => Raise TypeError
  end.

(** [v[:n]]. *)
Definition slice_to (n : nat) (v : json) : result json :=
  match v with
  | JStr s => Ok (JStr (PyStr.take n s))
  | JArr l => Ok (JArr (List.firstn n l))
  | _ => Raise TypeError
  end.

Fixpoint chars (s : string) : list json :=
  match s with
  | EmptyString => []
  | String c s' => JStr (String c EmptyString) :: chars s'
  end.

(** The elements that [for m in v] runs through. *)
Definition iter (v : json) : result (list json) :=
  match v with
  | JArr l => Ok l
  | JObj items => Ok (List.map (fun kv => JStr (fst kv)) items)
  | JStr s => Ok (chars s)
  | _ => Raise TypeError
  end.

Definition hex_digit (n : N) : ascii :=
  ascii_of_N (if (n <? 10)%N then 48 + n else 87 + n).

Definition isprintable (c : ascii) : bool :=
  let n := PyStr.code c in
  ((32 <=? n) && (n <=? 126) || (161 <=? n) && negb (n =? 173))%N.

(** One character of [repr(s)] inside the quote [q]. *)
Definition repr_char (q c : ascii) : string :=
  let n := PyStr.code c in
  if Ascii.eqb c q || Ascii.eqb c "\"%char then String "\"%char (String c EmptyString)
  else if (n =? 9)%N then "\t"
  else if (n =? 10)%N then "\n"
  else if (n =? 13)%N then "\r"
  else if isprintable c then String c EmptyString
  else String "\"%char (String "x"%char
         (String (hex_digit (n / 16)) (String (hex_digit (n mod 16)) EmptyString))).

Fixpoint repr_chars (q : ascii) (s : string) : string :=
  match s with
  | EmptyString => EmptyString
  | String c s' => repr_char q c +:+ repr_chars q s'
  end.

Definition DQUOTE : ascii := ascii_of_N 34.
Definition SQUOTE : ascii := ascii_of_N 39.

(** [repr(s)] of a string: single quotes, unless only those occur in it. *)
Definition repr_str (s : string) : string :=
  let q :=
    if PyStr.contains (String SQUOTE EmptyString) s
       && negb (PyStr.contains (String DQUOTE EmptyString) s)
    then DQUOTE else SQUOTE in
  String q (repr_chars q s) +:+ String q EmptyString.

Definition repr_int (n : Z) : string :=
  match n with
  | Z0 => "0"
  | Zpos p => NilEmpty.string_of_uint (Pos.to_uint p)
  | Zneg p => "-" +:+ NilEmpty.string_of_uint (Pos.to_uint p)
  end.

Fixpoint repr (v : json) : string :=
  match v with
  | JNull => "None"
  | JBool true => "True"
  | JBool false => "False"
  | JNum n => repr_int n
  | JStr s => repr_str s
  | JArr l => "[" +:+ String.concat ", " (List.map repr l) +:+ "]"
  | JObj items =>
      "{" +:+ String.concat ", "
                (List.map (fun kv => repr_str (fst kv) +:+ ": " +:+ repr (snd kv))
                          items) +:+ "}"
  end.

(** [str(v)], which is what an f-string field formats with. *)
Definition str (v : json) : string :=
  match v with
  | JStr s => s
  | _ => repr v
  end.

End Py.

(** ** The world: file system, globals, standard input and the trace *)

(** One message per [print] statement of the program. *)
Inductive message : Type :=
| MsgTmdbError (title : string) (e : exn)
| MsgEnterYN
| MsgKeyNotSet
| MsgSignUp
| MsgNoLog
| MsgLogEmpty
| MsgReverted (new_path old_path : string)
| MsgFailedRevert (new_path : string) (e : exn)
| MsgCannotRevert (new_path : string)
| MsgUndoComplete
| MsgNoKey
| MsgStartingScan
| MsgYearNotFound (title : string)
| MsgSkippedExists (new_name : string)
| MsgDryRun (file new_name : string)
| MsgRenamed (file new_name : string).

Inductive event : Type :=
| EvRequest (url : string) (params : list (string * string))
| EvSleep (seconds : Q)
| EvInput (prompt : string)
| EvPrint (m : message).

Record world : Type := mkWorld {
  w_files : gmap string string;  (* regular files: path to content *)
  w_dirs : gset string;          (* directories *)
  w_key : string;                (* the global TMDB_API_KEY *)
  w_log : string;                (* written to the open log, not yet flushed *)
  w_stdin : list string;         (* the lines still to be typed *)
  w_trace : list event           (* what happened so far, oldest first *)
}.

Definition set_files (f : gmap string string) (w : world) : world :=
  mkWorld f (w_dirs w) (w_key w) (w_log w) (w_stdin w) (w_trace w).
Definition set_dirs (d : gset string) (w : world) : world :=
  mkWorld (w_files w) d (w_key w) (w_log w) (w_stdin w) (w_trace w).
Definition set_key (k : string) (w : world) : world :=
  mkWorld (w_files w) (w_dirs w) k (w_log w) (w_stdin w) (w_trace w).
Definition set_log (l : string) (w : world) : world :=
  mkWorld (w_files w) (w_dirs w) (w_key w) l (w_stdin w) (w_trace w).
Definition set_stdin (i : list string) (w : world) : world :=
  mkWorld (w_files w) (w_dirs w) (w_key w) (w_log w) i (w_trace w).
Definition emit (e : event) (w : world) : world :=
  mkWorld (w_files w) (w_dirs w) (w_key w) (w_log w) (w_stdin w)
          (w_trace w ++ [e]).

(** ** Statements: state passing with exceptions *)

Definition M (A : Type) : Type := world -> result A * world.

Definition ret {A} (a : A) : M A := fun w => (Ok a, w).

Definition raise {A} (e : exn) : M A := fun w => (Raise e, w).

Definition bind {A B} (m : M A) (k : A -> M B) : M B :=
  fun w =>
    match m w with
    | (Ok a, w') => k a w'
    | (Raise e, w') => (Raise e, w')
    end.

(** [try: body except Exception as e: handler(e)]. *)
Definition try_except {A} (body : M A) (handler : exn -> M A) : M A :=
  fun w =>
    match body w with
    | (Ok a, w') => (Ok a, w')
    | (Raise e, w') => handler e w'
    end.

(** A pure computation that may raise. *)
Definition lift {A} (r : result A) : M A := fun w => (r, w).

Notation "x <- m ;; k" := (bind m (fun x => k))
  (at level 100, m at next level, right associativity).
Notation "m ;;; k" := (bind m (fun _ => k))
  (at level 100, right associativity).

(** [for x in l: body(x)]. *)
Fixpoint for_each {A} (l : list A) (body : A -> M unit) : M unit :=
  match l with
  | [] => ret tt
  | x :: l' => body x ;;; for_each l' body
  end.

Definition print (m : message) : M unit :=
  fun w => (Ok tt, emit (EvPrint m) w).

(** [input(prompt)]: the next typed line, [EOFError] when there is none. *)
Definition input (prompt : string) : M string :=
  fun w =>
    match w_stdin w with
    | [] => (Raise EOFError, emit (EvInput prompt) w)
    | l :: rest => (Ok l, set_stdin rest (emit (EvInput prompt) w))
    end.

(** [time.sleep(seconds)]. *)
Definition sleep (seconds : Q) : M unit :=
  fun w => (Ok tt, emit (EvSleep seconds) w).

(** ** The operating system: [os], [os.path], [open] on the file system *)

Module Os.
Import PyStr OsPath.

Definition isfile (w : world) (p : string) : bool :=
  match w_files w !! p with Some _ => true | None => false end.

Definition isdir (w : world) (p : string) : bool :=
  bool_decide (p ∈ w_dirs w) || String.eqb p "/".

(** [os.path.exists]. *)
Definition path_exists (w : world) (p : string) : bool :=
  isfile w p || isdir w p.

Definition exists_ (p : string) : M bool :=
  fun w => (Ok (path_exists w p), w).

(** Why an entry cannot be made at [p], if it cannot: the empty path names
    nothing, and the directory it goes into has to be there (a path
    without directory part goes into the current directory). *)
Definition entry_error (w : world) (p : string) : option exn :=
  let d := dirname p in
  if String.eqb p EmptyString then Some FileNotFoundError
  else if String.eqb d EmptyString || isdir w d then None
  else if isfile w d then Some NotADirectoryError
  else Some FileNotFoundError.

(** [os.mkdir]. *)
Definition mkdir (p : string) : M unit :=
  fun w =>
    if String.eqb p EmptyString then (Raise FileNotFoundError, w)
    else if path_exists w p then (Raise FileExistsError, w)
    else match entry_error w p with
         | Some e => (Raise e, w)
         | None => (Ok tt, set_dirs ({[p]} ∪ w_dirs w) w)
         end.

(** [os.makedirs(name, exist_ok=True)]: the missing ancestors first, then
    [name] itself, an existing directory being no error.  [rec] is the
    recursive call.  (The shortcut for a last component [.] is left out:
    paths are normalised.) *)
Definition makedirs_body (rec : string -> M unit) (name : string) : M unit :=
  let '(head, tail) := split name in
  let '(head, tail) :=
    if String.eqb tail EmptyString then split head else (head, tail) in
  (if negb (String.eqb head EmptyString) && negb (String.eqb tail EmptyString)
   then
     ex <- exists_ head ;;
     if ex then ret tt
     else
       try_except (rec head)
         (fun e => match e with
                   | FileExistsError => ret tt
                   | _ => raise e
                   end)
   else ret tt) ;;;
  try_except (mkdir name)
    (fun e => fun w => if isdir w name then (Ok tt, w) else (Raise e, w)).

(** Every recursive call is on a strictly shorter path, so the length of
    [name] bounds the depth. *)
Fixpoint makedirs_depth (depth : nat) (name : string) : M unit :=
  match depth with
  | O => makedirs_body (fun _ => ret tt) name
  | S depth' => makedirs_body (makedirs_depth depth') name
  end.

Definition makedirs (name : string) : M unit :=
  makedirs_depth (String.length name) name.

(** [p] lies below the directory [d]. *)
Definition under (d p : string) : bool := startswith (d +:+ "/") p.

Definition has_entries (w : world) (d : string) : bool :=
  existsb (under d) (elements (dom (w_files w)) ++ elements (w_dirs w)).

(** Where an entry of the tree at [src] goes when the tree moves to [dst]. *)
Definition rebase (src dst p : string) : string :=
  if String.eqb p src then dst
  else if under src p then dst +:+ drop (String.length src) p
  else p.

Definition move_tree (src dst : string) (w : world) : world :=
  set_dirs (set_map (rebase src dst) (w_dirs w))
    (set_files
       (list_to_map (prod_map (rebase src dst) id <$> map_to_list (w_files w)))
       w).

(** [os.rename] (POSIX): a regular file replaces a regular file at [dst];
    a directory moves with all that is below it. *)
Definition rename (src dst : string) : M unit :=
  fun w =>
    match w_files w !! src with
    | Some c =>
        if String.eqb src dst then (Ok tt, w)
        else if isdir w dst then (Raise IsADirectoryError, w)
        else match entry_error w dst with
             | Some e => (Raise e, w)
             | None =>
                 (Ok tt, set_files (<[dst := c]> (delete src (w_files w))) w)
             end
    | None =>
        if bool_decide (src ∈ w_dirs w) then
          if String.eqb src dst then (Ok tt, w)
          else if isfile w dst then (Raise NotADirectoryError, w)
          else if under src dst then (Raise OSError, w)
          else if isdir w dst && has_entries w dst then (Raise OSError, w)
          else match entry_error w dst with
               | Some e => (Raise e, w)
               | None => (Ok tt, move_tree src dst w)
               end
        else if isdir w src then (Raise OSError, w)
        else (Raise FileNotFoundError, w)
    end.

(** [os.remove]. *)
Definition remove (p : string) : M unit :=
  fun w =>
    match w_files w !! p with
    | Some _ => (Ok tt, set_files (delete p (w_files w)) w)
    | None => if isdir w p then (Raise IsADirectoryError, w)
              else (Raise FileNotFoundError, w)
    end.

(** [with open(p, "r", encoding="utf-8") as f: f.read()]. *)
Definition read_text (p : string) : M string :=
  fun w =>
    match w_files w !! p with
    | Some c => (Ok (universal_newlines c), w)
    | None => if isdir w p then (Raise IsADirectoryError, w)
              else (Raise FileNotFoundError, w)
    end.

(** [open(p, "a", encoding="utf-8")]: the file is created when absent. *)
Definition open_append (p : string) : M unit :=
  fun w =>
    if isdir w p then (Raise IsADirectoryError, w)
    else if isfile w p then (Ok tt, set_log EmptyString w)
    else match entry_error w p with
         | Some e => (Raise e, w)
         | None =>
             (Ok tt, set_log EmptyString
                       (set_files (<[p := EmptyString]> (w_files w)) w))
         end.

(** [log.write(text)]. *)
Definition log_write (text : string) : M unit :=
  fun w => (Ok tt, set_log (w_log w +:+ text) w).

(** Closing the handle appends what was written to the file. *)
Definition close_append (p : string) (w : world) : world :=
  set_log EmptyString
    (set_files
       (<[p := from_option id EmptyString (w_files w !! p) +:+ w_log w]>
          (w_files w))
       w).

(** [with open(p, "a", encoding="utf-8") as log: body]: the handle is
    closed on the way out, also when [body] raises. *)
Definition with_open_append {A} (p : string) (body : M A) : M A :=
  fun w =>
    match open_append p w with
    | (Raise e, w') => (Raise e, w')
    | (Ok _, w1) => let '(r, w2) := body w1 in (r, close_append p w2)
    end.

End Os.

(** ** The TMDb service behind [requests] *)

(** A response, as the outcomes of the two methods called on it. *)
Record response : Type := mkResponse {
  raise_for_status : result unit;
  resp_json : result json
}.

(** The service: what [requests.get] returns or raises for the [n]-th
    request of the run, given its URL and its query parameters. *)
Definition service : Type :=
  nat -> string -> list (string * string) -> result response.

Definition is_request (e : event) : bool :=
  match e with EvRequest _ _ => true | _ => false end.

Definition requests_made (w : world) : nat :=
  List.length (List.filter is_request (w_trace w)).

(** [requests.get(url, params=params, timeout=10)]. *)
Definition requests_get (sv : service) (url : string)
    (params : list (string * string)) : M response :=
  fun w => (sv (requests_made w) url params, emit (EvRequest url params) w).

Definition get_key : M string := fun w => (Ok (w_key w), w).

(** [next((m for m in results if m.get("release_date")), None)], on the
    elements of [results]. *)
Fixpoint first_with_release_date (ms : list json) : result json :=
  match ms with
  | [] => Ok JNull
  | m :: ms' =>
      match Py.get m "release_date" with
      | Raise e => Raise e
      | Ok d => if Py.truthy d then Ok m else first_with_release_date ms'
      end
  end.

Definition SEARCH_URL : string := "https://api.themoviedb.org/3/search/movie".
Definition DETAILS_URL : string := "https://api.themoviedb.org/3/movie/".

(** The body of the [try] of [get_movie_data]. *)
Definition get_movie_data_body (sv : service) (search_url : string)
    (params : list (string * string)) : M json :=
  response <- requests_get sv search_url params ;;
  lift (raise_for_status response) ;;;
  data <- lift (resp_json response) ;;
  results <- lift (Py.get_default data "results" (JArr [])) ;;
  ms <- lift (Py.iter results) ;;
  movie <- lift (first_with_release_date ms) ;;
  if negb (Py.truthy movie) then ret JNull
  else
    movie_id <- lift (Py.getitem movie "id") ;;
    let details_url := DETAILS_URL +:+ Py.str movie_id in
    key <- get_key ;;
    let details_params := [("api_key", key)] in
    details_resp <- requests_get sv details_url details_params ;;
    lift (raise_for_status details_resp) ;;;
    lift (resp_json details_resp).

Definition get_movie_data (sv : service) (title : string) : M json :=
  let search_url := SEARCH_URL in
  key <- get_key ;;
  let params := [("api_key", key); ("query", title)] in
  try_except (get_movie_data_body sv search_url params)
    (fun e => print (MsgTmdbError title e) ;;; ret JNull).

(** ** Menu and utility functions *)

Definition in_list (s : string) (l : list string) : bool :=
  existsb (String.eqb s) l.

(** The loop of [prompt_yes_no]; each round reads one line, so the number
    of lines left bounds the rounds. *)
Fixpoint prompt_yes_no_rounds (rounds : nat) (message : string) : M bool :=
  choice <- input (message +:+ " [y/n]: ") ;;
  let choice := PyStr.lower (PyStr.strip choice) in
  if in_list choice ["y"; "yes"] then ret true
  else if in_list choice ["n"; "no"] then ret false
  else
    print MsgEnterYN ;;;
    match rounds with
    | O => raise EOFError
    | S rounds' => prompt_yes_no_rounds rounds' message
    end.

Definition prompt_yes_no (message : string) : M bool :=
  fun w => prompt_yes_no_rounds (List.length (w_stdin w)) message w.

Definition get_api_key_from_user : M string :=
  print MsgKeyNotSet ;;;
  print MsgSignUp ;;;
  key <- input "Paste your TMDb API key here: " ;;
  ret (PyStr.strip key).

Definition SEPARATOR : string := " -> ".

(** What [undo_last_batch] does with one record of the log. *)
Definition revert_record (old_path new_path : string) : M unit :=
  ex <- Os.exists_ new_path ;;
  if ex then
    try_except
      (Os.makedirs (OsPath.dirname old_path) ;;;
       Os.rename new_path old_path ;;;
       print (MsgReverted new_path old_path))
      (fun e => print (MsgFailedRevert new_path e))
  else print (MsgCannotRevert new_path).

(** The body of the loop of [undo_last_batch]. *)
Definition undo_line (line : string) : M unit :=
  if negb (PyStr.contains SEPARATOR line) then ret tt
  else
    match PyStr.split1 SEPARATOR line with
    | [old_path; new_path] => revert_record old_path new_path
    | _ => raise ValueError
    end.

(** Revert all renames recorded in the log file. *)
Definition undo_last_batch : M unit :=
  ex <- Os.exists_ LOG_FILE ;;
  if negb ex then print MsgNoLog
  else
    content <- Os.read_text LOG_FILE ;;
    let lines := PyStr.splitlines content in
    match lines with
    | [] => print MsgLogEmpty
    | _ =>
        for_each (List.rev lines) undo_line ;;;
        Os.remove LOG_FILE ;;;
        print MsgUndoComplete
    end.

(** ** The main rename function *)

Definition LF_STR : string := String PyStr.LF EmptyString.

(** A planned rename: the paths and the new base name. *)
Record plan : Type := mkPlan {
  old_path : string;
  new_path : string;
  new_name : string
}.

(** The first half of the body of the inner loop of [rename_movies], for
    one [file] of the directory [root]: up to the computation of
    [new_path].  [None] stands for [continue]. *)
Definition plan_file (sv : service) (clean_junk sort_collections : bool)
    (root file : string) : M (option plan) :=
  let '(name, ext) := OsPath.splitext file in
  let ext := PyStr.lower ext in
  if negb (in_list ext VIDEO_EXTENSIONS) then ret None
  else if has_year file then ret None
  else
    let title := clean_title file clean_junk in
    movie_data <- get_movie_data sv title ;;
    no_date <- (if negb (Py.truthy movie_data) then ret true
                else d <- lift (Py.get movie_data "release_date") ;;
                     ret (negb (Py.truthy d))) ;;
    if no_date : bool then print (MsgYearNotFound title) ;;; ret None
    else
      release_date <- lift (Py.getitem movie_data "release_date") ;;
      year <- lift (Py.slice_to 4 release_date) ;;
      (* Determine target folder *)
      target_folder <-
        (if sort_collections then
           collection <- lift (Py.get movie_data "belongs_to_collection") ;;
           if Py.truthy collection then
             collection_name <- lift (Py.getitem collection "name") ;;
             match collection_name with
             | JStr collection_name =>
                 let target_folder := OsPath.join ROOT_FOLDER collection_name in
                 Os.makedirs target_folder ;;;
                 ret target_folder
             | _ => raise TypeError
             end
           else ret root
         else ret root) ;;
      let new_name := title +:+ " (" +:+ Py.str year +:+ ")" +:+ ext in
      let old_path := OsPath.join root file in
      let new_path := OsPath.join target_folder new_name in
      ret (Some (mkPlan old_path new_path new_name)).

(** The second half: the collision test, the rename and its record. *)
Definition apply_plan (dry_run : bool) (file : string) (p : plan) : M unit :=
  ex <- Os.exists_ (new_path p) ;;
  if ex then print (MsgSkippedExists (new_name p))
  else
    (if dry_run then print (MsgDryRun file (new_name p))
     else
       Os.rename (old_path p) (new_path p) ;;;
       Os.log_write (old_path p +:+ SEPARATOR +:+ new_path p +:+ LF_STR) ;;;
       print (MsgRenamed file (new_name p))) ;;;
    sleep API_DELAY.

(** The body of the inner loop of [rename_movies]. *)
Definition rename_file (sv : service) (clean_junk dry_run sort_collections : bool)
    (root file : string) : M unit :=
  p <- plan_file sv clean_junk sort_collections root file ;;
  match p with
  | None => ret tt
  | Some p => apply_plan dry_run file p
  end.

(** The scan: the [with] block of [rename_movies], over the pairs
    [(root, files)] that [os.walk(ROOT_FOLDER)] yields. *)
Definition rename_scan (sv : service) (clean_junk dry_run sort_collections : bool)
    (walk : list (string * list string)) : M unit :=
  Os.with_open_append LOG_FILE
    (for_each walk (fun '(root, files) =>
       for_each files (fun file =>
         rename_file sv clean_junk dry_run sort_collections root file))).

Definition set_api_key (k : string) : M unit :=
  fun w => (Ok tt, set_key k w).

Definition rename_movies (sv : service) (walk : list (string * list string))
    : M unit :=
  key <- get_key ;;
  have_key <-
    (if String.eqb key EmptyString || String.eqb key PLACEHOLDER_KEY then
       key <- get_api_key_from_user ;;
       set_api_key key ;;;
       if String.eqb key EmptyString then
         print MsgNoKey ;;; ret false
       else ret true
     else ret true) ;;
  if negb have_key then ret tt
  else
    clean_junk <- prompt_yes_no
      "Do you want to clean junk (1080p, BluRay, x264, etc.) from filenames?" ;;
    dry_run <- prompt_yes_no
      "Do you want to run in dry-run mode (no files will be renamed)?" ;;
    sort_collections <- prompt_yes_no
      "Do you want to sort movies into folders based on TMDb collections?" ;;
    print MsgStartingScan ;;;
    rename_scan sv clean_junk dry_run sort_collections walk.

(** ** Rate limiting, read off the trace *)

(** A lookup starts with the search request. *)
Definition is_lookup (e : event) : bool :=
  match e with
  | EvRequest url _ => String.eqb url SEARCH_URL
  | _ => false
  end.

Definition is_delay (e : event) : bool :=
  match e with
  | EvSleep seconds => Qle_bool API_DELAY seconds
  | _ => false
  end.

(** Every lookup of the trace but the first comes after a delay that
    follows the lookup before it; [slept] says so for the next one. *)
Fixpoint delayed (slept : bool) (t : list event) : bool :=
  match t with
  | [] => true
  | e :: t' =>
      if is_lookup e then slept && delayed false t'
      else delayed (slept || is_delay e) t'
  end.

Definition rate_limited (t : list event) : bool := delayed true t.

(** ** Example inputs *)

Module Example.

Definition search_hit (id : Z) (date : string) : response :=
  mkResponse (Ok tt)
    (Ok (JObj [("page", JNum 1);
               ("results",
                JArr [JObj [("id", JNum id); ("release_date", JStr date)]])])).

(** Three results, the first of them without release date. *)
Definition alien_hits : response :=
  mkResponse (Ok tt)
    (Ok (JObj [("page", JNum 1);
               ("results",
                JArr [JObj [("id", JNum 1); ("release_date", JStr EmptyString)];
                      JObj [("id", JNum 348); ("release_date", JStr "1979-05-25")];
                      JObj [("id", JNum 9); ("release_date", JStr "2001-01-01")]])])).

Definition no_hit : response :=
  mkResponse (Ok tt) (Ok (JObj [("page", JNum 1); ("results", JArr [])])).

Definition details (id : Z) (date : string) (collection : json) : response :=
  mkResponse (Ok tt)
    (Ok (JObj [("id", JNum id); ("release_date", JStr date);
               ("belongs_to_collection", collection)])).

Definition query_of (params : list (string * string)) : string :=
  match List.find (fun kv => String.eqb (fst kv) "query") params with
  | Some kv => snd kv
  | None => EmptyString
  end.

(** A service that knows two films. *)
Definition tmdb : service :=
  fun _ url params =>
    if String.eqb url SEARCH_URL then
      if String.eqb (query_of params) "Alien"
      then Ok alien_hits
      else if String.eqb (query_of params) "a -> b"
      then Ok (search_hit 7 "1999-03-31")
      else Ok no_hit
    else if String.eqb url (DETAILS_URL +:+ "348") then
      Ok (details 348 "1979-05-25"
            (JObj [("id", JNum 8091); ("name", JStr "Alien Collection")]))
    else if String.eqb url (DETAILS_URL +:+ "7") then
      Ok (details 7 "1999-03-31" JNull)
    else Ok (mkResponse (Raise HTTPError) (Raise JSONDecodeError)).

(** A service that is down. *)
Definition offline : service := fun _ _ _ => Raise RequestException.

(** A movie folder with one file, no log, the key configured. *)
Definition world_of (file content : string) : world :=
  mkWorld {[ OsPath.join ROOT_FOLDER file := content ]} {[ ROOT_FOLDER ]}
          "KEY" EmptyString [] [].

Definition arrow_file : string := "a -> b.mkv".

(** Two files, the first of them unknown to the service. *)
Definition two_files : world :=
  mkWorld {[ "/Movies/Unknown.mkv" := "U"; "/Movies/Alien.mkv" := "A" ]}
          {[ ROOT_FOLDER ]} "KEY" EmptyString [] [].

(** A file whose new name is already taken. *)
Definition taken : world :=
  mkWorld {[ "/Movies/Alien.mkv" := "A"; "/Movies/Alien (1979).mkv" := "B";
             "/Movies/Unknown.mkv" := "U" ]}
          {[ ROOT_FOLDER ]} "KEY" EmptyString [] [].

(** A movie folder and a log without any line. *)
Definition empty_log : world :=
  mkWorld {[ "/Movies/Alien.mkv" := "A"; LOG_FILE := EmptyString ]}
          {[ ROOT_FOLDER ]} "KEY" EmptyString [] [].

(** After a batch: one film renamed, its old folder since removed, and a
    second record whose destination has gone. *)
Definition logged : world :=
  mkWorld {[ "/Movies/Alien (1979).mkv" := "A";
             LOG_FILE :=
               "/Movies/Old/Alien.mkv -> /Movies/Alien (1979).mkv" +:+ LF_STR
               +:+ "/Movies/gone.mkv -> /Movies/gone (2000).mkv" +:+ LF_STR ]}
          {[ ROOT_FOLDER ]} "KEY" EmptyString [] [].

End Example.

(** ** Predicates of the statements *)

(** The first occurrence of [sub] in [s]: [s] is [a], [sub], [b] and no
    other way of cutting [s] around [sub] has a shorter left part. *)
Definition first_cut (sub a b s : string) : Prop :=
  s = a +:+ sub +:+ b
  /\ forall a' b', s = a' +:+ sub +:+ b' ->
       (String.length a <= String.length a')%nat.

(** [keeps R m]: every run of [m], normal or not, takes a world to one
    related to it by [R]. *)
Definition keeps {A} (R : relation world) (m : M A) : Prop :=
  forall w, R w (snd (m w)).

(** The file system, the open log and the key are as they were. *)
Definition same_state (w w' : world) : Prop :=
  w_files w' = w_files w /\ w_dirs w' = w_dirs w
  /\ w_log w' = w_log w /\ w_key w' = w_key w.

(** Files, open log and key are as they were; directories may have been
    added. *)
Definition same_files (w w' : world) : Prop :=
  w_files w' = w_files w /\ w_dirs w ⊆ w_dirs w'
  /\ w_log w' = w_log w /\ w_key w' = w_key w.

(** The log file, if there is one, is still there. *)
Definition log_stays (w w' : world) : Prop :=
  is_Some (w_files w !! LOG_FILE) -> is_Some (w_files w' !! LOG_FILE).

(** The destination that undo reads off a line is not the log itself. *)
Definition spares_log (line : string) : Prop :=
  forall old new, PyStr.split1 SEPARATOR line = [old; new] -> new <> LOG_FILE.

(** A search result without usable release date, and one with. *)
Definition undated (m : json) : Prop :=
  exists d, Py.get m "release_date" = Ok d /\ Py.truthy d = false.

Definition dated (m : json) : Prop :=
  exists d, Py.get m "release_date" = Ok d /\ Py.truthy d = true.

(** ** Further predicates of the statements *)

(** Some character of [s] is in the class [P]. *)
Fixpoint any_char (P : ascii -> bool) (s : string) : bool :=
  match s with
  | EmptyString => false
  | String c s' => P c || any_char P s'
  end.

(** Two white-space characters stand side by side in [s]. *)
Fixpoint adjacent_spaces (s : string) : bool :=
  match s with
  | EmptyString => false
  | String c s' =>
      PyStr.isspace c && Re.head_isspace s' || adjacent_spaces s'
  end.

(** Four digits in parentheses, followed by [rest]. *)
Definition year_tag (d1 d2 d3 d4 : ascii) (rest : string) : string :=
  String "("%char (String d1 (String d2 (String d3 (String d4
    (String ")"%char rest))))).

(** The paths of the files that a walk lists. *)
Definition listed (walk : list (string * list string)) : list string :=
  List.flat_map (fun '(root, files) => List.map (OsPath.join root) files) walk.

(** The line that records a rename, without its line feed, and the text
    of a log that records the renames [rs] in order. *)
Definition record_line (r : string * string) : string :=
  fst r +:+ SEPARATOR +:+ snd r.

Fixpoint log_text (rs : list (string * string)) : string :=
  match rs with
  | [] => EmptyString
  | r :: rs' => record_line r +:+ LF_STR +:+ log_text rs'
  end.

(** No line boundary of [str.splitlines] (a carriage return is one) in [s]. *)
Definition one_line (s : string) : bool :=
  negb (any_char PyStr.is_linebreak s).

(** A record that reads back as written: paths without line boundary, a
    source that is not empty, and the separator written between the paths
    the first one of the line. *)
Definition plain_record (r : string * string) : Prop :=
  one_line (fst r) = true /\ one_line (snd r) = true
  /\ fst r <> EmptyString
  /\ PyStr.find SEPARATOR (record_line r) = Some (String.length (fst r)).

(** The files after the file at [src], if there is one, has moved to [dst]. *)
Definition move (src dst : string) (F : gmap string string)
    : gmap string string :=
  match F !! src with
  | Some c => <[dst := c]> (delete src F)
  | None => F
  end.

(** The renames [rs] done in order, and undone from the last to the first. *)
Definition replay (rs : list (string * string)) (F : gmap string string)
    : gmap string string :=
  List.fold_left (fun F r => move (fst r) (snd r) F) rs F.

Definition unwind (rs : list (string * string)) (F : gmap string string)
    : gmap string string :=
  List.fold_left (fun F r => move (snd r) (fst r) F) (List.rev rs) F.

(** The renames [rs] can be done in order on [F]: each source is there and
    each destination is free when its turn comes. *)
Fixpoint applicable (rs : list (string * string)) (F : gmap string string)
    : Prop :=
  match rs with
  | [] => True
  | r :: rs' =>
      is_Some (F !! fst r) /\ F !! snd r = None
      /\ applicable rs' (move (fst r) (snd r) F)
  end.

(** The pair of path parts on which [makedirs] decides whether to create
    an ancestor first. *)
Definition makedirs_parts (name : string) : string * string :=
  let '(head, tail) := OsPath.split name in
  if String.eqb tail EmptyString then OsPath.split head else (head, tail).

(** The directory [d] is there, and so is the one above it. *)
Definition dir_in_place (w : world) (d : string) : bool :=
  Os.isdir w d
  && (String.eqb (fst (makedirs_parts d)) EmptyString
      || String.eqb (snd (makedirs_parts d)) EmptyString
      || Os.isdir w (fst (makedirs_parts d))).

(** A record that undo can act on in [w] by moving a regular file: neither
    path is a directory or the log, and the folder of the source is in
    place. *)
Definition revertible (w : world) (r : string * string) : Prop :=
  plain_record r
  /\ fst r <> LOG_FILE /\ snd r <> LOG_FILE
  /\ Os.isdir w (fst r) = false /\ Os.isdir w (snd r) = false
  /\ dir_in_place w (OsPath.dirname (fst r)) = true.

(** The rename that one round of the loop body applies, if it applies
    one: the pair of the old and the new path. *)
Definition step_record (sv : service)
    (clean_junk dry_run sort_collections : bool) (root file : string)
    (w : world) : option (string * string) :=
  match plan_file sv clean_junk sort_collections root file w with
  | (Ok (Some p), w1) =>
      if Os.path_exists w1 (new_path p) || dry_run then None
      else match Os.rename (old_path p) (new_path p) w1 with
           | (Ok _, _) => Some (old_path p, new_path p)
           | (Raise _, _) => None
           end
  | _ => None
  end.

(** The renames applied by the loop over the listed files [cands], pairs
    of folder and file name, in order. *)
Fixpoint loop_records (sv : service)
    (clean_junk dry_run sort_collections : bool)
    (cands : list (string * string)) (w : world) : list (string * string) :=
  match cands with
  | [] => []
  | (root, file) :: rest =>
      let here :=
        match step_record sv clean_junk dry_run sort_collections root file w with
        | Some r => [r]
        | None => []
        end in
      match rename_file sv clean_junk dry_run sort_collections root file w with
      | (Ok _, w1) =>
          here ++ loop_records sv clean_junk dry_run sort_collections rest w1
      | (Raise _, _) => here
      end
  end.

(** The renames applied by a scan. *)
Definition scan_records (sv : service)
    (clean_junk dry_run sort_collections : bool)
    (walk : list (string * list string)) (w : world)
    : list (string * string) :=
  match Os.open_append LOG_FILE w with
  | (Ok _, w1) =>
      loop_records sv clean_junk dry_run sort_collections
        (List.flat_map (fun '(root, files) => List.map (pair root) files) walk)
        w1
  | (Raise _, _) => []
  end.

(** What [prompt_yes_no] makes of a typed line. *)
Definition says_yes (line : string) : bool :=
  in_list (PyStr.lower (PyStr.strip line)) ["y"; "yes"].

Definition says_no (line : string) : bool :=
  in_list (PyStr.lower (PyStr.strip line)) ["n"; "no"].

Definition no_answer (line : string) : Prop :=
  says_yes line = false /\ says_no line = false.

(** The events of the rounds of [prompt_yes_no] that read the lines
    [bad], none of them an answer. *)
Definition asked_again (message : string) (bad : list string) : list event :=
  List.flat_map
    (fun _ => [EvInput (message +:+ " [y/n]: "); EvPrint MsgEnterYN]) bad.

(** The last character of [s] is white space. *)
Fixpoint ends_with_space (s : string) : bool :=
  match s with
  | EmptyString => false
  | String c EmptyString => PyStr.isspace c
  | String _ s' => ends_with_space s'
  end.

(** The listed files of a walk as pairs of folder and file name, in the
    order of the two loops. *)
Definition candidates (walk : list (string * list string))
    : list (string * string) :=
  List.flat_map (fun '(root, files) => List.map (pair root) files) walk.

(** The folder [name] and the directories above it, as far up as
    [os.makedirs] goes when it makes [name]. *)
Fixpoint above (depth : nat) (name : string) : list string :=
  name :: match depth with
          | O => []
          | S depth' => above depth' (fst (makedirs_parts name))
          end.

Definition folder_and_above (name : string) : list string :=
  above (String.length name) name.

(** Every directory of [w'] was one of [w] or is among [made]. *)
Definition only_adds (made : list string) (w w' : world) : Prop :=
  forall d, d ∈ w_dirs w' -> d ∈ w_dirs w \/ d ∈ made.

(** * Properties *)

(** ** Filename classifier *)

Example has_year_tagged : has_year "Movie (1999).mkv" = true.
Proof. reflexivity. Qed.

Example has_year_untagged : has_year "Movie.mkv" = false.
Proof. reflexivity. Qed.

(** C5. [clean_title] strips before it turns separators into spaces, not
    after: on the example of the specification the dot left behind by the
    junk tokens becomes a trailing space, so the result is ["Movie 2019 "]
    and not ["Movie 2019"]. *)
Theorem clean_title_example_keeps_trailing_space :
  clean_title "Movie.2019.1080p.BluRay.x264.mkv" true = "Movie 2019 "
  /\ clean_title "Movie.2019.1080p.BluRay.x264.mkv" true <> "Movie 2019".
Proof. split; [reflexivity | discriminate]. Qed.

(** The stages of the example: the trim comes second, the space last. *)
Example clean_title_example_stages :
  let name := PyStr.strip (fst (OsPath.splitext "Movie.2019.1080p.BluRay.x264.mkv")) in
  name = "Movie.2019.1080p.BluRay.x264"
  /\ PyStr.strip (Re.junk_sub name) = "Movie.2019..."
  /\ Re.separators_sub "Movie.2019..." = "Movie 2019 "
  /\ Re.spaces_sub "Movie 2019 " = "Movie 2019 ".
Proof. repeat split. Qed.

(** ** Facts about strings *)

Section StringFacts.
Import PyStr.

Lemma str_app_nil_l (s : string) : EmptyString +:+ s = s.
Proof. reflexivity. Qed.

Lemma str_app_cons (c : ascii) (s t : string) :
  String c s +:+ t = String c (s +:+ t).
Proof. reflexivity. Qed.

Lemma str_app_nil_r (s : string) : s +:+ EmptyString = s.
Proof.
  induction s as [|c s IH]; [reflexivity | now rewrite str_app_cons, IH].
Qed.

Lemma str_app_assoc (a b c : string) : (a +:+ b) +:+ c = a +:+ b +:+ c.
Proof.
  induction a as [|x a IH]; [reflexivity | now rewrite !str_app_cons, IH].
Qed.

Lemma str_length_app (a b : string) :
  String.length (a +:+ b) = (String.length a + String.length b)%nat.
Proof.
  induction a as [|x a IH]; [reflexivity|].
  rewrite str_app_cons. simpl. now rewrite IH.
Qed.

Lemma str_take_app (a b : string) : take (String.length a) (a +:+ b) = a.
Proof.
  induction a as [|x a IH]; [now destruct b|].
  rewrite str_app_cons. simpl. now rewrite IH.
Qed.

Lemma str_drop_app (a b : string) : drop (String.length a) (a +:+ b) = b.
Proof.
  induction a as [|x a IH]; [reflexivity | rewrite str_app_cons; exact IH].
Qed.

Lemma str_drop_drop (n m : nat) (s : string) : drop (n + m) s = drop m (drop n s).
Proof.
  revert s; induction n as [|n IH]; intros s; simpl; [reflexivity|].
  destruct s as [|c s]; [now destruct m | apply IH].
Qed.

Lemma str_take_drop (n : nat) (s : string) : take n s +:+ drop n s = s.
Proof.
  revert s; induction n as [|n IH]; intros [|c s]; simpl; try reflexivity.
  now rewrite str_app_cons, IH.
Qed.

Lemma startswith_app (p r : string) : startswith p (p +:+ r) = true.
Proof.
  induction p as [|c p IH]; [reflexivity|].
  rewrite str_app_cons. simpl. now rewrite Ascii.eqb_refl, IH.
Qed.

Lemma startswith_true (p s : string) :
  startswith p s = true -> s = p +:+ drop (String.length p) s.
Proof.
  revert s; induction p as [|c p IH]; intros s H; simpl in *; [reflexivity|].
  destruct s as [|x s]; [discriminate|].
  apply andb_prop in H as [Hc Hp]. apply Ascii.eqb_eq in Hc as ->.
  rewrite str_app_cons. simpl. f_equal. now apply IH.
Qed.

(** [find] returns an occurrence, and no occurrence starts before it. *)
Lemma find_Some (sub s : string) (i : nat) :
  find sub s = Some i ->
  s = take i s +:+ sub +:+ drop (i + String.length sub) s
  /\ String.length (take i s) = i.
Proof.
  revert i; induction s as [|c s IH]; intros i; simpl.
  - destruct (startswith sub EmptyString) eqn:E; [|discriminate].
    intros [= <-]. destruct sub; [now split | discriminate].
  - destruct (startswith sub (String c s)) eqn:E.
    + intros [= <-]. split; [|reflexivity]. simpl.
      now apply startswith_true in E.
    + destruct (find sub s) as [j|] eqn:F; simpl; [|discriminate].
      intros [= <-]. destruct (IH j eq_refl) as [Hs Hl].
      simpl. rewrite str_app_cons. split; [now rewrite <- Hs | now rewrite Hl].
Qed.

Lemma find_le (sub a b : string) :
  exists i, find sub (a +:+ sub +:+ b) = Some i /\ (i <= String.length a)%nat.
Proof.
  induction a as [|c a IH].
  - exists O. split; [|lia]. rewrite str_app_nil_l.
    pose proof (startswith_app sub b) as E.
    destruct (sub +:+ b); simpl; now rewrite E.
  - destruct IH as (i & Hi & Hle). rewrite str_app_cons.
    cbn [find]. destruct (startswith sub _).
    + exists O. split; [reflexivity | lia].
    + exists (S i). rewrite Hi. split; [reflexivity | simpl; lia].
Qed.

Lemma find_None (sub s : string) :
  find sub s = None -> forall a b, s <> a +:+ sub +:+ b.
Proof.
  intros H a b ->. destruct (find_le sub a b) as (i & Hi & _). congruence.
Qed.

Lemma find_first_cut (sub a b s : string) :
  first_cut sub a b s -> find sub s = Some (String.length a).
Proof.
  intros [Hs Hmin]. destruct (find_le sub a b) as (i & Hi & Hle).
  rewrite <- Hs in Hi. destruct (find_Some _ _ _ Hi) as [Hcut Hlen].
  apply Hmin in Hcut. rewrite Hlen in Hcut.
  rewrite Hi. f_equal. lia.
Qed.

Lemma first_cut_of_find (sub s : string) (i : nat) :
  find sub s = Some i ->
  first_cut sub (take i s) (drop (i + String.length sub) s) s.
Proof.
  intros Hi. destruct (find_Some _ _ _ Hi) as [Hcut Hlen].
  split; [exact Hcut|].
  intros a' b' H'. destruct (find_le sub a' b') as (j & Hj & Hle).
  rewrite <- H', Hi in Hj. injection Hj as <-. now rewrite Hlen.
Qed.

Lemma first_cut_exists (sub a b : string) :
  exists a0 b0, first_cut sub a0 b0 (a +:+ sub +:+ b).
Proof.
  destruct (find_le sub a b) as (i & Hi & _).
  eexists _, _. apply first_cut_of_find, Hi.
Qed.

Lemma split1_first_cut (sub a b s : string) :
  first_cut sub a b s -> contains sub s = true /\ split1 sub s = [a; b].
Proof.
  intros H. pose proof (find_first_cut _ _ _ _ H) as F. destruct H as [-> _].
  unfold contains, split1. rewrite F. split; [reflexivity|].
  now rewrite str_take_app, str_drop_drop, str_drop_app, str_drop_app.
Qed.

Lemma splitlines_nil (s : string) : splitlines s = [] <-> s = EmptyString.
Proof.
  split; [|now intros ->].
  destruct s as [|c s]; [reflexivity|]. simpl.
  destruct (is_linebreak c); [discriminate|].
  now destruct (splitlines s).
Qed.

Lemma universal_newlines_nil (s : string) :
  universal_newlines s = EmptyString <-> s = EmptyString.
Proof.
  split; [|now intros ->].
  destruct s as [|c s]; [reflexivity|]. simpl.
  now destruct (Ascii.eqb c CR).
Qed.

End StringFacts.

(** ** The two bounded loops are bounded generously *)

Section Bounds.
Import PyStr OsPath.

Lemma length_take_drop (n : nat) (s : string) :
  (String.length (take n s) + String.length (drop n s))%nat = String.length s.
Proof. now rewrite <- str_length_app, str_take_drop. Qed.

Lemma length_rstrip_char (c : ascii) (s : string) :
  (String.length (rstrip_char c s) <= String.length s)%nat.
Proof.
  induction s as [|x s IH]; simpl; [lia|].
  destruct (rstrip_char c s); [destruct (Ascii.eqb x c)|]; simpl in *; lia.
Qed.

(** Both parts of a split path fit into the path. *)
Lemma length_split (p : string) :
  (String.length (fst (split p)) + String.length (snd (split p))
   <= String.length p)%nat.
Proof.
  unfold split, slice_to, slice_from. simpl.
  set (i := Z.to_nat (rfind_char SEP p + 1)).
  pose proof (length_take_drop i p) as H.
  pose proof (length_rstrip_char SEP (take i p)) as H'.
  destruct (all_char SEP (take i p)); lia.
Qed.

Lemma length_nonempty (s : string) :
  String.eqb s EmptyString = false -> (0 < String.length s)%nat.
Proof. destruct s; [discriminate | simpl; lia]. Qed.

(** [makedirs_body] calls [rec] on strictly shorter paths only. *)
Lemma makedirs_body_ext (rec1 rec2 : string -> M unit) (name : string) :
  (forall head w, (String.length head < String.length name)%nat ->
                  rec1 head w = rec2 head w) ->
  forall w, Os.makedirs_body rec1 name w = Os.makedirs_body rec2 name w.
Proof.
  intros Hrec w. unfold Os.makedirs_body.
  pose proof (length_split name) as H1.
  destruct (split name) as [head tail]. cbn [fst snd] in H1.
  assert (H2 : forall h t,
             (if String.eqb tail EmptyString then split head else (head, tail))
             = (h, t) ->
             String.eqb t EmptyString = false ->
             (String.length h < String.length name)%nat).
  { intros h t E Ht. apply length_nonempty in Ht.
    destruct (String.eqb tail EmptyString).
    - pose proof (length_split head) as H3. rewrite E in H3.
      cbn [fst snd] in H3. lia.
    - injection E as <- <-. lia. }
  destruct (if String.eqb tail EmptyString then split head else (head, tail))
    as [h t].
  unfold bind at 1 3. f_equal.
  destruct (String.eqb h EmptyString); [reflexivity|].
  destruct (String.eqb t EmptyString) eqn:Ht; [reflexivity|].
  cbn [negb andb]. unfold bind, try_except.
  destruct (Os.exists_ h w) as [[[]|e] w1]; try reflexivity.
  now rewrite (Hrec h w1 (H2 h t eq_refl Ht)).
Qed.

(** Any depth from the length of the path on gives the same [makedirs]. *)
Lemma makedirs_depth_enough (d1 d2 : nat) (name : string) (w : world) :
  (String.length name <= d1)%nat -> (String.length name <= d2)%nat ->
  Os.makedirs_depth d1 name w = Os.makedirs_depth d2 name w.
Proof.
  revert d2 name w. induction d1 as [|d1 IH]; intros [|d2] name w H1 H2;
    simpl; apply makedirs_body_ext; intros head w' Hlt;
    solve [lia | apply IH; lia].
Qed.

(** Any number of rounds from the number of lines left on gives the same
    [prompt_yes_no]. *)
Lemma prompt_yes_no_rounds_enough (n m : nat) (message : string) (w : world) :
  (List.length (w_stdin w) <= n)%nat -> (List.length (w_stdin w) <= m)%nat ->
  prompt_yes_no_rounds n message w = prompt_yes_no_rounds m message w.
Proof.
  revert m w. induction n as [|n IH]; intros [|m] w Hn Hm;
    cbn [prompt_yes_no_rounds]; unfold bind at 1 3; unfold input;
    destruct (w_stdin w) as [|l rest] eqn:E; try reflexivity;
    simpl in Hn, Hm; try lia.
  destruct (in_list _ ["y"; "yes"]); [reflexivity|].
  destruct (in_list _ ["n"; "no"]); [reflexivity|].
  unfold bind, print. apply IH; simpl; lia.
Qed.

End Bounds.

(** ** Undo: the log and its lines *)

Ltac run_m :=
  repeat progress
    (unfold bind, ret, raise, lift, try_except, print, sleep, Os.exists_,
       Os.path_exists, Os.isfile, Os.read_text, get_key in *;
     cbv beta iota in * ).

(** C9. With no log file, or with one that holds no line, undo says that
    there is nothing to undo and returns; the file system is as it was:
    no file moved, no directory made, the log file not removed. *)
Theorem undo_without_records_changes_nothing (w : world) :
  Os.path_exists w LOG_FILE = false
  \/ (exists c, w_files w !! LOG_FILE = Some c
                /\ PyStr.splitlines (PyStr.universal_newlines c) = []) ->
  exists m w',
    undo_last_batch w = (Ok tt, w')
    /\ w' = emit (EvPrint m) w
    /\ (m = MsgNoLog \/ m = MsgLogEmpty)
    /\ w_files w' = w_files w
    /\ w_dirs w' = w_dirs w.
Proof.
  intros [Habsent | (c & Hc & Hlines)].
  - exists MsgNoLog, (emit (EvPrint MsgNoLog) w).
    unfold undo_last_batch. run_m. rewrite Habsent. cbn [negb]. auto.
  - exists MsgLogEmpty, (emit (EvPrint MsgLogEmpty) w).
    unfold undo_last_batch. run_m.
    rewrite Hc. cbn [negb orb]. cbv beta iota. rewrite Hc, Hlines. auto.
Qed.

Lemma undo_without_records_changes_nothing_witness :
  (exists m w',
     undo_last_batch (Example.world_of "Alien.mkv" "DATA") = (Ok tt, w')
     /\ w' = emit (EvPrint m) (Example.world_of "Alien.mkv" "DATA")
     /\ (m = MsgNoLog \/ m = MsgLogEmpty)
     /\ w_files w' = w_files (Example.world_of "Alien.mkv" "DATA")
     /\ w_dirs w' = w_dirs (Example.world_of "Alien.mkv" "DATA"))
  /\ (exists m w',
        undo_last_batch Example.empty_log = (Ok tt, w')
        /\ w' = emit (EvPrint m) Example.empty_log
        /\ (m = MsgNoLog \/ m = MsgLogEmpty)
        /\ w_files w' = w_files Example.empty_log
        /\ w_dirs w' = w_dirs Example.empty_log).
Proof.
  split.
  - apply (undo_without_records_changes_nothing
             (Example.world_of "Alien.mkv" "DATA")).
    left. vm_compute. reflexivity.
  - apply (undo_without_records_changes_nothing Example.empty_log).
    right. exists EmptyString. split; vm_compute; reflexivity.
Defined.

(** The log "holds no line" exactly when it is empty. *)
Lemma log_without_lines (c : string) :
  PyStr.splitlines (PyStr.universal_newlines c) = [] <-> c = EmptyString.
Proof. now rewrite splitlines_nil, universal_newlines_nil. Qed.

(** C10. A line that contains [" -> "] is cut at the first occurrence:
    what is before it is the source path and all that is after it, further
    separators included, is the destination path; every line that can be
    cut has such a first cut; a line without the separator is passed over
    and nothing happens. *)
Theorem undo_line_cuts_at_first_separator (line : string) :
  (forall old new,
     first_cut SEPARATOR old new line ->
     undo_line line = revert_record old new)
  /\ (forall a b, line = a +:+ SEPARATOR +:+ b ->
        exists old new, first_cut SEPARATOR old new line)
  /\ ((forall a b, line <> a +:+ SEPARATOR +:+ b) ->
      forall w, undo_line line w = (Ok tt, w)).
Proof.
  split; [|split].
  - intros old new H. apply split1_first_cut in H as [Hc Hs].
    unfold undo_line. now rewrite Hc, Hs.
  - intros a b ->. apply first_cut_exists.
  - intros Hno w. unfold undo_line, PyStr.contains.
    destruct (PyStr.find SEPARATOR line) as [i|] eqn:F; [|reflexivity].
    apply find_Some in F as [Hcut _]. now apply Hno in Hcut.
Qed.

Lemma undo_line_cuts_at_first_separator_witness :
  undo_line "/Movies/a.mkv -> /Movies/x -> y (1999).mkv"
  = revert_record "/Movies/a.mkv" "/Movies/x -> y (1999).mkv".
Proof.
  apply (proj1 (undo_line_cuts_at_first_separator
                  "/Movies/a.mkv -> /Movies/x -> y (1999).mkv")).
  apply (first_cut_of_find SEPARATOR
           "/Movies/a.mkv -> /Movies/x -> y (1999).mkv" 13).
  reflexivity.
Defined.

(** ** Running statements *)

Lemma bind_ok {A B} (m : M A) (k : A -> M B) (w w1 : world) (a : A) :
  m w = (Ok a, w1) -> bind m k w = k a w1.
Proof. intros H. unfold bind. now rewrite H. Qed.

Lemma bind_raise {A B} (m : M A) (k : A -> M B) (w w1 : world) (e : exn) :
  m w = (Raise e, w1) -> bind m k w = (Raise e, w1).
Proof. intros H. unfold bind. now rewrite H. Qed.

Lemma try_ok {A} (m : M A) (h : exn -> M A) (w w1 : world) (a : A) :
  m w = (Ok a, w1) -> try_except m h w = (Ok a, w1).
Proof. intros H. unfold try_except. now rewrite H. Qed.

Lemma try_raise {A} (m : M A) (h : exn -> M A) (w w1 : world) (e : exn) :
  m w = (Raise e, w1) -> try_except m h w = h e w1.
Proof. intros H. unfold try_except. now rewrite H. Qed.

Lemma for_each_cons {A} (x : A) (l : list A) (body : A -> M unit)
    (w w1 : world) :
  body x w = (Ok tt, w1) -> for_each (x :: l) body w = for_each l body w1.
Proof. intros H. simpl. now rewrite (bind_ok _ _ _ _ _ H). Qed.

Lemma for_each_app {A} (l1 l2 : list A) (body : A -> M unit) (w : world) :
  for_each (l1 ++ l2) body w
  = (for_each l1 body ;;; for_each l2 body) w.
Proof.
  revert w. induction l1 as [|x l1 IH]; intros w.
  - cbn [app for_each]. unfold bind, ret. now destruct (for_each l2 body w).
  - cbn [app for_each]. unfold bind in *.
    destruct (body x w) as [[[]|e] w1]; [apply IH | reflexivity].
Qed.

Lemma for_each_map {A B} (f : A -> B) (l : list A) (body : B -> M unit)
    (w : world) :
  for_each (List.map f l) body w = for_each l (fun x => body (f x)) w.
Proof.
  revert w. induction l as [|x l IH]; intros w; [reflexivity|].
  cbn [List.map for_each]. unfold bind.
  destruct (body (f x) w) as [[[]|e] w1]; [apply IH | reflexivity].
Qed.

(** The two loops of the scan are one loop over the listed files. *)
Lemma scan_flat (body : string -> string -> M unit)
    (walk : list (string * list string)) (w : world) :
  for_each walk (fun '(root, files) => for_each files (body root)) w
  = for_each
      (List.flat_map (fun '(root, files) => List.map (pair root) files) walk)
      (fun rf => body (fst rf) (snd rf)) w.
Proof.
  revert w. induction walk as [|[root files] walk IH]; intros w;
    [reflexivity|].
  cbn [for_each List.flat_map]. rewrite for_each_app. unfold bind.
  rewrite for_each_map. cbn [fst snd].
  destruct (for_each files (fun x => body root x) w) as [[[]|e] w1] eqn:E;
    [apply IH | reflexivity].
Qed.

(** ** What a statement leaves alone *)

Section Keeps.
Context (R : relation world) `{!PreOrder R}.

Lemma keeps_ret {A} (a : A) : keeps R (ret a).
Proof. intros w. reflexivity. Qed.

Lemma keeps_raise {A} (e : exn) : keeps R (@raise A e).
Proof. intros w. reflexivity. Qed.

Lemma keeps_lift {A} (r : result A) : keeps R (lift r).
Proof. intros w. reflexivity. Qed.

Lemma keeps_bind {A B} (m : M A) (k : A -> M B) :
  keeps R m -> (forall a, keeps R (k a)) -> keeps R (bind m k).
Proof.
  intros Hm Hk w. unfold bind. specialize (Hm w).
  destruct (m w) as [[a|e] w1]; simpl in *; [|exact Hm].
  etransitivity; [exact Hm | apply Hk].
Qed.

Lemma keeps_try {A} (m : M A) (h : exn -> M A) :
  keeps R m -> (forall e, keeps R (h e)) -> keeps R (try_except m h).
Proof.
  intros Hm Hh w. unfold try_except. specialize (Hm w).
  destruct (m w) as [[a|e] w1]; simpl in *; [exact Hm|].
  etransitivity; [exact Hm | apply Hh].
Qed.

Lemma keeps_for_each {A} (l : list A) (body : A -> M unit) :
  (forall x, keeps R (body x)) -> keeps R (for_each l body).
Proof.
  intros Hb. induction l as [|x l IH]; simpl.
  - apply keeps_ret.
  - apply keeps_bind; [apply Hb | intros _; exact IH].
Qed.

End Keeps.

#[local] Instance same_state_preorder : PreOrder same_state.
Proof.
  split.
  - intros w. now repeat split.
  - intros a b c (?&?&?&?) (?&?&?&?). repeat split; congruence.
Qed.

#[local] Instance same_files_preorder : PreOrder same_files.
Proof.
  split.
  - intros w. now repeat split.
  - intros a b c (?&?&?&?) (?&?&?&?).
    repeat split; try congruence. set_solver.
Qed.

Lemma same_state_files (w w' : world) : same_state w w' -> same_files w w'.
Proof. intros (?&Hd&?&?). repeat split; try assumption. now rewrite Hd. Qed.

Lemma keeps_weaken {A} (m : M A) : keeps same_state m -> keeps same_files m.
Proof. intros H w. apply same_state_files, H. Qed.

Lemma keeps_print (m : message) : keeps same_state (print m).
Proof. intros w. now repeat split. Qed.

Lemma keeps_sleep (q : Q) : keeps same_state (sleep q).
Proof. intros w. now repeat split. Qed.

Lemma keeps_get_key : keeps same_state get_key.
Proof. intros w. now repeat split. Qed.

Lemma keeps_exists (p : string) : keeps same_state (Os.exists_ p).
Proof. intros w. now repeat split. Qed.

Lemma keeps_requests_get sv url params :
  keeps same_state (requests_get sv url params).
Proof. intros w. now repeat split. Qed.

Create HintDb keeps.
#[local] Hint Resolve keeps_ret keeps_raise keeps_lift keeps_print keeps_sleep
  keeps_get_key keeps_exists keeps_requests_get : keeps.

Ltac keeps_step :=
  first [ solve [eauto with keeps typeclass_instances]
        | (apply keeps_bind; [apply _| |intros ?])
        | (apply keeps_try; [apply _| |intros ?]) ].

Lemma keeps_get_movie_data_body sv url params :
  keeps same_state (get_movie_data_body sv url params).
Proof.
  unfold get_movie_data_body. repeat keeps_step.
  destruct (negb _); repeat keeps_step.
Qed.

#[local] Hint Resolve keeps_get_movie_data_body : keeps.

Lemma keeps_get_movie_data sv title :
  keeps same_state (get_movie_data sv title).
Proof. unfold get_movie_data. repeat keeps_step. Qed.
#[local] Hint Resolve keeps_get_movie_data : keeps.

(** ** The metadata resolver *)

Lemma first_with_release_date_app (pre post : list json) (m : json) :
  Forall undated pre -> dated m ->
  first_with_release_date (pre ++ m :: post) = Ok m.
Proof.
  intros Hpre (d & Hd & Ht). induction Hpre as [|x pre (dx & Hx & Hf) _ IH]; simpl.
  - now rewrite Hd, Ht.
  - now rewrite Hx, Hf.
Qed.

Lemma first_with_release_date_none (ms : list json) :
  Forall undated ms -> first_with_release_date ms = Ok JNull.
Proof.
  induction 1 as [|x ms (dx & Hx & Hf) _ IH]; simpl; [reflexivity|].
  now rewrite Hx, Hf.
Qed.

Lemma dated_truthy (m : json) : dated m -> Py.truthy m = true.
Proof.
  intros (d & Hd & Ht). destruct m as [| | | | |items]; try discriminate.
  destruct items; [|reflexivity]. simpl in Hd. injection Hd as <-. discriminate.
Qed.

Lemma requests_made_emit (w : world) (e : event) :
  requests_made (emit e w)
  = (requests_made w + if is_request e then 1 else 0)%nat.
Proof.
  unfold requests_made, emit. simpl. rewrite List.filter_app, List.length_app.
  simpl. now destruct (is_request e).
Qed.

(** C6. When the search answers with a list of results, the resolver goes
    through them in the order of the answer and takes the first whose
    release date is not empty: the details request is made for the
    identifier of that entry and its answer is returned.  When no result
    has a release date, the resolver returns [None] after the search
    request alone. *)
Theorem resolver_takes_first_dated_result (sv : service) (title : string)
    (w : world) (resp : response) (data : json) (ms : list json) :
  let params := [("api_key", w_key w); ("query", title)] in
  let w1 := emit (EvRequest SEARCH_URL params) w in
  sv (requests_made w) SEARCH_URL params = Ok resp ->
  raise_for_status resp = Ok tt ->
  resp_json resp = Ok data ->
  Py.get_default data "results" (JArr []) = Ok (JArr ms) ->
  (forall pre m post,
     ms = pre ++ m :: post -> Forall undated pre -> dated m ->
     first_with_release_date ms = Ok m
     /\ forall movie_id dresp details,
          Py.getitem m "id" = Ok movie_id ->
          let url := DETAILS_URL +:+ Py.str movie_id in
          sv (S (requests_made w)) url [("api_key", w_key w)] = Ok dresp ->
          raise_for_status dresp = Ok tt ->
          resp_json dresp = Ok details ->
          get_movie_data sv title w
          = (Ok details, emit (EvRequest url [("api_key", w_key w)]) w1))
  /\ (Forall undated ms -> get_movie_data sv title w = (Ok JNull, w1)).
Proof.
  intros params w1 Hsv Hst Hjs Hres.
  split.
  - intros pre m post -> Hpre Hm.
    pose proof (first_with_release_date_app pre post m Hpre Hm) as Hfirst.
    split; [exact Hfirst|].
    intros movie_id dresp details Hid url Hd Hdst Hdjs.
    unfold get_movie_data, get_movie_data_body, try_except, bind, get_key,
      requests_get, lift, ret. cbv beta iota.
    fold params. rewrite Hsv, Hst, Hjs, Hres. cbn [Py.iter].
    rewrite Hfirst, (dated_truthy m Hm). cbn [negb]. rewrite Hid.
    fold w1. replace (requests_made w1) with (S (requests_made w))
      by (unfold w1; rewrite requests_made_emit; simpl; lia).
    fold url. change (w_key w1) with (w_key w).
    now rewrite Hd, Hdst, Hdjs.
  - intros Hnone.
    unfold get_movie_data, get_movie_data_body, try_except, bind, get_key,
      requests_get, lift, ret. cbv beta iota.
    fold params. rewrite Hsv, Hst, Hjs, Hres. cbn [Py.iter].
    now rewrite (first_with_release_date_none ms Hnone).
Qed.

Lemma resolver_takes_first_dated_result_witness :
  exists details w',
    get_movie_data Example.tmdb "Alien" (Example.world_of "Alien.mkv" "DATA")
    = (Ok details, w')
    /\ Py.getitem details "id" = Ok (JNum 348).
Proof.
  eexists _, _. split.
  - refine (proj2 (proj1
      (resolver_takes_first_dated_result Example.tmdb "Alien"
         (Example.world_of "Alien.mkv" "DATA") _ _ _
         eq_refl eq_refl eq_refl eq_refl)
      [JObj [("id", JNum 1); ("release_date", JStr EmptyString)]]
      (JObj [("id", JNum 348); ("release_date", JStr "1979-05-25")])
      [JObj [("id", JNum 9); ("release_date", JStr "2001-01-01")]]
      eq_refl _ _) (JNum 348) _ _ eq_refl eq_refl eq_refl eq_refl).
    + constructor; [|constructor]. exists (JStr EmptyString). now split.
    + exists (JStr "1979-05-25"). now split.
  - reflexivity.
Defined.

(** C7. Whatever the service does, [get_movie_data] returns: an exception
    raised anywhere in the lookup is caught, reported and turned into
    [None].  The loop of the batch then takes the file as one without
    year, changes nothing and goes on with the next file. *)
Theorem resolver_failure_is_not_found (sv : service) (title : string)
    (w : world) :
  let params := [("api_key", w_key w); ("query", title)] in
  (exists v w', get_movie_data sv title w = (Ok v, w'))
  /\ (forall e w1,
        get_movie_data_body sv SEARCH_URL params w = (Raise e, w1) ->
        get_movie_data sv title w
        = (Ok JNull, emit (EvPrint (MsgTmdbError title e)) w1)
        /\ forall clean_junk dry_run sort_collections root file files,
             in_list (PyStr.lower (snd (OsPath.splitext file)))
                     VIDEO_EXTENSIONS = true ->
             has_year file = false ->
             clean_title file clean_junk = title ->
             let body := rename_file sv clean_junk dry_run sort_collections root in
             let w2 := emit (EvPrint (MsgYearNotFound title))
                         (emit (EvPrint (MsgTmdbError title e)) w1) in
             body file w = (Ok tt, w2)
             /\ same_state w w2
             /\ for_each (file :: files) body w = for_each files body w2).
Proof.
  intros params.
  assert (Hcatch : forall e w1,
            get_movie_data_body sv SEARCH_URL params w = (Raise e, w1) ->
            get_movie_data sv title w
            = (Ok JNull, emit (EvPrint (MsgTmdbError title e)) w1)).
  { intros e w1 H. unfold get_movie_data, bind, get_key, try_except.
    cbv beta iota. fold params. now rewrite H. }
  split; [|intros e w1 Hbody; split; [now apply Hcatch|]].
  - unfold get_movie_data, bind, get_key, try_except. cbv beta iota.
    fold params.
    destruct (get_movie_data_body sv SEARCH_URL params w) as [[v|e] w1];
      eexists _, _; reflexivity.
  - intros clean_junk dry_run sort_collections root file files Hext Hyear
      Htitle body w2.
    assert (Hrun : body file w = (Ok tt, w2)).
    { unfold body, rename_file, plan_file.
      destruct (OsPath.splitext file) as [name ext]. cbn [snd] in Hext.
      rewrite Hext, Hyear, Htitle. cbn [negb].
      unfold bind at 1 2. rewrite (Hcatch e w1 Hbody). reflexivity. }
    split; [exact Hrun|]. split.
    + pose proof (keeps_get_movie_data_body sv SEARCH_URL params w) as H.
      rewrite Hbody in H. exact H.
    + now apply for_each_cons.
Qed.

Lemma resolver_failure_is_not_found_witness :
  get_movie_data Example.offline "Alien" (Example.world_of "Alien.mkv" "DATA")
  = (Ok JNull,
     emit (EvPrint (MsgTmdbError "Alien" RequestException))
       (emit (EvRequest SEARCH_URL [("api_key", "KEY"); ("query", "Alien")])
          (Example.world_of "Alien.mkv" "DATA")))
  /\ rename_file Example.offline false false false ROOT_FOLDER "Alien.mkv"
       (Example.world_of "Alien.mkv" "DATA")
     = (Ok tt,
        emit (EvPrint (MsgYearNotFound "Alien"))
          (emit (EvPrint (MsgTmdbError "Alien" RequestException))
             (emit (EvRequest SEARCH_URL [("api_key", "KEY"); ("query", "Alien")])
                (Example.world_of "Alien.mkv" "DATA")))).
Proof.
  pose proof (proj2 (resolver_failure_is_not_found Example.offline "Alien"
                       (Example.world_of "Alien.mkv" "DATA"))
                RequestException _ eq_refl) as [H1 H2].
  split; [exact H1|].
  exact (proj1 (H2 false false false ROOT_FOLDER "Alien.mkv" []
                   eq_refl eq_refl eq_refl)).
Defined.

(** The resolver hands on whatever the details request answers.  An
    answer that is not an object is not a failure of the lookup; the loop
    body raises on it when it asks for the release date. *)
Example details_that_are_no_object :
  let sv : service :=
    fun n _ _ =>
      match n with
      | O => Ok (Example.search_hit 7 "1999-03-31")
      | _ => Ok (mkResponse (Ok tt) (Ok (JArr [JNum 1])))
      end in
  let w := Example.world_of "Alien.mkv" "DATA" in
  fst (get_movie_data sv "Alien" w) = Ok (JArr [JNum 1])
  /\ fst (rename_file sv false false false ROOT_FOLDER "Alien.mkv" w)
     = Raise AttributeError.
Proof. split; vm_compute; reflexivity. Qed.

(** ** The batch: one file at a time *)

Lemma keeps_mkdir (p : string) : keeps same_files (Os.mkdir p).
Proof.
  intros w. unfold Os.mkdir.
  destruct (String.eqb p EmptyString); [reflexivity|].
  destruct (Os.path_exists w p); [reflexivity|].
  destruct (Os.entry_error w p); [reflexivity|].
  repeat split. simpl. set_solver.
Qed.

Ltac keeps_case :=
  match goal with
  | |- keeps _ (if ?b then _ else _) => destruct b
  | |- keeps _ (match ?x with _ => _ end) => destruct x
  | |- keeps same_files _ => apply keeps_weaken
  end.

Lemma keeps_makedirs_body (rec : string -> M unit) (name : string) :
  (forall h, keeps same_files (rec h)) ->
  keeps same_files (Os.makedirs_body rec name).
Proof.
  intros Hrec. unfold Os.makedirs_body.
  destruct (OsPath.split name) as [head tail].
  destruct (if String.eqb tail EmptyString then OsPath.split head
            else (head, tail)) as [head' tail'].
  apply keeps_bind; [apply _| |intros _].
  - destruct (negb _ && negb _); [|apply keeps_ret, _].
    apply keeps_bind; [apply _|apply keeps_weaken, keeps_exists|].
    intros []; [apply keeps_ret, _|].
    apply keeps_try; [apply _|apply Hrec|].
    intros []; try (apply keeps_raise, _). apply keeps_ret, _.
  - apply keeps_try; [apply _|apply keeps_mkdir|]. intros e w.
    cbv beta. destruct (Os.isdir w name); reflexivity.
Qed.

Lemma keeps_makedirs_depth (depth : nat) (name : string) :
  keeps same_files (Os.makedirs_depth depth name).
Proof.
  revert name. induction depth as [|depth IH]; intros name;
    apply keeps_makedirs_body; [intros h; apply keeps_ret, _ | exact IH].
Qed.

Lemma keeps_makedirs (name : string) : keeps same_files (Os.makedirs name).
Proof. apply keeps_makedirs_depth. Qed.

#[local] Hint Resolve keeps_mkdir keeps_makedirs : keeps.

Lemma keeps_plan_file sv clean_junk sort_collections root file :
  keeps same_files (plan_file sv clean_junk sort_collections root file).
Proof.
  unfold plan_file.
  repeat first [ solve [eauto with keeps typeclass_instances]
               | solve [apply keeps_weaken; eauto with keeps typeclass_instances]
               | (apply keeps_bind; [apply _| |intros ?])
               | keeps_case ].
Qed.

Lemma keeps_dry_run (file : string) (p : plan) :
  keeps same_state (apply_plan true file p).
Proof.
  unfold apply_plan.
  repeat first [ keeps_step | keeps_case ].
Qed.

Lemma rename_file_unfold sv clean_junk dry_run sort_collections root file w :
  rename_file sv clean_junk dry_run sort_collections root file w
  = match plan_file sv clean_junk sort_collections root file w with
    | (Ok (Some p), w1) => apply_plan dry_run file p w1
    | (Ok None, w1) => (Ok tt, w1)
    | (Raise e, w1) => (Raise e, w1)
    end.
Proof.
  unfold rename_file, bind.
  now destruct (plan_file sv clean_junk sort_collections root file w)
    as [[[p|]|e] w1].
Qed.

(** C2. When something already exists at the destination computed for a
    candidate, the candidate is skipped: the loop body reports it and
    returns, the files and the log are as before (so the source is still
    at its path, with its content).  Conversely, when the loop body did
    change a file or the log, the destination it had computed was free,
    in the world it tested and in the files before the step. *)
Theorem collision_skips_candidate (sv : service)
    (clean_junk dry_run sort_collections : bool) (root file : string)
    (w : world) :
  let run := rename_file sv clean_junk dry_run sort_collections root file w in
  (forall p w1,
     plan_file sv clean_junk sort_collections root file w = (Ok (Some p), w1) ->
     Os.path_exists w1 (new_path p) = true ->
     run = (Ok tt, emit (EvPrint (MsgSkippedExists (new_name p))) w1)
     /\ w_files (snd run) = w_files w
     /\ w_log (snd run) = w_log w
     /\ w_files (snd run) !! old_path p = w_files w !! old_path p)
  /\ (w_files (snd run) <> w_files w \/ w_log (snd run) <> w_log w ->
      exists p w1,
        plan_file sv clean_junk sort_collections root file w = (Ok (Some p), w1)
        /\ Os.path_exists w1 (new_path p) = false
        /\ w_files w !! new_path p = None
        /\ dry_run = false).
Proof.
  intros run. subst run.
  rewrite (rename_file_unfold sv clean_junk dry_run sort_collections root file w).
  pose proof (keeps_plan_file sv clean_junk sort_collections root file w)
    as (Hf & _ & Hl & _).
  destruct (plan_file sv clean_junk sort_collections root file w)
    as [[[p|]|e] w1] eqn:Hplan; cbn [snd] in Hf, Hl.
  - split.
    + intros p' w1' [= <- <-] Hex.
      assert (Hrun : apply_plan dry_run file p w1
                     = (Ok tt, emit (EvPrint (MsgSkippedExists (new_name p))) w1)).
      { unfold apply_plan, bind, Os.exists_, print. now rewrite Hex. }
      rewrite Hrun. cbn [snd].
      change (w_files (emit _ w1)) with (w_files w1).
      change (w_log (emit _ w1)) with (w_log w1).
      now rewrite Hf, Hl.
    + intros Hchanged. exists p, w1.
      destruct (Os.path_exists w1 (new_path p)) eqn:Hex.
      { exfalso.
        assert (Hrun : apply_plan dry_run file p w1
                       = (Ok tt, emit (EvPrint (MsgSkippedExists (new_name p))) w1)).
        { unfold apply_plan, bind, Os.exists_, print. now rewrite Hex. }
        rewrite Hrun in Hchanged. cbn [snd] in Hchanged.
        change (w_files (emit _ w1)) with (w_files w1) in Hchanged.
        change (w_log (emit _ w1)) with (w_log w1) in Hchanged.
        destruct Hchanged; congruence. }
      destruct dry_run.
      { exfalso.
        pose proof (keeps_dry_run file p w1) as (Hf' & _ & Hl' & _).
        destruct Hchanged; congruence. }
      repeat split; try reflexivity.
      unfold Os.path_exists, Os.isfile in Hex. rewrite <- Hf.
      destruct (w_files w1 !! new_path p); [discriminate | reflexivity].
  - split; [intros ? ? [=]|]. cbn [snd]. intros []; congruence.
  - split; [intros ? ? [=]|]. cbn [snd]. intros []; congruence.
Qed.

Lemma collision_skips_candidate_witness :
  rename_file Example.tmdb false false false ROOT_FOLDER "Alien.mkv"
    Example.taken
  = (Ok tt,
     emit (EvPrint (MsgSkippedExists "Alien (1979).mkv"))
       (snd (plan_file Example.tmdb false false ROOT_FOLDER "Alien.mkv"
               Example.taken)))
  /\ w_files (snd (rename_file Example.tmdb false false false ROOT_FOLDER
                     "Alien.mkv" Example.taken))
     = w_files Example.taken.
Proof.
  pose proof (proj1 (collision_skips_candidate Example.tmdb false false false
                       ROOT_FOLDER "Alien.mkv" Example.taken)
                (mkPlan "/Movies/Alien.mkv" "/Movies/Alien (1979).mkv"
                        "Alien (1979).mkv")
                (snd (plan_file Example.tmdb false false ROOT_FOLDER "Alien.mkv"
                        Example.taken))) as H.
  destruct H as (H1 & H2 & _).
  - vm_compute. reflexivity.
  - vm_compute. reflexivity.
  - split; [exact H1 | exact H2].
Defined.

(** ** Rate limiting *)

(** A rename, or its dry-run report, is followed by the delay. *)
Lemma apply_plan_sleeps (dry_run : bool) (file : string) (p : plan)
    (w w' : world) :
  Os.path_exists w (new_path p) = false ->
  apply_plan dry_run file p w = (Ok tt, w') ->
  exists t, w_trace w' = t ++ [EvSleep API_DELAY].
Proof.
  intros Hex. unfold apply_plan, bind, Os.exists_, sleep. rewrite Hex.
  destruct dry_run.
  - intros [= <-]. now eexists.
  - destruct (Os.rename (old_path p) (new_path p) w) as [[[]|e] w1];
      [|discriminate].
    intros [= <-]. now eexists.
Qed.

(** C8. The delay is at the end of the loop body, behind the [continue]
    of a file without year: with two files of which the first is unknown
    to the service, the second lookup follows the first with no delay in
    between. *)
Theorem lookup_after_skip_is_not_delayed :
  let walk := [(ROOT_FOLDER, ["Unknown.mkv"; "Alien.mkv"])] in
  let w' := snd (rename_scan Example.tmdb false false false walk
                   Example.two_files) in
  w_trace w'
  = [EvRequest SEARCH_URL [("api_key", "KEY"); ("query", "Unknown")];
     EvPrint (MsgYearNotFound "Unknown");
     EvRequest SEARCH_URL [("api_key", "KEY"); ("query", "Alien")];
     EvRequest (DETAILS_URL +:+ "348") [("api_key", "KEY")];
     EvPrint (MsgRenamed "Alien.mkv" "Alien (1979).mkv");
     EvSleep API_DELAY]
  /\ rate_limited (w_trace w') = false.
Proof. split; vm_compute; reflexivity. Qed.

(** The same after the [continue] of a collision. *)
Example lookup_after_collision_is_not_delayed :
  let walk := [(ROOT_FOLDER, ["Alien.mkv"; "Unknown.mkv"])] in
  let w' := snd (rename_scan Example.tmdb false false false walk
                   Example.taken) in
  List.filter (fun e => is_lookup e || is_delay e) (w_trace w')
  = [EvRequest SEARCH_URL [("api_key", "KEY"); ("query", "Alien")];
     EvRequest SEARCH_URL [("api_key", "KEY"); ("query", "Unknown")]]
  /\ rate_limited (w_trace w') = false.
Proof. split; vm_compute; reflexivity. Qed.

(** ** Dry run *)

Lemma keeps_rename_file_dry sv clean_junk sort_collections root file :
  keeps same_files (rename_file sv clean_junk true sort_collections root file).
Proof.
  unfold rename_file. apply keeps_bind; [apply _|apply keeps_plan_file|].
  intros [p|]; [apply keeps_weaken, keeps_dry_run | apply keeps_ret, _].
Qed.

Lemma keeps_scan_dry sv clean_junk sort_collections walk :
  keeps same_files
    (for_each walk (fun '(root, files) =>
       for_each files (fun file =>
         rename_file sv clean_junk true sort_collections root file))).
Proof.
  apply keeps_for_each; [apply _|]. intros [root files].
  apply keeps_for_each; [apply _|]. intros file.
  apply keeps_rename_file_dry.
Qed.

(** Directories made in a dry run. *)

#[local] Instance only_adds_preorder (made : list string) :
  PreOrder (only_adds made).
Proof.
  split.
  - intros w d Hd. now left.
  - intros w1 w2 w3 H12 H23 d Hd.
    destruct (H23 d Hd) as [H|H]; [now apply H12 | now right].
Qed.

Lemma same_files_dirs_adds (made : list string) (w w' : world) :
  w_dirs w' = w_dirs w -> only_adds made w w'.
Proof. intros H d Hd. left. now rewrite <- H. Qed.

Lemma only_adds_mono (made made' : list string) (w w' : world) :
  (forall d, d ∈ made -> d ∈ made') -> only_adds made w w' ->
  only_adds made' w w'.
Proof. intros Hsub H d Hd. destruct (H d Hd); [now left | right; auto]. Qed.

Lemma adds_mkdir (p : string) (made : list string) :
  p ∈ made -> keeps (only_adds made) (Os.mkdir p).
Proof.
  intros Hp w. unfold Os.mkdir.
  destruct (String.eqb p EmptyString); [reflexivity|].
  destruct (Os.path_exists w p); [reflexivity|].
  destruct (Os.entry_error w p); [reflexivity|].
  intros d Hd. cbn in Hd. apply elem_of_union in Hd as [Hd|Hd]; [|now left].
  apply elem_of_singleton in Hd as ->. now right.
Qed.

Lemma adds_makedirs_body (rec : string -> M unit) (name : string)
    (made : list string) :
  name ∈ made ->
  keeps (only_adds made) (rec (fst (makedirs_parts name))) ->
  keeps (only_adds made) (Os.makedirs_body rec name).
Proof.
  intros Hname Hrec. unfold Os.makedirs_body. unfold makedirs_parts in Hrec.
  destruct (OsPath.split name) as [head tail].
  destruct (if String.eqb tail EmptyString then OsPath.split head
            else (head, tail)) as [head' tail']. cbn [fst] in Hrec.
  apply keeps_bind; [apply _| |intros _].
  - destruct (negb _ && negb _); [|apply keeps_ret, _].
    apply keeps_bind; [apply _| |].
    + intros w. reflexivity.
    + intros []; [apply keeps_ret, _|].
      apply keeps_try; [apply _|apply Hrec|].
      intros []; try (apply keeps_raise, _). apply keeps_ret, _.
  - apply keeps_try; [apply _|now apply adds_mkdir|]. intros e w.
    cbv beta. destruct (Os.isdir w name); reflexivity.
Qed.

Lemma adds_makedirs_depth (depth : nat) (name : string) :
  keeps (only_adds (above depth name)) (Os.makedirs_depth depth name).
Proof.
  revert name. induction depth as [|depth IH]; intros name;
    cbn [Os.makedirs_depth above]; apply adds_makedirs_body.
  - apply elem_of_cons. now left.
  - apply keeps_ret, _.
  - apply elem_of_cons. now left.
  - intros w. eapply only_adds_mono; [|apply IH].
    intros d Hd. apply elem_of_cons. now right.
Qed.

Lemma adds_makedirs (name : string) :
  keeps (only_adds (folder_and_above name)) (Os.makedirs name).
Proof. apply adds_makedirs_depth. Qed.
(** The directories after the loop body has planned for one file: as
    before, or with the folder of the collection in the answer of the
    lookup, and what is above it, added. *)
Lemma plan_file_dirs (sv : service) (clean_junk sort_collections : bool)
    (root file : string) (w : world) :
  let w1 := snd (plan_file sv clean_junk sort_collections root file w) in
  w_dirs w1 = w_dirs w
  \/ (sort_collections = true
      /\ exists details collection name,
           fst (get_movie_data sv (clean_title file clean_junk) w) = Ok details
           /\ Py.get details "belongs_to_collection" = Ok collection
           /\ Py.getitem collection "name" = Ok (JStr name)
           /\ only_adds (folder_and_above (OsPath.join ROOT_FOLDER name)) w w1).
Proof.
  intros w1. remember (snd (plan_file sv clean_junk sort_collections root
                              file w)) as w1' eqn:E.
  subst w1. revert E.
  unfold plan_file. destruct (OsPath.splitext file) as [name0 ext0].
  destruct (in_list (PyStr.lower ext0) VIDEO_EXTENSIONS);
    [|intros ->; now left].
  destruct (has_year file); [intros ->; now left|]. cbn [negb].
  pose proof (keeps_get_movie_data sv (clean_title file clean_junk) w)
    as (_ & Hd & _).
  unfold bind at 1.
  destruct (get_movie_data sv (clean_title file clean_junk) w)
    as [[md|e] wa] eqn:Hdata; cbn [snd fst] in *; [|intros ->; now left].
  unfold bind, lift, ret, raise, print.
  destruct (negb (Py.truthy md)); [intros ->; now left|].
  destruct (Py.get md "release_date") as [d0|e]; [|intros ->; now left].
  destruct (negb (Py.truthy d0)); [intros ->; now left|].
  destruct (Py.getitem md "release_date") as [rd|e]; [|intros ->; now left].
  destruct (Py.slice_to 4 rd) as [year|e]; [|intros ->; now left].
  destruct sort_collections; [|intros ->; now left].
  destruct (Py.get md "belongs_to_collection") as [collection|e] eqn:Hcoll;
    [|intros ->; now left].
  destruct (Py.truthy collection); [|intros ->; now left].
  destruct (Py.getitem collection "name") as [cn|e] eqn:Hname;
    [|intros ->; now left].
  destruct cn as [| | |cn| |]; try (intros ->; now left).
  intros E. right. split; [reflexivity|]. exists md, collection, cn.
  split; [reflexivity|]. split; [exact Hcoll|]. split; [exact Hname|].
  pose proof (adds_makedirs (OsPath.join ROOT_FOLDER cn) wa) as Hadd.
  assert (Hw : w_dirs w1'
               = w_dirs (snd (Os.makedirs (OsPath.join ROOT_FOLDER cn) wa))).
  { rewrite E.
    now destruct (Os.makedirs (OsPath.join ROOT_FOLDER cn) wa) as [[[]|?] ?]. }
  intros d Hdir. rewrite Hw in Hdir.
  destruct (Hadd d Hdir) as [H|H]; [left; now rewrite <- Hd | now right].
Qed.
Lemma rename_file_dry_dirs (sv : service) (clean_junk sort_collections : bool)
    (root file : string) (w : world) :
  w_dirs (snd (rename_file sv clean_junk true sort_collections root file w))
  = w_dirs (snd (plan_file sv clean_junk sort_collections root file w)).
Proof.
  rewrite rename_file_unfold.
  destruct (plan_file sv clean_junk sort_collections root file w)
    as [[[p|]|e] w1]; try reflexivity.
  cbn [snd]. now destruct (keeps_dry_run file p w1) as (_ & -> & _).
Qed.

(** A directory that is new after the loop of a dry run was made when
    the loop was at some file, for the collection in the answer to the
    lookup of that file. *)
Lemma dry_loop_new_dir (sv : service) (clean_junk sort_collections : bool)
    (cands : list (string * string)) (w : world) (d : string) :
  let body := fun rf : string * string =>
    rename_file sv clean_junk true sort_collections (fst rf) (snd rf) in
  d ∈ w_dirs (snd (for_each cands body w)) -> d ∉ w_dirs w ->
  sort_collections = true
  /\ exists before root file after details collection name,
       cands = before ++ (root, file) :: after
       /\ fst (get_movie_data sv (clean_title file clean_junk)
                 (snd (for_each before body w))) = Ok details
       /\ Py.get details "belongs_to_collection" = Ok collection
       /\ Py.getitem collection "name" = Ok (JStr name)
       /\ d ∈ folder_and_above (OsPath.join ROOT_FOLDER name).
Proof.
  intros body. revert w. induction cands as [|[root file] cands IH];
    intros w Hin Hout; [contradiction|].
  cbn [for_each] in Hin. unfold bind in Hin.
  assert (Hstep : d ∈ w_dirs (snd (body (root, file) w)) ->
            sort_collections = true
            /\ exists before root0 file0 after details collection name,
                 (root, file) :: cands = before ++ (root0, file0) :: after
                 /\ fst (get_movie_data sv (clean_title file0 clean_junk)
                           (snd (for_each before body w))) = Ok details
                 /\ Py.get details "belongs_to_collection" = Ok collection
                 /\ Py.getitem collection "name" = Ok (JStr name)
                 /\ d ∈ folder_and_above (OsPath.join ROOT_FOLDER name)).
  { intros Hd. subst body. cbn [fst snd] in Hd.
    rewrite rename_file_dry_dirs in Hd.
    destruct (plan_file_dirs sv clean_junk sort_collections root file w)
      as [Hsame | (Hsort & details & collection & name & H1 & H2 & H3 & H4)].
    - rewrite Hsame in Hd. contradiction.
    - split; [exact Hsort|].
      exists [], root, file, cands, details, collection, name.
      repeat split; try assumption.
      destruct (H4 d Hd); [contradiction | assumption]. }
  destruct (body (root, file) w) as [[[]|e] w1] eqn:Hbody; cbn [snd] in *;
    [|now apply Hstep].
  destruct (decide (d ∈ w_dirs w1)) as [Hd|Hd]; [now apply Hstep|].
  destruct (IH w1 Hin Hd)
    as (Hsort & before & root0 & file0 & after & details & collection & name
        & -> & H1 & H2 & H3 & H4).
  split; [exact Hsort|].
  exists ((root, file) :: before), root0, file0, after, details, collection,
    name.
  split; [reflexivity|]. split; [|now repeat split].
  now rewrite (for_each_cons _ _ _ _ _ Hbody).
Qed.

(** C4 as stated fails: a dry run over a folder with one film of a
    collection, collection sorting on and no log yet, leaves behind an
    empty log file and the folder of the collection. *)
Lemma dry_run_creates_log_and_folder :
  let w := Example.world_of "Alien.mkv" "DATA" in
  let w' := snd (rename_scan Example.tmdb false true true
                   [(ROOT_FOLDER, ["Alien.mkv"])] w) in
  (w_files w !! LOG_FILE = None /\ w_files w' !! LOG_FILE = Some EmptyString)
  /\ (Os.isdir w "/Movies/Alien Collection" = false
      /\ Os.isdir w' "/Movies/Alien Collection" = true).
Proof. repeat split; vm_compute; reflexivity. Qed.

(** The files and the directories that were there, after a dry run. *)
Lemma dry_scan_files (sv : service)
    (clean_junk sort_collections : bool) (walk : list (string * list string))
    (w : world) :
  let w' := snd (rename_scan sv clean_junk true sort_collections walk w) in
  (forall p, p <> LOG_FILE -> w_files w' !! p = w_files w !! p)
  /\ (w_files w' !! LOG_FILE = w_files w !! LOG_FILE
      \/ (w_files w !! LOG_FILE = None
          /\ w_files w' !! LOG_FILE = Some EmptyString))
  /\ w_dirs w ⊆ w_dirs w'.
Proof.
  intros w'. subst w'. unfold rename_scan, Os.with_open_append.
  set (body := for_each walk _).
  assert (Hbody : forall w1, w_log w1 = EmptyString ->
            let w2 := snd (body w1) in
            w_files (Os.close_append LOG_FILE w2)
            = <[LOG_FILE := from_option id EmptyString (w_files w1 !! LOG_FILE)]>
                (w_files w1)
            /\ w_dirs w1 ⊆ w_dirs (Os.close_append LOG_FILE w2)).
  { intros w1 Hlog w2.
    destruct (keeps_scan_dry sv clean_junk sort_collections walk w1)
      as (Hf & Hd & Hl & _).
    fold body in Hf, Hd, Hl. fold w2 in Hf, Hd, Hl.
    unfold Os.close_append. simpl.
    now rewrite Hf, Hl, Hlog, str_app_nil_r. }
  unfold Os.open_append.
  destruct (Os.isdir w LOG_FILE); [cbn [snd]; auto|].
  destruct (Os.isfile w LOG_FILE) eqn:Hfile.
  - destruct (Hbody (set_log EmptyString w) eq_refl) as [Hf Hd].
    destruct (body (set_log EmptyString w)) as [r w2]. cbn [snd] in *.
    rewrite Hf. simpl. unfold Os.isfile in Hfile.
    destruct (w_files w !! LOG_FILE) as [c|] eqn:Hc; [|discriminate].
    simpl. rewrite insert_id by exact Hc. auto.
  - destruct (Os.entry_error w LOG_FILE); [cbn [snd]; auto|].
    destruct (Hbody (set_log EmptyString
                       (set_files (<[LOG_FILE:=EmptyString]> (w_files w)) w))
                eq_refl) as [Hf Hd].
    destruct (body _) as [r w2]. cbn [snd] in *.
    rewrite Hf. simpl. rewrite lookup_insert_eq. simpl.
    rewrite insert_insert_eq. unfold Os.isfile in Hfile.
    destruct (w_files w !! LOG_FILE) as [c|] eqn:Hc; [discriminate|].
    split; [|split].
    + intros p Hp. now rewrite lookup_insert_ne.
    + right. now rewrite lookup_insert_eq.
    + exact Hd.
Qed.

(** The directories after a dry run are those after its loop, which
    starts in the world that opening the log leaves. *)
Lemma dry_scan_dirs (sv : service)
    (clean_junk sort_collections : bool) (walk : list (string * list string))
    (w : world) :
  let body := fun rf : string * string =>
    rename_file sv clean_junk true sort_collections (fst rf) (snd rf) in
  let w0 := snd (Os.open_append LOG_FILE w) in
  w_dirs w0 = w_dirs w
  /\ (w_dirs (snd (rename_scan sv clean_junk true sort_collections walk w))
      = w_dirs w
      \/ w_dirs (snd (rename_scan sv clean_junk true sort_collections walk w))
         = w_dirs (snd (for_each (candidates walk) body w0))).
Proof.
  intros body w0. subst w0.
  assert (Hopen : w_dirs (snd (Os.open_append LOG_FILE w)) = w_dirs w).
  { unfold Os.open_append. destruct (Os.isdir w LOG_FILE); [reflexivity|].
    destruct (Os.isfile w LOG_FILE); [reflexivity|].
    now destruct (Os.entry_error w LOG_FILE). }
  split; [exact Hopen|].
  unfold rename_scan, Os.with_open_append.
  destruct (Os.open_append LOG_FILE w) as [[[]|e] w0]; cbn [snd] in *;
    [|now left].
  right. rewrite (scan_flat (rename_file sv clean_junk true sort_collections)).
  fold (candidates walk). fold body.
  now destruct (for_each (candidates walk) body w0) as [r w2].
Qed.

(** C4, amended. A dry run moves no file and writes no record: every path
    other than the log holds what it held, the log has the text it had
    (it is created empty when there was none), and no directory is lost.
    Without collection sorting no directory is made.  With it, a
    directory that is new was made for a listed file, when the loop was at
    that file: it is the folder of the collection in the answer to the
    lookup of that file, [ROOT_FOLDER] joined with the name of the
    collection, or a directory above that folder. *)
Theorem dry_run_moves_no_file (sv : service)
    (clean_junk sort_collections : bool) (walk : list (string * list string))
    (w : world) :
  let w' := snd (rename_scan sv clean_junk true sort_collections walk w) in
  let body := fun rf : string * string =>
    rename_file sv clean_junk true sort_collections (fst rf) (snd rf) in
  (forall p, p <> LOG_FILE -> w_files w' !! p = w_files w !! p)
  /\ (w_files w' !! LOG_FILE = w_files w !! LOG_FILE
      \/ (w_files w !! LOG_FILE = None
          /\ w_files w' !! LOG_FILE = Some EmptyString))
  /\ w_dirs w ⊆ w_dirs w'
  /\ (sort_collections = false -> w_dirs w' = w_dirs w)
  /\ (forall d, d ∈ w_dirs w' -> d ∉ w_dirs w ->
      sort_collections = true
      /\ exists before root file after details collection name,
           candidates walk = before ++ (root, file) :: after
           /\ fst (get_movie_data sv (clean_title file clean_junk)
                     (snd (for_each before body
                             (snd (Os.open_append LOG_FILE w))))) = Ok details
           /\ Py.get details "belongs_to_collection" = Ok collection
           /\ Py.getitem collection "name" = Ok (JStr name)
           /\ d ∈ folder_and_above (OsPath.join ROOT_FOLDER name)).
Proof.
  intros w' body.
  destruct (dry_scan_files sv clean_junk sort_collections walk w)
    as (Hfiles & Hlog & Hdirs).
  assert (Hnew : forall d, d ∈ w_dirs w' -> d ∉ w_dirs w ->
            sort_collections = true
            /\ exists before root file after details collection name,
                 candidates walk = before ++ (root, file) :: after
                 /\ fst (get_movie_data sv (clean_title file clean_junk)
                           (snd (for_each before body
                                   (snd (Os.open_append LOG_FILE w)))))
                    = Ok details
                 /\ Py.get details "belongs_to_collection" = Ok collection
                 /\ Py.getitem collection "name" = Ok (JStr name)
                 /\ d ∈ folder_and_above (OsPath.join ROOT_FOLDER name)).
  { intros d Hin Hout.
    destruct (dry_scan_dirs sv clean_junk sort_collections walk w)
      as [Hopen [Hsame|Hloop]]; fold w' in Hsame || fold w' in Hloop.
    - rewrite Hsame in Hin. contradiction.
    - rewrite Hloop in Hin.
      apply (dry_loop_new_dir sv clean_junk sort_collections
               (candidates walk) _ d Hin).
      now rewrite Hopen. }
  split; [exact Hfiles|]. split; [exact Hlog|]. split; [exact Hdirs|].
  split; [|exact Hnew].
  intros Hsort. apply set_eq. intros d. split; [|apply Hdirs].
  intros Hin. destruct (decide (d ∈ w_dirs w)) as [Hd|Hd]; [exact Hd|].
  destruct (Hnew d Hin Hd) as [Hs _]. congruence.
Qed.

(** ** Undo: one record *)

Lemma revert_record_returns (old new : string) (w : world) :
  exists w', revert_record old new w = (Ok tt, w').
Proof.
  unfold revert_record, bind, Os.exists_, try_except, print.
  destruct (Os.path_exists w new); [|eauto].
  destruct (Os.makedirs (OsPath.dirname old) w) as [[[]|e] w1]; [|eauto].
  destruct (Os.rename new old w1) as [[[]|e] w2]; eauto.
Qed.

Lemma split1_two (sep s : string) :
  PyStr.contains sep s = true -> exists a b, PyStr.split1 sep s = [a; b].
Proof.
  unfold PyStr.contains, PyStr.split1.
  destruct (PyStr.find sep s); [eauto | discriminate].
Qed.

(** No line of the log makes the loop of undo raise. *)
Lemma undo_line_returns (line : string) (w : world) :
  exists w', undo_line line w = (Ok tt, w').
Proof.
  unfold undo_line.
  destruct (PyStr.contains SEPARATOR line) eqn:Hc; [|now eexists].
  destruct (split1_two _ _ Hc) as (a & b & ->). apply revert_record_returns.
Qed.

Lemma undo_lines_return (lines : list string) (w : world) :
  exists w', for_each lines undo_line w = (Ok tt, w').
Proof.
  revert w. induction lines as [|l lines IH]; intros w; [now eexists|].
  destruct (undo_line_returns l w) as [w1 H1].
  rewrite (for_each_cons _ _ _ _ _ H1). apply IH.
Qed.

Lemma bind_ok_inv {A B} (m : M A) (k : A -> M B) (w w' : world) (b : B) :
  bind m k w = (Ok b, w') ->
  exists a w0, m w = (Ok a, w0) /\ k a w0 = (Ok b, w').
Proof.
  unfold bind. destruct (m w) as [[a|e] w0]; [eauto | discriminate].
Qed.

Lemma makedirs_body_isdir (rec : string -> M unit) (name : string)
    (w w1 : world) :
  Os.makedirs_body rec name w = (Ok tt, w1) -> Os.isdir w1 name = true.
Proof.
  unfold Os.makedirs_body.
  destruct (OsPath.split name) as [head tail].
  destruct (if String.eqb tail EmptyString then OsPath.split head
            else (head, tail)) as [head' tail'].
  intros H. apply bind_ok_inv in H as (_ & w0 & _ & H). revert H.
  unfold try_except, Os.mkdir.
  destruct (String.eqb name EmptyString).
  { destruct (Os.isdir w0 name) eqn:E; [now intros [= <-] | discriminate]. }
  destruct (Os.path_exists w0 name).
  { destruct (Os.isdir w0 name) eqn:E; [now intros [= <-] | discriminate]. }
  destruct (Os.entry_error w0 name).
  { destruct (Os.isdir w0 name) eqn:E; [now intros [= <-] | discriminate]. }
  intros [= <-]. unfold Os.isdir. simpl.
  rewrite bool_decide_eq_true_2 by set_solver. reflexivity.
Qed.

(** A successful [makedirs] leaves the directory behind. *)
Lemma makedirs_isdir (name : string) (w w1 : world) :
  Os.makedirs name w = (Ok tt, w1) -> Os.isdir w1 name = true.
Proof.
  unfold Os.makedirs. destruct (String.length name); simpl;
    apply makedirs_body_isdir.
Qed.

Lemma makedirs_files (name : string) (w : world) :
  w_files (snd (Os.makedirs name w)) = w_files w.
Proof. apply (keeps_makedirs name w). Qed.

(** The effect of renaming a regular file onto a path that is free or
    holds a regular file, in a directory that exists. *)
Lemma rename_file_ok (src dst c : string) (w : world) :
  w_files w !! src = Some c ->
  dst <> EmptyString ->
  Os.isdir w dst = false ->
  Os.isdir w (OsPath.dirname dst) = true ->
  Os.rename src dst w
  = (Ok tt, set_files (<[dst := c]> (delete src (w_files w))) w).
Proof.
  intros Hsrc Hne0 Hdst Hparent. unfold Os.rename. rewrite Hsrc.
  destruct (String.eqb_spec src dst) as [<-|Hne].
  - f_equal. destruct w; unfold set_files; simpl in *. f_equal.
    now rewrite insert_delete_eq, insert_id.
  - rewrite Hdst. unfold Os.entry_error. rewrite Hparent, orb_true_r.
    now destruct (String.eqb_spec dst EmptyString).
Qed.

(** ** Undo: the log file stays in place while its records are processed *)

#[local] Instance log_stays_preorder : PreOrder log_stays.
Proof.
  split.
  - intros w H. exact H.
  - intros a b c Hab Hbc H. apply Hbc, Hab, H.
Qed.

Lemma same_files_log_stays (w w' : world) : same_files w w' -> log_stays w w'.
Proof. intros (Hf & _) H. now rewrite Hf. Qed.

Lemma keeps_log_weaken {A} (m : M A) : keeps same_files m -> keeps log_stays m.
Proof. intros H w. apply same_files_log_stays, H. Qed.

Lemma under_has_slash (d p : string) :
  Os.under d p = true -> PyStr.contains "/" p = true.
Proof.
  unfold Os.under, PyStr.contains. intros H%startswith_true.
  destruct (PyStr.find "/" p) eqn:F; [reflexivity|].
  exfalso. rewrite str_app_assoc in H. exact (find_None _ _ F _ _ H).
Qed.

Lemma rebase_log (src dst : string) :
  src <> LOG_FILE -> Os.rebase src dst LOG_FILE = LOG_FILE.
Proof.
  intros Hne. unfold Os.rebase.
  destruct (String.eqb_spec LOG_FILE src) as [E|_]; [now symmetry in E|].
  destruct (Os.under src LOG_FILE) eqn:U; [|reflexivity].
  apply under_has_slash in U. discriminate.
Qed.

Lemma move_tree_log_stays (src dst : string) (w : world) :
  src <> LOG_FILE -> log_stays w (Os.move_tree src dst w).
Proof.
  intros Hne [c Hc]. unfold Os.move_tree. simpl.
  destruct (list_to_map _ !! LOG_FILE) eqn:E; [eauto|]. exfalso.
  apply not_elem_of_list_to_map in E. apply E.
  apply list_elem_of_fmap. exists (LOG_FILE, c). split; [reflexivity|].
  apply list_elem_of_fmap. exists (LOG_FILE, c). split.
  - unfold prod_map. simpl. now rewrite rebase_log.
  - now apply elem_of_map_to_list.
Qed.

Lemma keeps_log_rename (src dst : string) :
  src <> LOG_FILE -> keeps log_stays (Os.rename src dst).
Proof.
  intros Hne w. unfold Os.rename.
  destruct (w_files w !! src) as [c|] eqn:Hsrc.
  - destruct (String.eqb src dst); [reflexivity|].
    destruct (Os.isdir w dst); [reflexivity|].
    destruct (Os.entry_error w dst); [reflexivity|].
    intros [l Hl]. simpl.
    destruct (decide (dst = LOG_FILE)) as [->|Hd].
    + rewrite lookup_insert_eq. eauto.
    + rewrite lookup_insert_ne, lookup_delete_ne by congruence. eauto.
  - destruct (bool_decide (src ∈ w_dirs w)).
    + destruct (String.eqb src dst); [reflexivity|].
      destruct (Os.isfile w dst); [reflexivity|].
      destruct (Os.under src dst); [reflexivity|].
      destruct (Os.isdir w dst && Os.has_entries w dst); [reflexivity|].
      destruct (Os.entry_error w dst); [reflexivity|].
      now apply move_tree_log_stays.
    + destruct (Os.isdir w src); reflexivity.
Qed.

Lemma keeps_log_revert (old new : string) :
  new <> LOG_FILE -> keeps log_stays (revert_record old new).
Proof.
  intros Hne. unfold revert_record.
  apply keeps_bind; [apply _|apply keeps_log_weaken, keeps_weaken, keeps_exists|].
  intros [].
  - apply keeps_try; [apply _| |intros e].
    + apply keeps_bind; [apply _|apply keeps_log_weaken, keeps_makedirs|].
      intros _. apply keeps_bind; [apply _|now apply keeps_log_rename|].
      intros _. apply keeps_log_weaken, keeps_weaken, keeps_print.
    + apply keeps_log_weaken, keeps_weaken, keeps_print.
  - apply keeps_log_weaken, keeps_weaken, keeps_print.
Qed.

Lemma keeps_log_undo_line (line : string) :
  spares_log line -> keeps log_stays (undo_line line).
Proof.
  intros H. unfold undo_line.
  destruct (PyStr.contains SEPARATOR line) eqn:Hc; [|apply keeps_ret, _].
  destruct (split1_two _ _ Hc) as (a & b & Hs). rewrite Hs.
  apply keeps_log_revert. now apply (H a b).
Qed.

Lemma keeps_log_undo_lines (lines : list string) :
  Forall spares_log lines -> keeps log_stays (for_each lines undo_line).
Proof.
  induction 1 as [|l lines Hl _ IH]; simpl; [apply keeps_ret, _|].
  apply keeps_bind; [apply _|now apply keeps_log_undo_line|]. intros _. exact IH.
Qed.

(** ** Undo: the whole log *)

Lemma undo_last_batch_unfold (w : world) (c : string) :
  w_files w !! LOG_FILE = Some c ->
  PyStr.splitlines (PyStr.universal_newlines c) <> [] ->
  undo_last_batch w
  = (for_each (List.rev (PyStr.splitlines (PyStr.universal_newlines c)))
       undo_line ;;;
     Os.remove LOG_FILE ;;;
     print MsgUndoComplete) w.
Proof.
  intros Hc Hlines. unfold undo_last_batch.
  assert (Hex : Os.exists_ LOG_FILE w = (Ok true, w)).
  { unfold Os.exists_, Os.path_exists, Os.isfile. now rewrite Hc. }
  rewrite (bind_ok _ _ _ _ _ Hex). cbn [negb].
  assert (Hread : Os.read_text LOG_FILE w
                  = (Ok (PyStr.universal_newlines c), w)).
  { unfold Os.read_text. now rewrite Hc. }
  rewrite (bind_ok _ _ _ _ _ Hread).
  now destruct (PyStr.splitlines (PyStr.universal_newlines c)).
Qed.

(** One record: [revert_record] always returns; a destination that is not
    there is reported; a destination that is a regular file goes back to
    the source once the directory of the source is there. *)
Lemma revert_record_spec (old new : string) (w0 : world) :
  (exists w', revert_record old new w0 = (Ok tt, w'))
  /\ (Os.path_exists w0 new = false ->
      revert_record old new w0
      = (Ok tt, emit (EvPrint (MsgCannotRevert new)) w0))
  /\ (forall content w1,
        w_files w0 !! new = Some content ->
        old <> EmptyString ->
        Os.makedirs (OsPath.dirname old) w0 = (Ok tt, w1) ->
        Os.isdir w1 old = false ->
        revert_record old new w0
        = (Ok tt, emit (EvPrint (MsgReverted new old))
                    (set_files (<[old := content]>
                                  (delete new (w_files w0))) w1))
        /\ Os.isdir w1 (OsPath.dirname old) = true).
Proof.
  split; [apply revert_record_returns|]. split.
  - intros Hex. unfold revert_record, bind, Os.exists_. now rewrite Hex.
  - intros content w1 Hnew Hold Hmk Hdir.
    pose proof (makedirs_isdir _ _ _ Hmk) as Hparent.
    split; [|exact Hparent].
    pose proof (makedirs_files (OsPath.dirname old) w0) as Hf.
    rewrite Hmk in Hf. cbn [snd] in Hf.
    assert (Hex : Os.exists_ new w0 = (Ok true, w0)).
    { unfold Os.exists_, Os.path_exists, Os.isfile. now rewrite Hnew. }
    unfold revert_record. rewrite (bind_ok _ _ _ _ _ Hex).
    apply try_ok. rewrite (bind_ok _ _ _ _ _ Hmk).
    assert (Hren : Os.rename new old w1
                   = (Ok tt, set_files (<[old := content]>
                                          (delete new (w_files w0))) w1)).
    { rewrite <- Hf. apply rename_file_ok; try assumption. now rewrite Hf. }
    now rewrite (bind_ok _ _ _ _ _ Hren).
Qed.

(** The loop of undo at one line of the log: the lines after it have
    been gone through, and the loop goes on, with the lines before it,
    from the world that this line leaves. *)
Lemma undo_loop_at (before after : list string) (line : string) (w : world) :
  exists wi,
    for_each (List.rev after) undo_line w = (Ok tt, wi)
    /\ for_each (List.rev (before ++ line :: after)) undo_line w
       = (undo_line line ;;; for_each (List.rev before) undo_line) wi.
Proof.
  destruct (undo_lines_return (List.rev after) w) as [wi Hwi].
  exists wi. split; [exact Hwi|].
  rewrite List.rev_app_distr. cbn [List.rev]. rewrite <- List.app_assoc.
  rewrite for_each_app, (bind_ok _ _ _ _ _ Hwi). reflexivity.
Qed.

(** C3. Undo goes through the lines of the log from the last to the
    first; no record makes it stop; when it is through, it removes the
    log file, so that no file is left at the path of the log, and it
    returns after doing so unless a record has moved the log itself away.
    When the loop is at a line, the lines after it in the log have been
    gone through.  A line without separator changes nothing; every other
    line is cut at its first separator into source and destination.  For
    such a line: a destination that is a file is moved
    back to the source, after the directory of the source has been made
    where it was missing; a destination that is not there is reported and
    the record is passed over; in each case the loop goes on, with the
    lines before it in the log, from the world that the record leaves. *)
Theorem undo_replays_log_in_reverse (w : world) (c : string) :
  let lines := PyStr.splitlines (PyStr.universal_newlines c) in
  w_files w !! LOG_FILE = Some c ->
  lines <> [] ->
  (exists w1,
     for_each (List.rev lines) undo_line w = (Ok tt, w1)
     /\ undo_last_batch w = (Os.remove LOG_FILE ;;; print MsgUndoComplete) w1
     /\ w_files (snd (undo_last_batch w)) !! LOG_FILE = None
     /\ (Forall spares_log lines ->
         undo_last_batch w
         = (Ok tt, emit (EvPrint MsgUndoComplete)
                     (set_files (delete LOG_FILE (w_files w1)) w1))))
  /\ (forall before line after,
        lines = before ++ line :: after ->
        exists wi,
          for_each (List.rev after) undo_line w = (Ok tt, wi)
          /\ (PyStr.contains SEPARATOR line = false ->
              for_each (List.rev lines) undo_line w
              = for_each (List.rev before) undo_line wi)
          /\ (PyStr.contains SEPARATOR line = true ->
              exists old new, first_cut SEPARATOR old new line)
          /\ (forall old new,
                first_cut SEPARATOR old new line ->
                (exists wj,
                   revert_record old new wi = (Ok tt, wj)
                   /\ for_each (List.rev lines) undo_line w
                      = for_each (List.rev before) undo_line wj)
                /\ (Os.path_exists wi new = false ->
                    revert_record old new wi
                    = (Ok tt, emit (EvPrint (MsgCannotRevert new)) wi))
                /\ (forall content w1,
                      w_files wi !! new = Some content ->
                      old <> EmptyString ->
                      Os.makedirs (OsPath.dirname old) wi = (Ok tt, w1) ->
                      Os.isdir w1 old = false ->
                      revert_record old new wi
                      = (Ok tt, emit (EvPrint (MsgReverted new old))
                                  (set_files (<[old := content]>
                                                (delete new (w_files wi))) w1))
                      /\ Os.isdir w1 (OsPath.dirname old) = true)))
  /\ (forall old new w0,
        (exists w', revert_record old new w0 = (Ok tt, w'))
        /\ (Os.path_exists w0 new = false ->
            revert_record old new w0
            = (Ok tt, emit (EvPrint (MsgCannotRevert new)) w0))
        /\ (forall content w1,
              w_files w0 !! new = Some content ->
              old <> EmptyString ->
              Os.makedirs (OsPath.dirname old) w0 = (Ok tt, w1) ->
              Os.isdir w1 old = false ->
              revert_record old new w0
              = (Ok tt, emit (EvPrint (MsgReverted new old))
                          (set_files (<[old := content]>
                                        (delete new (w_files w0))) w1))
              /\ Os.isdir w1 (OsPath.dirname old) = true)).
Proof.
  intros lines Hc Hlines. split; [|split; [|apply revert_record_spec]].
  - destruct (undo_lines_return (List.rev lines) w) as [w1 H1].
    exists w1.
    assert (Hrun : undo_last_batch w
                   = (Os.remove LOG_FILE ;;; print MsgUndoComplete) w1).
    { rewrite (undo_last_batch_unfold w c Hc Hlines). fold lines.
      now rewrite (bind_ok _ _ _ _ _ H1). }
    repeat split; [exact H1 | exact Hrun | |].
    + rewrite Hrun. unfold bind, Os.remove, print.
      destruct (w_files w1 !! LOG_FILE) eqn:E; simpl.
      * apply lookup_delete_eq.
      * now destruct (Os.isdir w1 LOG_FILE).
    + intros Hspare.
      assert (Hlog : is_Some (w_files w1 !! LOG_FILE)).
      { pose proof (keeps_log_undo_lines (List.rev lines)
                      (Forall_rev Hspare) w) as H.
        rewrite H1 in H. apply H. eauto. }
      destruct Hlog as [c1 Hc1]. rewrite Hrun.
      unfold bind, Os.remove, print. now rewrite Hc1.
  - intros before line after Heq. rewrite Heq.
    destruct (undo_loop_at before after line w) as (wi & Hwi & Hloop).
    exists wi. split; [exact Hwi|]. rewrite Hloop. split.
    + intros Hno. unfold bind, undo_line. now rewrite Hno.
    + split.
      { unfold PyStr.contains.
        destruct (PyStr.find SEPARATOR line) as [i|] eqn:F; [|discriminate].
        intros _. eexists _, _. exact (first_cut_of_find _ _ _ F). }
      intros old new Hcut.
      destruct (revert_record_spec old new wi) as ([wj Hwj] & Habsent & Hfile).
      split; [|split; [exact Habsent | exact Hfile]].
      exists wj. split; [exact Hwj|].
      apply split1_first_cut in Hcut as [Hcont Hsplit].
      unfold bind at 1. unfold undo_line. rewrite Hcont, Hsplit.
      cbn [negb]. cbv beta iota. now rewrite Hwj.
Qed.

Lemma undo_replays_log_in_reverse_witness :
  let old := "/Movies/Old/Alien.mkv" in
  let new := "/Movies/Alien (1979).mkv" in
  let gone := "/Movies/gone.mkv -> /Movies/gone (2000).mkv" in
  let wi := emit (EvPrint (MsgCannotRevert "/Movies/gone (2000).mkv"))
              Example.logged in
  let wj := emit (EvPrint (MsgReverted new old))
              (set_files (<[old := "A"]> (delete new (w_files wi)))
                 (set_dirs ({["/Movies/Old"]} ∪ w_dirs wi) wi)) in
  for_each [gone] undo_line Example.logged = (Ok tt, wi)
  /\ revert_record old new wi = (Ok tt, wj)
  /\ for_each [gone; old +:+ SEPARATOR +:+ new] undo_line Example.logged
     = (Ok tt, wj)
  /\ undo_last_batch Example.logged
     = (Ok tt, emit (EvPrint MsgUndoComplete)
                 (set_files (delete LOG_FILE (w_files wj)) wj)).
Proof.
  intros old new gone wi wj.
  pose proof (undo_replays_log_in_reverse Example.logged
                ("/Movies/Old/Alien.mkv -> /Movies/Alien (1979).mkv" +:+ LF_STR
                 +:+ "/Movies/gone.mkv -> /Movies/gone (2000).mkv" +:+ LF_STR))
    as H.
  destruct H as ((w1 & Hloop & _ & _ & Hrun) & Hat & _).
  - vm_compute. reflexivity.
  - vm_compute. discriminate.
  - destruct (Hat [] (old +:+ SEPARATOR +:+ new) [gone] eq_refl)
      as (wi' & Hwi & _ & _ & Hcut).
    assert (Ewi : wi' = wi).
    { vm_compute in Hwi. injection Hwi as <-. reflexivity. }
    subst wi'.
    destruct (Hcut old new) as ((wj' & Hwj & Hrest) & _ & Hfile).
    { apply (first_cut_of_find SEPARATOR (old +:+ SEPARATOR +:+ new) 21).
      reflexivity. }
    destruct (Hfile "A" (set_dirs ({["/Movies/Old"]} ∪ w_dirs wi) wi))
      as [Hrev _]; [vm_compute; reflexivity | discriminate
                   | vm_compute; reflexivity | vm_compute; reflexivity |].
    fold wj in Hrev.
    assert (Ewj : wj' = wj) by congruence. subst wj'.
    assert (Ew1 : w1 = wj).
    { cbn [List.rev app for_each] in Hrest. unfold ret in Hrest.
      rewrite Hloop in Hrest. congruence. }
    subst w1.
    split; [exact Hwi|]. split; [exact Hrev|]. split; [exact Hloop|].
    apply Hrun. vm_compute PyStr.splitlines.
    repeat constructor; intros o n Hs; vm_compute in Hs;
      injection Hs as <- <-; discriminate.
Defined.

(** The whole undo on that log: the film is back under its old name, in
    the folder made for it again; the record without destination was
    reported; the log is gone. *)
Example undo_logged :
  let w' := snd (undo_last_batch Example.logged) in
  map_to_list (w_files w') = [("/Movies/Old/Alien.mkv", "A")]
  /\ Os.isdir w' "/Movies/Old" = true
  /\ w_trace w'
     = [EvPrint (MsgCannotRevert "/Movies/gone (2000).mkv");
        EvPrint (MsgReverted "/Movies/Alien (1979).mkv" "/Movies/Old/Alien.mkv");
        EvPrint MsgUndoComplete].
Proof. repeat split; vm_compute; reflexivity. Qed.

(** ** Round trip *)

(** One rename of a regular file onto a free path, then the revert of its
    record: the files are as they were. *)
Lemma revert_undoes_rename (old new c : string) (w w2 : world) :
  w_files w !! old = Some c ->
  Os.path_exists w new = false ->
  old <> EmptyString ->
  let w1 := set_files (<[new := c]> (delete old (w_files w))) w in
  Os.makedirs (OsPath.dirname old) w1 = (Ok tt, w2) ->
  Os.isdir w2 old = false ->
  exists w3,
    revert_record old new w1 = (Ok tt, w3) /\ w_files w3 = w_files w.
Proof.
  intros Hold Hnew Hne w1 Hmk Hdir.
  assert (Hfree : w_files w !! new = None).
  { unfold Os.path_exists, Os.isfile in Hnew.
    destruct (w_files w !! new); [discriminate | reflexivity]. }
  assert (Hon : old <> new) by congruence.
  pose proof (revert_record_spec old new w1) as (_ & _ & H).
  destruct (H c w2) as [Hrun _]; try assumption.
  { unfold w1. simpl. apply lookup_insert_eq. }
  eexists. split; [exact Hrun|]. unfold w1. simpl.
  rewrite delete_insert_eq, (delete_id _ new), insert_delete_eq, insert_id;
    try reflexivity; try assumption.
  now rewrite lookup_delete_ne.
Qed.

(** A batch over clean names, with collection sorting, and its undo: the
    film is back at its path, the log is gone (the folder of the
    collection stays). *)
Example round_trip_clean_names :
  let w0 := Example.two_files in
  let walk := [(ROOT_FOLDER, ["Unknown.mkv"; "Alien.mkv"])] in
  let w1 := snd (rename_scan Example.tmdb false false true walk w0) in
  let w2 := snd (undo_last_batch w1) in
  w_files w1 !! "/Movies/Alien Collection/Alien (1979).mkv" = Some "A"
  /\ w_files w1 !! "/Movies/Alien.mkv" = None
  /\ w_files w2 = w_files w0.
Proof. repeat split; vm_compute; reflexivity. Qed.

(** C1. A file whose name contains [" -> "] is renamed and recorded, and
    undo does not bring it back: the record is cut at the separator inside
    the old name, the destination read off it does not exist, the record
    is passed over and the log is removed all the same. *)
Theorem arrow_in_name_is_not_reverted :
  let w0 := Example.world_of Example.arrow_file "DATA" in
  let walk := [(ROOT_FOLDER, [Example.arrow_file])] in
  let w1 := snd (rename_scan Example.tmdb false false false walk w0) in
  let w2 := snd (undo_last_batch w1) in
  (w_files w0 !! "/Movies/a -> b.mkv" = Some "DATA"
   /\ w_files w0 !! LOG_FILE = None)
  /\ (w_files w1 !! "/Movies/a -> b.mkv" = None
      /\ w_files w1 !! "/Movies/a -> b (1999).mkv" = Some "DATA"
      /\ w_files w1 !! LOG_FILE
         = Some ("/Movies/a -> b.mkv -> /Movies/a -> b (1999).mkv" +:+ LF_STR))
  /\ (fst (undo_last_batch w1) = Ok tt
      /\ w_files w2 !! "/Movies/a -> b.mkv" = None
      /\ w_files w2 !! "/Movies/a -> b (1999).mkv" = Some "DATA"
      /\ w_files w2 !! LOG_FILE = None
      /\ List.filter (fun e => negb (is_request e)) (w_trace w2)
         = [EvPrint (MsgRenamed "a -> b.mkv" "a -> b (1999).mkv");
            EvSleep API_DELAY;
            EvPrint (MsgCannotRevert "b.mkv -> /Movies/a -> b (1999).mkv");
            EvPrint MsgUndoComplete]).
Proof. repeat split; vm_compute; reflexivity. Qed.

(** ** Whole sessions *)

(** The user declines junk cleaning, asks for a dry run (after one answer
    that is not understood) and declines collection sorting. *)
Example rename_movies_dry_session :
  let w := set_stdin ["n"; "maybe"; " Yes "; "no"]
             (Example.world_of "Alien.mkv" "DATA") in
  let w' := snd (rename_movies Example.tmdb [(ROOT_FOLDER, ["Alien.mkv"])] w) in
  map_to_list (w_files w')
  = [("/Movies/Alien.mkv", "DATA"); (LOG_FILE, EmptyString)]
  /\ List.filter (fun e => match e with EvPrint _ | EvSleep _ => true
                                      | _ => false end) (w_trace w')
     = [EvPrint MsgEnterYN; EvPrint MsgStartingScan;
        EvPrint (MsgDryRun "Alien.mkv" "Alien (1979).mkv");
        EvSleep API_DELAY]
  /\ w_stdin w' = [].
Proof. repeat split; vm_compute; reflexivity. Qed.

(** Without a key, and with none typed in, nothing is scanned. *)
Example rename_movies_without_key :
  let w := set_stdin [EmptyString]
             (set_key PLACEHOLDER_KEY (Example.world_of "Alien.mkv" "DATA")) in
  rename_movies Example.tmdb [(ROOT_FOLDER, ["Alien.mkv"])] w
  = (Ok tt,
     emit (EvPrint MsgNoKey)
       (set_key EmptyString
          (set_stdin []
             (emit (EvInput "Paste your TMDb API key here: ")
                (emit (EvPrint MsgSignUp) (emit (EvPrint MsgKeyNotSet) w)))))).
Proof. vm_compute. reflexivity. Qed.

(** * Further properties *)

(** ** The classifier in general *)

Lemma year_at_iff (s : string) :
  Re.year_at s = true <->
  exists d1 d2 d3 d4 rest,
    s = year_tag d1 d2 d3 d4 rest
    /\ PyStr.isdigit d1 = true /\ PyStr.isdigit d2 = true
    /\ PyStr.isdigit d3 = true /\ PyStr.isdigit d4 = true.
Proof.
  split.
  - destruct s as [|o [|d1 [|d2 [|d3 [|d4 [|c rest]]]]]]; try discriminate.
    unfold Re.year_at. rewrite !andb_true_iff.
    intros [[[[[Ho H1] H2] H3] H4] Hc].
    apply Ascii.eqb_eq in Ho as ->. apply Ascii.eqb_eq in Hc as ->.
    now exists d1, d2, d3, d4, rest.
  - intros (d1 & d2 & d3 & d4 & rest & -> & H1 & H2 & H3 & H4).
    unfold year_tag, Re.year_at. now rewrite H1, H2, H3, H4.
Qed.

(** X1. [has_year] holds exactly of the names in which four decimal
    digits stand between an opening and a closing parenthesis. *)
Theorem has_year_iff (filename : string) :
  has_year filename = true <->
  exists before d1 d2 d3 d4 rest,
    filename = before +:+ year_tag d1 d2 d3 d4 rest
    /\ PyStr.isdigit d1 = true /\ PyStr.isdigit d2 = true
    /\ PyStr.isdigit d3 = true /\ PyStr.isdigit d4 = true.
Proof.
  unfold has_year. induction filename as [|c s IH].
  - split; [discriminate|].
    intros (b & d1 & d2 & d3 & d4 & r & H & _). now destruct b.
  - cbn [Re.year_search]. rewrite orb_true_iff, year_at_iff, IH. split.
    + intros [(d1 & d2 & d3 & d4 & r & H & Hd) |
              (b & d1 & d2 & d3 & d4 & r & H & Hd)].
      * exists EmptyString, d1, d2, d3, d4, r. now split.
      * exists (String c b), d1, d2, d3, d4, r.
        rewrite str_app_cons, <- H. now split.
    + intros (b & d1 & d2 & d3 & d4 & r & H & Hd).
      destruct b as [|x b].
      * left. exists d1, d2, d3, d4, r. now split.
      * right. rewrite str_app_cons in H. injection H as -> ->.
        exists b, d1, d2, d3, d4, r. now split.
Qed.

Lemma separators_sub_clean (in_run : bool) (s : string) :
  any_char Re.is_separator (Re.separators_sub_from in_run s) = false.
Proof.
  revert in_run. induction s as [|c s IH]; intros in_run; [reflexivity|].
  cbn [Re.separators_sub_from].
  destruct (Re.is_separator c) eqn:E.
  - destruct in_run; [apply IH|]. cbn [any_char]. now rewrite IH.
  - cbn [any_char]. now rewrite E, IH.
Qed.

Lemma spaces_sub_keeps_clean (in_run : bool) (s : string) :
  any_char Re.is_separator s = false ->
  any_char Re.is_separator (Re.spaces_sub_from in_run s) = false.
Proof.
  revert in_run. induction s as [|c s IH]; intros in_run; [reflexivity|].
  cbn [any_char Re.spaces_sub_from]. intros H.
  apply orb_false_elim in H as [Hc Hs].
  destruct (PyStr.isspace c).
  - destruct in_run; [now apply IH|].
    destruct (Re.head_isspace s); cbn [any_char]; rewrite ?Hc, IH; auto.
  - cbn [any_char]. now rewrite Hc, IH.
Qed.

Lemma spaces_sub_head (in_run : bool) (s : string) :
  in_run = true \/ Re.head_isspace s = false ->
  Re.head_isspace (Re.spaces_sub_from in_run s) = false.
Proof.
  revert in_run. induction s as [|c s IH]; intros in_run H; [reflexivity|].
  cbn [Re.spaces_sub_from]. destruct (PyStr.isspace c) eqn:E.
  - destruct in_run; [apply IH; now left|].
    destruct H as [H|H]; [discriminate|]. simpl in H. congruence.
  - simpl. exact E.
Qed.

Lemma spaces_sub_single (in_run : bool) (s : string) :
  adjacent_spaces (Re.spaces_sub_from in_run s) = false.
Proof.
  revert in_run. induction s as [|c s IH]; intros in_run; [reflexivity|].
  cbn [Re.spaces_sub_from]. destruct (PyStr.isspace c) eqn:E.
  - destruct in_run; [apply IH|].
    destruct (Re.head_isspace s) eqn:Hh; cbn [adjacent_spaces].
    + rewrite spaces_sub_head by now left. now rewrite IH, andb_false_r.
    + rewrite spaces_sub_head by now right. now rewrite IH, andb_false_r.
  - cbn [adjacent_spaces]. now rewrite E, IH.
Qed.

(** X2. With junk removal, the title holds no dot and no underscore, and
    no two white-space characters side by side. *)
Theorem clean_title_junk_free_of_separators (filename : string) :
  any_char Re.is_separator (clean_title filename true) = false
  /\ adjacent_spaces (clean_title filename true) = false.
Proof.
  unfold clean_title, Re.spaces_sub, Re.separators_sub. split.
  - apply spaces_sub_keeps_clean, separators_sub_clean.
  - apply spaces_sub_single.
Qed.

(** ** The loop body in general *)

Lemma bind_inv {A B} (m : M A) (k : A -> M B) (w w' : world) (r : result B) :
  bind m k w = (r, w') ->
  (exists a w1, m w = (Ok a, w1) /\ k a w1 = (r, w'))
  \/ (exists e, m w = (Raise e, w') /\ r = Raise e).
Proof.
  unfold bind. destruct (m w) as [[a|e] w1]; [eauto|].
  intros [= <- <-]. eauto.
Qed.

Lemma lift_inv {A} (r r' : result A) (w w' : world) :
  lift r w = (r', w') -> r' = r /\ w' = w.
Proof. unfold lift. now intros [= <- <-]. Qed.

(** X3. A file that is no video by its extension, or that carries a year
    already, is passed over: no request, no message, nothing changed. *)
Theorem other_files_are_passed_over (sv : service)
    (clean_junk dry_run sort_collections : bool) (root file : string)
    (w : world) :
  in_list (PyStr.lower (snd (OsPath.splitext file))) VIDEO_EXTENSIONS = false
  \/ has_year file = true ->
  rename_file sv clean_junk dry_run sort_collections root file w = (Ok tt, w).
Proof.
  intros H. rewrite rename_file_unfold. unfold plan_file.
  destruct (OsPath.splitext file) as [name ext]. cbn [snd] in H.
  destruct (in_list (PyStr.lower ext) VIDEO_EXTENSIONS); [|reflexivity].
  destruct H as [H|H]; [discriminate|]. now rewrite H.
Qed.

Lemma other_files_are_passed_over_witness :
  rename_file Example.tmdb true false true ROOT_FOLDER "Alien (1979).MKV"
    Example.two_files = (Ok tt, Example.two_files)
  /\ rename_file Example.tmdb true false true ROOT_FOLDER "Alien.srt"
       Example.two_files = (Ok tt, Example.two_files).
Proof.
  split; apply other_files_are_passed_over;
    [right | left]; vm_compute; reflexivity.
Defined.

(** The loop body up to the new path, read backwards. *)
Lemma plan_file_inv (sv : service) (clean_junk sort_collections : bool)
    (root file : string) (w w1 : world) (p : plan) :
  plan_file sv clean_junk sort_collections root file w = (Ok (Some p), w1) ->
  let ext := PyStr.lower (snd (OsPath.splitext file)) in
  in_list ext VIDEO_EXTENSIONS = true
  /\ has_year file = false
  /\ old_path p = OsPath.join root file
  /\ exists year folder,
       new_name p = clean_title file clean_junk +:+ " (" +:+ year +:+ ")" +:+ ext
       /\ new_path p = OsPath.join folder (new_name p)
       /\ (folder = root
           \/ (sort_collections = true
               /\ Os.isdir w1 folder = true
               /\ exists collection_name,
                    folder = OsPath.join ROOT_FOLDER collection_name)).
Proof.
  unfold plan_file. destruct (OsPath.splitext file) as [name ext0]. cbn [snd].
  destruct (in_list (PyStr.lower ext0) VIDEO_EXTENSIONS) eqn:Hext;
    [|discriminate].
  destruct (has_year file) eqn:Hyear; [discriminate|]. cbn [negb].
  intros H. split; [reflexivity|]. split; [reflexivity|].
  apply bind_ok_inv in H as (movie_data & wa & _ & H).
  apply bind_ok_inv in H as (no_date & wb & _ & H).
  destruct no_date.
  { apply bind_ok_inv in H as (_ & wc & _ & H). discriminate. }
  apply bind_ok_inv in H as (release_date & wc & _ & H).
  apply bind_ok_inv in H as (year & wd & _ & H).
  apply bind_ok_inv in H as (folder & we & Hfolder & H).
  injection H as <- <-. cbn [new_name new_path old_path].
  split; [reflexivity|]. exists (Py.str year), folder.
  split; [reflexivity|]. split; [reflexivity|].
  destruct sort_collections; [|injection Hfolder as <- <-; now left].
  apply bind_ok_inv in Hfolder as (collection & wf & _ & Hfolder).
  destruct (Py.truthy collection); [|injection Hfolder as <- <-; now left].
  apply bind_ok_inv in Hfolder as (cn & wg & _ & Hfolder).
  destruct cn as [| | |cn| |]; try discriminate.
  apply bind_ok_inv in Hfolder as ([] & wh & Hmk & Hfolder).
  injection Hfolder as Hf Hw. subst folder we. right. split; [reflexivity|].
  split; [now apply makedirs_isdir in Hmk | now exists cn].
Qed.

(** The loop body up to the new path, read backwards, with the answer of
    the lookup that the year and the folder are taken from. *)
Lemma plan_file_spec (sv : service) (clean_junk sort_collections : bool)
    (root file : string) (w w1 : world) (p : plan) :
  plan_file sv clean_junk sort_collections root file w = (Ok (Some p), w1) ->
  let ext := PyStr.lower (snd (OsPath.splitext file)) in
  let title := clean_title file clean_junk in
  in_list ext VIDEO_EXTENSIONS = true
  /\ has_year file = false
  /\ old_path p = OsPath.join root file
  /\ exists details release_date year,
       fst (get_movie_data sv title w) = Ok details
       /\ Py.getitem details "release_date" = Ok release_date
       /\ Py.slice_to 4 release_date = Ok year
       /\ new_name p = title +:+ " (" +:+ Py.str year +:+ ")" +:+ ext
       /\ ((new_path p = OsPath.join root (new_name p)
            /\ (sort_collections = false
                \/ exists collection,
                     Py.get details "belongs_to_collection" = Ok collection
                     /\ Py.truthy collection = false))
           \/ (exists collection collection_name,
                 sort_collections = true
                 /\ Py.get details "belongs_to_collection" = Ok collection
                 /\ Py.truthy collection = true
                 /\ Py.getitem collection "name" = Ok (JStr collection_name)
                 /\ new_path p
                    = OsPath.join (OsPath.join ROOT_FOLDER collection_name)
                        (new_name p)
                 /\ Os.isdir w1 (OsPath.join ROOT_FOLDER collection_name)
                    = true)).
Proof.
  unfold plan_file. destruct (OsPath.splitext file) as [name ext0]. cbn [snd].
  destruct (in_list (PyStr.lower ext0) VIDEO_EXTENSIONS) eqn:Hext;
    [|discriminate].
  destruct (has_year file) eqn:Hyear; [discriminate|]. cbn [negb].
  intros H. split; [reflexivity|]. split; [reflexivity|].
  apply bind_ok_inv in H as (movie_data & wa & Hdata & H).
  apply bind_ok_inv in H as (no_date & wb & _ & H).
  destruct no_date.
  { apply bind_ok_inv in H as (_ & wc & _ & H). discriminate. }
  apply bind_ok_inv in H as (release_date & wc & Hdate & H).
  apply bind_ok_inv in H as (year & wd & Hslice & H).
  apply bind_ok_inv in H as (folder & we & Hfolder & H).
  apply lift_inv in Hdate as [Hdate _]. apply lift_inv in Hslice as [Hslice _].
  injection H as <- <-. cbn [new_name new_path old_path].
  split; [reflexivity|]. exists movie_data, release_date, year.
  rewrite Hdata. do 4 (split; [reflexivity || congruence|]).
  destruct sort_collections;
    [|injection Hfolder as <- <-; left; split; [reflexivity | now left]].
  apply bind_ok_inv in Hfolder as (collection & wf & Hcoll & Hfolder).
  apply lift_inv in Hcoll as [Hcoll _].
  destruct (Py.truthy collection) eqn:Htruthy.
  - apply bind_ok_inv in Hfolder as (cn & wg & Hname & Hfolder).
    apply lift_inv in Hname as [Hname _].
    destruct cn as [| | |cn| |]; try discriminate.
    apply bind_ok_inv in Hfolder as ([] & wh & Hmk & Hfolder).
    injection Hfolder as Hf Hw. subst folder we. right.
    exists collection, cn. repeat split; try congruence.
    now apply makedirs_isdir in Hmk.
  - injection Hfolder as <- <-. left. split; [reflexivity|].
    right. exists collection. split; [congruence | exact Htruthy].
Qed.

(** X4. What the loop body plans for a file: the file is a video by its
    extension taken in lower case and has no year yet; the old path is the
    file in the folder walked; the new name is the cleaned title, the
    first four characters of the release date that the lookup of that
    title returned, in parentheses, and the extension in lower case; the
    new path is that name in the folder walked or, with collection sorting
    on and a collection in the answer of the lookup, in the folder of
    [ROOT_FOLDER] joined with the name of that collection, which exists by
    then. *)
Theorem plan_file_shape (sv : service) (clean_junk sort_collections : bool)
    (root file : string) (w w1 : world) (p : plan) :
  plan_file sv clean_junk sort_collections root file w = (Ok (Some p), w1) ->
  let ext := PyStr.lower (snd (OsPath.splitext file)) in
  let title := clean_title file clean_junk in
  in_list ext VIDEO_EXTENSIONS = true
  /\ has_year file = false
  /\ old_path p = OsPath.join root file
  /\ exists details release_date year,
       fst (get_movie_data sv title w) = Ok details
       /\ Py.getitem details "release_date" = Ok release_date
       /\ Py.slice_to 4 release_date = Ok year
       /\ new_name p = title +:+ " (" +:+ Py.str year +:+ ")" +:+ ext
       /\ ((new_path p = OsPath.join root (new_name p)
            /\ (sort_collections = false
                \/ exists collection,
                     Py.get details "belongs_to_collection" = Ok collection
                     /\ Py.truthy collection = false))
           \/ (exists collection collection_name,
                 sort_collections = true
                 /\ Py.get details "belongs_to_collection" = Ok collection
                 /\ Py.truthy collection = true
                 /\ Py.getitem collection "name" = Ok (JStr collection_name)
                 /\ new_path p
                    = OsPath.join (OsPath.join ROOT_FOLDER collection_name)
                        (new_name p)
                 /\ Os.isdir w1 (OsPath.join ROOT_FOLDER collection_name)
                    = true)).
Proof. apply plan_file_spec. Qed.

Lemma plan_file_shape_witness :
  let w := Example.two_files in
  let p := mkPlan "/Movies/Alien.MKV"
                  "/Movies/Alien Collection/Alien (1979).mkv"
                  "Alien (1979).mkv" in
  exists details release_date year,
    fst (get_movie_data Example.tmdb (clean_title "Alien.MKV" true) w)
    = Ok details
    /\ Py.getitem details "release_date" = Ok release_date
    /\ Py.slice_to 4 release_date = Ok year
    /\ new_name p
       = clean_title "Alien.MKV" true +:+ " (" +:+ Py.str year +:+ ")"
         +:+ PyStr.lower (snd (OsPath.splitext "Alien.MKV")).
Proof.
  intros w p.
  destruct (plan_file_shape Example.tmdb true true ROOT_FOLDER "Alien.MKV" w
              (snd (plan_file Example.tmdb true true ROOT_FOLDER "Alien.MKV"
                      w))
              p)
    as (_ & _ & _ & details & release_date & year & H1 & H2 & H3 & H4 & _).
  - vm_compute. reflexivity.
  - exists details, release_date, year. repeat split; assumption.
Defined.

(** ** One rename applied *)

Lemma rename_raise_same (src dst : string) (w w' : world) (e : exn) :
  Os.rename src dst w = (Raise e, w') -> w' = w.
Proof.
  unfold Os.rename.
  repeat match goal with
         | |- context [match ?x with _ => _ end] => destruct x
         end; congruence.
Qed.

(** What [os.rename] does to a regular file. *)
Lemma rename_regular (src dst c : string) (w w' : world) (r : result unit) :
  w_files w !! src = Some c ->
  Os.rename src dst w = (r, w') ->
  w' = w
  \/ (r = Ok tt /\ src <> dst /\ Os.isdir w dst = false
      /\ w' = set_files (<[dst := c]> (delete src (w_files w))) w).
Proof.
  intros Hsrc. unfold Os.rename. rewrite Hsrc.
  destruct (String.eqb_spec src dst) as [->|Hne]; [intros [= _ <-]; now left|].
  destruct (Os.isdir w dst) eqn:Hd; [intros [= _ <-]; now left|].
  destruct (Os.entry_error w dst); intros [= <- <-]; [now left|].
  right. repeat split; assumption.
Qed.

Lemma path_exists_free (w : world) (p : string) :
  Os.path_exists w p = false ->
  w_files w !! p = None /\ Os.isdir w p = false.
Proof.
  unfold Os.path_exists, Os.isfile. intros H%orb_false_elim.
  destruct H as [Hf Hd]. split; [|exact Hd].
  destruct (w_files w !! p); [discriminate | reflexivity].
Qed.

(** X5. An applied rename of a regular file onto a free path in an
    existing folder: the content is at the new path and no longer at the
    old one, one line, the old path, [" -> "], the new path and a line
    feed, is written to the log, the rename is reported and the delay
    follows. *)
Theorem applied_rename_moves_and_records (file : string) (p : plan)
    (c : string) (w : world) :
  w_files w !! old_path p = Some c ->
  Os.path_exists w (new_path p) = false ->
  new_path p <> EmptyString ->
  Os.isdir w (OsPath.dirname (new_path p)) = true ->
  exists w',
    apply_plan false file p w = (Ok tt, w')
    /\ w_files w' = <[new_path p := c]> (delete (old_path p) (w_files w))
    /\ w_files w' !! old_path p = None
    /\ w_log w' = w_log w +:+ old_path p +:+ " -> " +:+ new_path p +:+ LF_STR
    /\ w_dirs w' = w_dirs w
    /\ w_trace w' = w_trace w ++ [EvPrint (MsgRenamed file (new_name p));
                                  EvSleep API_DELAY].
Proof.
  intros Hold Hfree Hne Hdir.
  destruct (path_exists_free _ _ Hfree) as [Hnew Hnd].
  assert (Hon : old_path p <> new_path p) by congruence.
  eexists. split.
  - unfold apply_plan, bind, Os.exists_. rewrite Hfree.
    rewrite (rename_file_ok _ _ c w Hold Hne Hnd Hdir).
    unfold Os.log_write, print, sleep. reflexivity.
  - simpl. repeat split.
    + rewrite lookup_insert_ne, lookup_delete_eq by congruence. reflexivity.
    + now rewrite <- app_assoc.
Qed.

Lemma applied_rename_moves_and_records_witness :
  exists w',
    apply_plan false "Alien.mkv"
      (mkPlan "/Movies/Alien.mkv" "/Movies/Alien (1979).mkv" "Alien (1979).mkv")
      Example.two_files = (Ok tt, w')
    /\ w_files w' !! "/Movies/Alien (1979).mkv" = Some "A"
    /\ w_log w' = "/Movies/Alien.mkv -> /Movies/Alien (1979).mkv" +:+ LF_STR.
Proof.
  destruct (applied_rename_moves_and_records "Alien.mkv"
              (mkPlan "/Movies/Alien.mkv" "/Movies/Alien (1979).mkv"
                      "Alien (1979).mkv") "A" Example.two_files)
    as (w' & Hrun & Hf & _ & Hl & _).
  - vm_compute. reflexivity.
  - vm_compute. reflexivity.
  - discriminate.
  - vm_compute. reflexivity.
  - exists w'. split; [exact Hrun|]. split.
    + rewrite Hf. apply lookup_insert_eq.
    + exact Hl.
Defined.

(** X6. [os.rename] is not inside a [try]: when it raises, the exception
    leaves the loops at once.  Nothing is written to the log for that
    file, no file has changed, and the files listed after it are not
    looked at. *)
Theorem failed_rename_stops_the_scan (sv : service)
    (clean_junk sort_collections : bool) (root file : string)
    (files : list string) (w w1 w2 : world) (p : plan) (e : exn) :
  plan_file sv clean_junk sort_collections root file w = (Ok (Some p), w1) ->
  Os.path_exists w1 (new_path p) = false ->
  Os.rename (old_path p) (new_path p) w1 = (Raise e, w2) ->
  for_each (file :: files)
    (rename_file sv clean_junk false sort_collections root) w
  = (Raise e, w1)
  /\ w_files w1 = w_files w
  /\ w_log w1 = w_log w.
Proof.
  intros Hplan Hfree Hren.
  pose proof (rename_raise_same _ _ _ _ _ Hren) as ->.
  pose proof (keeps_plan_file sv clean_junk sort_collections root file w)
    as (Hf & _ & Hl & _).
  rewrite Hplan in Hf, Hl. cbn [snd] in Hf, Hl.
  split; [|now split].
  cbn [for_each]. apply bind_raise. rewrite rename_file_unfold, Hplan.
  unfold apply_plan, bind, Os.exists_. now rewrite Hfree, Hren.
Qed.

Lemma failed_rename_stops_the_scan_witness :
  for_each ["Alien.mkv"; "Unknown.mkv"]
    (rename_file Example.tmdb false false false "/Movies/Sub")
    Example.two_files
  = (Raise FileNotFoundError,
     snd (plan_file Example.tmdb false false "/Movies/Sub" "Alien.mkv"
            Example.two_files)).
Proof.
  refine (proj1 (failed_rename_stops_the_scan Example.tmdb false false
                   "/Movies/Sub" "Alien.mkv" ["Unknown.mkv"] Example.two_files
                   (snd (plan_file Example.tmdb false false "/Movies/Sub"
                           "Alien.mkv" Example.two_files))
                   (snd (plan_file Example.tmdb false false "/Movies/Sub"
                           "Alien.mkv" Example.two_files))
                   (mkPlan "/Movies/Sub/Alien.mkv"
                           "/Movies/Sub/Alien (1979).mkv" "Alien (1979).mkv")
                   FileNotFoundError _ _ _)).
  - vm_compute. reflexivity.
  - vm_compute. reflexivity.
  - vm_compute. reflexivity.
Defined.

(** ** No file is lost *)

(** One round of the loop body on a listed file: every other file stays,
    and the content of the file is at its path or at one that was free. *)
Lemma rename_file_step (sv : service)
    (clean_junk dry_run sort_collections : bool) (root file c : string)
    (w : world) :
  w_files w !! OsPath.join root file = Some c ->
  let w' := snd (rename_file sv clean_junk dry_run sort_collections root file w) in
  (forall q c', q <> OsPath.join root file ->
     w_files w !! q = Some c' -> w_files w' !! q = Some c')
  /\ (w_files w' !! OsPath.join root file = Some c
      \/ exists new, w_files w !! new = None /\ w_files w' !! new = Some c).
Proof.
  intros Hold w'. subst w'. rewrite rename_file_unfold.
  pose proof (keeps_plan_file sv clean_junk sort_collections root file w)
    as (Hf & _).
  destruct (plan_file sv clean_junk sort_collections root file w)
    as [[[p|]|e] w1] eqn:Hplan; cbn [snd] in Hf |- *;
    try (rewrite Hf; split; [now intros | now left]).
  apply plan_file_inv in Hplan as (_ & _ & Hp & _).
  rewrite <- Hp in *. rewrite <- Hf in Hold. rewrite <- Hf. clear Hf Hp.
  unfold apply_plan, bind, Os.exists_, print, sleep, Os.log_write.
  destruct (Os.path_exists w1 (new_path p)) eqn:Hex;
    [split; [now intros | now left]|].
  destruct dry_run; [split; [now intros | now left]|].
  destruct (Os.rename (old_path p) (new_path p) w1) as [r w2] eqn:Hren.
  destruct (path_exists_free _ _ Hex) as [Hnew _].
  apply (rename_regular _ _ c _ _ _ Hold) in Hren
    as [->|(-> & Hne & _ & ->)].
  - destruct r as [[]|e]; cbn; split; try (now intros); now left.
  - cbn. split.
    + intros q c' Hq Hc'.
      rewrite lookup_insert_ne, lookup_delete_ne by congruence. exact Hc'.
    + right. exists (new_path p). split; [exact Hnew|]. apply lookup_insert_eq.
Qed.

Lemma listed_pairs (walk : list (string * list string)) :
  listed walk
  = List.map (fun rf => OsPath.join (fst rf) (snd rf))
      (List.flat_map (fun '(root, files) => List.map (pair root) files) walk).
Proof.
  unfold listed. induction walk as [|[root files] walk IH]; [reflexivity|].
  cbn [List.flat_map]. rewrite List.map_app, <- IH. f_equal.
  rewrite List.map_map. reflexivity.
Qed.

(** The loop over listed files that are all there, each listed once:
    the files not listed stay as they are, a file [keep] that is not
    listed is never written over, and every content stays somewhere. *)
Lemma loop_loses_no_file (sv : service)
    (clean_junk dry_run sort_collections : bool)
    (cands : list (string * string)) (w : world) :
  let paths := List.map (fun rf => OsPath.join (fst rf) (snd rf)) cands in
  let w' := snd (for_each cands
                   (fun rf => rename_file sv clean_junk dry_run
                                sort_collections (fst rf) (snd rf)) w) in
  NoDup paths ->
  (forall q, q ∈ paths -> is_Some (w_files w !! q)) ->
  (forall q c, q ∉ paths -> w_files w !! q = Some c ->
               w_files w' !! q = Some c)
  /\ (forall keep q c,
        keep ∉ paths -> is_Some (w_files w !! keep) -> q <> keep ->
        w_files w !! q = Some c ->
        exists q', q' <> keep /\ w_files w' !! q' = Some c).
Proof.
  revert w. induction cands as [|[root file] cands IH]; intros w paths w' Hnd Hall.
  { subst w'. cbn. split; [now intros|]. intros keep q c _ _ Hq Hc. eauto. }
  subst paths w'. cbn [List.map fst snd] in *.
  apply NoDup_cons in Hnd as [Hfresh Hnd].
  destruct (Hall (OsPath.join root file)) as [c0 Hc0];
    [apply elem_of_cons; now left|].
  pose proof (rename_file_step sv clean_junk dry_run sort_collections root file
                c0 w Hc0) as [Hothers Hself].
  assert (Hstep : forall keep q c,
            is_Some (w_files w !! keep) -> q <> keep ->
            w_files w !! q = Some c ->
            exists q1, q1 <> keep
                       /\ w_files (snd (rename_file sv clean_junk dry_run
                                          sort_collections root file w)) !! q1
                          = Some c).
  { intros keep q c [ck Hck] Hq Hc.
    destruct (decide (q = OsPath.join root file)) as [->|Hne].
    - assert (c = c0) as -> by congruence.
      destruct Hself as [H|(new & Hfree & H)]; [eauto|].
      exists new. split; [congruence | exact H].
    - exists q. split; [exact Hq | now apply Hothers]. }
  cbn [for_each]. unfold bind. cbn [fst snd].
  destruct (rename_file sv clean_junk dry_run sort_collections root file w)
    as [[[]|e] w1]; cbn [snd] in Hothers, Hself, Hstep |- *.
  - specialize (IH w1 Hnd).
    destruct IH as [IH1 IH2].
    { intros q Hq. destruct (Hall q) as [c Hc]; [apply elem_of_cons; now right|].
      exists c. apply Hothers; [|exact Hc]. intros ->. contradiction. }
    split.
    + intros q c Hq Hc. apply not_elem_of_cons in Hq as [Hq1 Hq2].
      apply IH1; [exact Hq2|]. now apply Hothers.
    + intros keep q c Hkeep [ck Hck] Hq Hc.
      apply not_elem_of_cons in Hkeep as [Hk1 Hk2].
      destruct (Hstep keep q c) as (q1 & Hq1 & Hc1);
        [now exists ck | exact Hq | exact Hc |].
      apply (IH2 keep q1 c); try assumption.
      exists ck. now apply Hothers.
  - split.
    + intros q c Hq Hc. apply not_elem_of_cons in Hq as [Hq1 Hq2].
      now apply Hothers.
    + intros keep q c Hkeep Hk Hq Hc. now apply (Hstep keep q c).
Qed.

(** X7. A scan over listed files that are all there, each listed once and
    none of them the log: every file that is not listed is afterwards
    where it was, with its content, and the content of every file, listed
    or not, is afterwards at some path.  The scan overwrites nothing and
    loses nothing, also when it ends in an exception. *)
Theorem scan_loses_no_file (sv : service)
    (clean_junk dry_run sort_collections : bool)
    (walk : list (string * list string)) (w : world) :
  NoDup (listed walk) ->
  (forall q, q ∈ listed walk -> is_Some (w_files w !! q)) ->
  LOG_FILE ∉ listed walk ->
  let w' := snd (rename_scan sv clean_junk dry_run sort_collections walk w) in
  (forall q c, q ∉ listed walk -> q <> LOG_FILE ->
               w_files w !! q = Some c -> w_files w' !! q = Some c)
  /\ (forall q c, q <> LOG_FILE -> w_files w !! q = Some c ->
                  exists q', q' <> LOG_FILE /\ w_files w' !! q' = Some c).
Proof.
  intros Hnd Hall Hlog w'. subst w'.
  unfold rename_scan, Os.with_open_append.
  rewrite listed_pairs in Hnd, Hall, Hlog |- *.
  set (cands := List.flat_map _ walk) in *.
  assert (Hbody : forall w1,
            (forall q, q <> LOG_FILE -> w_files w1 !! q = w_files w !! q) ->
            is_Some (w_files w1 !! LOG_FILE) ->
            let w2 := snd (for_each walk (fun '(root, files) =>
                        for_each files (fun file =>
                          rename_file sv clean_junk dry_run sort_collections
                            root file)) w1) in
            (forall q c, q ∉ List.map (fun rf => OsPath.join (fst rf) (snd rf)) cands ->
                         q <> LOG_FILE -> w_files w !! q = Some c ->
                         w_files (Os.close_append LOG_FILE w2) !! q = Some c)
            /\ (forall q c, q <> LOG_FILE -> w_files w !! q = Some c ->
                  exists q', q' <> LOG_FILE
                             /\ w_files (Os.close_append LOG_FILE w2) !! q'
                                = Some c)).
  { intros w1 Hsame Hl w2. subst w2.
    rewrite (scan_flat (rename_file sv clean_junk dry_run sort_collections)).
    fold cands.
    destruct (loop_loses_no_file sv clean_junk dry_run sort_collections
                cands w1 Hnd) as [H1 H2].
    { intros q Hq. destruct (decide (q = LOG_FILE)) as [->|Hne]; [exact Hl|].
      rewrite Hsame by exact Hne. now apply Hall. }
    split.
    - intros q c Hq Hne Hc. unfold Os.close_append. simpl.
      rewrite lookup_insert_ne by congruence.
      apply H1; [exact Hq|]. now rewrite Hsame.
    - intros q c Hne Hc.
      destruct (H2 LOG_FILE q c Hlog Hl Hne) as (q' & Hq' & Hc');
        [now rewrite Hsame|].
      exists q'. split; [exact Hq'|]. unfold Os.close_append. simpl.
      now rewrite lookup_insert_ne by congruence. }
  unfold Os.open_append.
  destruct (Os.isdir w LOG_FILE); [cbn [snd]; split; eauto|].
  destruct (Os.isfile w LOG_FILE) eqn:Hfile.
  - specialize (Hbody (set_log EmptyString w)). cbn zeta in Hbody.
    destruct (for_each walk _ (set_log EmptyString w)) as [r w2].
    apply Hbody; [reflexivity|]. unfold Os.isfile in Hfile. simpl.
    destruct (w_files w !! LOG_FILE); [eauto | discriminate].
  - destruct (Os.entry_error w LOG_FILE); [cbn [snd]; split; eauto|].
    specialize (Hbody (set_log EmptyString
                         (set_files (<[LOG_FILE:=EmptyString]> (w_files w)) w))).
    cbn zeta in Hbody.
    destruct (for_each walk _ _) as [r w2].
    apply Hbody.
    + intros q Hq. simpl. now rewrite lookup_insert_ne by congruence.
    + simpl. rewrite lookup_insert_eq. eauto.
Qed.

Lemma scan_loses_no_file_witness :
  let w' := snd (rename_scan Example.tmdb false false true
                   [(ROOT_FOLDER, ["Alien.mkv"])] Example.two_files) in
  w_files w' !! "/Movies/Unknown.mkv" = Some "U"
  /\ exists q', q' <> LOG_FILE /\ w_files w' !! q' = Some "A".
Proof.
  destruct (scan_loses_no_file Example.tmdb false false true
              [(ROOT_FOLDER, ["Alien.mkv"])] Example.two_files) as [H1 H2].
  - apply (bool_decide_unpack _). vm_compute. exact I.
  - intros q Hq. apply list_elem_of_singleton in Hq as ->.
    vm_compute. eauto.
  - intros Hq. apply list_elem_of_singleton in Hq. discriminate.
  - split.
    + apply H1; [|discriminate|vm_compute; reflexivity].
      intros Hq. apply list_elem_of_singleton in Hq. discriminate.
    + apply (H2 "/Movies/Alien.mkv"); [discriminate|vm_compute; reflexivity].
Defined.

(** ** The text of the log read back *)

Section LogText.
Import PyStr.

Lemma any_char_app (P : ascii -> bool) (a b : string) :
  any_char P (a +:+ b) = any_char P a || any_char P b.
Proof.
  induction a as [|c a IH]; [reflexivity|].
  rewrite str_app_cons. cbn [any_char]. now rewrite IH, orb_assoc.
Qed.

Lemma is_linebreak_CR (c : ascii) :
  Ascii.eqb c CR = true -> is_linebreak c = true.
Proof. intros H%Ascii.eqb_eq. now subst. Qed.

Lemma universal_newlines_id (s : string) :
  any_char (fun c => Ascii.eqb c CR) s = false -> universal_newlines s = s.
Proof.
  induction s as [|c s IH]; [reflexivity|]. cbn [any_char universal_newlines].
  intros H%orb_false_elim. destruct H as [Hc Hs]. rewrite Hc.
  now rewrite IH.
Qed.

Lemma splitlines_line (l rest : string) :
  one_line l = true ->
  splitlines (l +:+ LF_STR +:+ rest) = l :: splitlines rest.
Proof.
  unfold one_line. rewrite negb_true_iff.
  induction l as [|c l IH]; intros H.
  - rewrite str_app_nil_l. unfold LF_STR. rewrite str_app_cons, str_app_nil_l.
    cbn [splitlines]. change (is_linebreak LF) with true. cbv iota.
    f_equal. destruct rest as [|c2 rest]; [reflexivity|].
    change (Ascii.eqb LF CR) with false. reflexivity.
  - cbn [any_char] in H. apply orb_false_elim in H as [Hc Hl].
    rewrite str_app_cons. cbn [splitlines]. rewrite Hc.
    now rewrite (IH Hl).
Qed.

Lemma no_CR_one_line (s : string) :
  one_line s = true -> any_char (fun c => Ascii.eqb c CR) s = false.
Proof.
  unfold one_line. rewrite negb_true_iff.
  induction s as [|c s IH]; [reflexivity|]. cbn [any_char].
  intros H%orb_false_elim. destruct H as [Hc Hs]. rewrite (IH Hs), orb_false_r.
  destruct (Ascii.eqb c CR) eqn:E; [|reflexivity].
  apply is_linebreak_CR in E. congruence.
Qed.

Lemma record_line_one_line (r : string * string) :
  plain_record r -> one_line (record_line r) = true.
Proof.
  intros (H1 & H2 & _). unfold one_line, record_line in *.
  rewrite negb_true_iff in *. rewrite !any_char_app, H1, H2. reflexivity.
Qed.

Lemma log_text_no_CR (rs : list (string * string)) :
  Forall plain_record rs ->
  any_char (fun c => Ascii.eqb c CR) (log_text rs) = false.
Proof.
  induction 1 as [|r rs Hr _ IH]; [reflexivity|]. cbn [log_text].
  rewrite !any_char_app, IH, (no_CR_one_line _ (record_line_one_line r Hr)).
  reflexivity.
Qed.

(** A log of plain records reads back line by line. *)
Lemma log_text_lines (rs : list (string * string)) :
  Forall plain_record rs ->
  splitlines (universal_newlines (log_text rs)) = List.map record_line rs.
Proof.
  intros H. rewrite universal_newlines_id by now apply log_text_no_CR.
  induction H as [|r rs Hr _ IH]; [reflexivity|]. cbn [log_text List.map].
  rewrite splitlines_line by now apply record_line_one_line.
  now rewrite IH.
Qed.

(** The line of a plain record is cut back into its two paths. *)
Lemma undo_line_record (r : string * string) :
  plain_record r -> undo_line (record_line r) = revert_record (fst r) (snd r).
Proof.
  intros (_ & _ & _ & Hfind). unfold undo_line, contains, split1.
  rewrite Hfind. cbn [negb]. unfold record_line.
  now rewrite str_take_app, str_drop_drop, str_drop_app, str_drop_app.
Qed.

End LogText.

(** ** Undo as a function of the log *)

Lemma makedirs_in_place (w : world) (d : string) (depth : nat) :
  dir_in_place w d = true -> Os.makedirs_depth depth d w = (Ok tt, w).
Proof.
  unfold dir_in_place, makedirs_parts. rewrite andb_true_iff.
  intros [Hd Hp].
  assert (Hbody : forall rec, Os.makedirs_body rec d w = (Ok tt, w)).
  { intros rec. unfold Os.makedirs_body.
    destruct (OsPath.split d) as [h0 t0].
    destruct (if String.eqb t0 EmptyString then OsPath.split h0 else (h0, t0))
      as [h t]. cbn [fst snd] in Hp.
    assert (Hfirst : (if negb (String.eqb h EmptyString)
                         && negb (String.eqb t EmptyString)
                      then ex <- Os.exists_ h ;;
                           if ex then ret tt
                           else try_except (rec h)
                                  (fun e => match e with
                                            | FileExistsError => ret tt
                                            | _ => raise e
                                            end)
                      else ret tt) w = (Ok tt, w)).
    { destruct (String.eqb h EmptyString); [reflexivity|].
      destruct (String.eqb t EmptyString); [reflexivity|].
      cbn [orb negb andb] in Hp |- *.
      unfold bind, Os.exists_, Os.path_exists. now rewrite Hp, orb_true_r. }
    rewrite (bind_ok _ _ _ _ _ Hfirst).
    unfold try_except, Os.mkdir.
    destruct (String.eqb d EmptyString); [now rewrite Hd|].
    unfold Os.path_exists. rewrite Hd, orb_true_r. now rewrite Hd. }
  destruct depth; apply Hbody.
Qed.

Lemma isdir_dirs (w w' : world) (p : string) :
  w_dirs w' = w_dirs w -> Os.isdir w' p = Os.isdir w p.
Proof. intros H. unfold Os.isdir. now rewrite H. Qed.

Lemma dir_in_place_dirs (w w' : world) (d : string) :
  w_dirs w' = w_dirs w -> dir_in_place w' d = dir_in_place w d.
Proof. intros H. unfold dir_in_place. now rewrite !(isdir_dirs w w' _ H). Qed.

Lemma move_other (src dst q : string) (F : gmap string string) :
  q <> src -> q <> dst -> move src dst F !! q = F !! q.
Proof.
  intros Hs Hd. unfold move. destruct (F !! src); [|reflexivity].
  now rewrite lookup_insert_ne, lookup_delete_ne by congruence.
Qed.

(** What undo does with one record whose paths are no directories, the
    folder of the source being in place: the file at the destination, if
    there is one, moves to the source. *)
Lemma revert_record_move (old new : string) (w : world) :
  old <> EmptyString ->
  Os.isdir w old = false -> Os.isdir w new = false ->
  dir_in_place w (OsPath.dirname old) = true ->
  exists w',
    revert_record old new w = (Ok tt, w')
    /\ w_files w' = move new old (w_files w)
    /\ w_dirs w' = w_dirs w.
Proof.
  intros Hne Hold Hnew Hplace.
  unfold revert_record, bind, Os.exists_, Os.path_exists, Os.isfile, move.
  rewrite Hnew, orb_false_r.
  destruct (w_files w !! new) as [c|] eqn:Hc; [|eexists; now split].
  unfold try_except, bind, Os.makedirs.
  rewrite (makedirs_in_place _ _ _ Hplace).
  assert (Hd : Os.isdir w (OsPath.dirname old) = true).
  { unfold dir_in_place in Hplace. now apply andb_true_iff in Hplace as [H _]. }
  rewrite (rename_file_ok _ _ c w Hc Hne Hold Hd).
  eexists. now split.
Qed.

Lemma undo_records_run (l : list (string * string)) (w0 w : world) :
  w_dirs w = w_dirs w0 ->
  Forall (revertible w0) l ->
  exists w',
    for_each (List.map record_line l) undo_line w = (Ok tt, w')
    /\ w_files w'
       = List.fold_left (fun F r => move (snd r) (fst r) F) l (w_files w)
    /\ w_dirs w' = w_dirs w0.
Proof.
  intros Hdirs Hall. revert w Hdirs.
  induction Hall as [|r l Hr _ IH]; intros w Hdirs.
  { exists w. now split. }
  destruct Hr as (Hplain & _ & _ & Hold & Hnew & Hplace).
  destruct (revert_record_move (fst r) (snd r) w) as (w1 & Hrun & Hf & Hd).
  - now destruct Hplain as (_ & _ & H & _).
  - now rewrite (isdir_dirs _ _ _ Hdirs).
  - now rewrite (isdir_dirs _ _ _ Hdirs).
  - now rewrite (dir_in_place_dirs _ _ _ Hdirs).
  - destruct (IH w1) as (w' & Hrun' & Hf' & Hd'); [congruence|].
    exists w'. cbn [List.map List.fold_left].
    rewrite <- (undo_line_record r Hplain) in Hrun.
    rewrite (for_each_cons _ _ _ _ _ Hrun). rewrite <- Hf.
    now split.
Qed.

Lemma fold_move_log (l : list (string * string)) (F : gmap string string) :
  Forall (fun r => fst r <> LOG_FILE /\ snd r <> LOG_FILE) l ->
  List.fold_left (fun F r => move (snd r) (fst r) F) l F !! LOG_FILE
  = F !! LOG_FILE.
Proof.
  intros H. revert F. induction H as [|r l [H1 H2] _ IH]; intros F;
    [reflexivity|].
  cbn [List.fold_left]. rewrite IH. apply move_other; congruence.
Qed.

(** The effect of undo on a log of revertible records. *)
Lemma undo_unwinds (rs : list (string * string)) (w : world) :
  w_files w !! LOG_FILE = Some (log_text rs) ->
  rs <> [] ->
  Forall (revertible w) rs ->
  exists w',
    undo_last_batch w = (Ok tt, w')
    /\ w_files w' = delete LOG_FILE (unwind rs (w_files w))
    /\ w_dirs w' = w_dirs w.
Proof.
  intros Hlog Hne Hall.
  assert (Hplain : Forall plain_record rs).
  { eapply Forall_impl; [exact Hall|]. now intros r [H _]. }
  assert (Hlines : PyStr.splitlines (PyStr.universal_newlines (log_text rs))
                   = List.map record_line rs) by now apply log_text_lines.
  rewrite (undo_last_batch_unfold w _ Hlog)
    by (rewrite Hlines; now destruct rs).
  rewrite Hlines, <- List.map_rev.
  destruct (undo_records_run (List.rev rs) w w eq_refl (Forall_rev Hall))
    as (w1 & Hrun & Hf & Hd).
  rewrite (bind_ok _ _ _ _ _ Hrun).
  assert (Hl : w_files w1 !! LOG_FILE = Some (log_text rs)).
  { rewrite Hf, fold_move_log; [exact Hlog|].
    apply Forall_rev. eapply Forall_impl; [exact Hall|].
    intros r (_ & H1 & H2 & _). now split. }
  unfold bind, Os.remove, print. rewrite Hl.
  eexists. split; [reflexivity|]. simpl. now rewrite Hf.
Qed.

(** X8. Undo on a log of records that read back as written and name
    neither directories nor the log, the folders of the sources being in
    place: undo returns, and the files are those that come from moving,
    for the records from the last to the first, the file at the
    destination, if there is one, to the source; the log is gone and the
    directories are as before. *)
Theorem undo_is_the_unwinding_of_the_log (rs : list (string * string))
    (w : world) :
  w_files w !! LOG_FILE = Some (log_text rs) ->
  rs <> [] ->
  Forall (revertible w) rs ->
  exists w',
    undo_last_batch w = (Ok tt, w')
    /\ w_files w' = delete LOG_FILE (unwind rs (w_files w))
    /\ w_dirs w' = w_dirs w.
Proof. apply undo_unwinds. Qed.

(** ** The scan as the renames it records *)

Lemma rename_regular_ne (src dst c : string) (w w' : world) (r : result unit) :
  w_files w !! src = Some c ->
  src <> dst ->
  Os.rename src dst w = (r, w') ->
  (exists e, r = Raise e /\ w' = w)
  \/ (r = Ok tt
      /\ w' = set_files (<[dst := c]> (delete src (w_files w))) w).
Proof.
  intros Hsrc Hne. unfold Os.rename. rewrite Hsrc.
  destruct (String.eqb_spec src dst) as [->|_]; [contradiction|].
  destruct (Os.isdir w dst); [intros [= <- <-]; eauto|].
  destruct (Os.entry_error w dst); intros [= <- <-]; eauto.
Qed.

(** One round of the loop body on a listed file that is there: either
    files and open log are as before and no rename is applied, or the file
    has moved to a path that was free, the record of that move has been
    written and the round has returned. *)
Lemma rename_file_step_record (sv : service)
    (clean_junk dry_run sort_collections : bool) (root file : string)
    (w : world) :
  is_Some (w_files w !! OsPath.join root file) ->
  let w' := snd (rename_file sv clean_junk dry_run sort_collections root file w) in
  (w_files w' = w_files w /\ w_log w' = w_log w
   /\ step_record sv clean_junk dry_run sort_collections root file w = None)
  \/ (exists new,
        step_record sv clean_junk dry_run sort_collections root file w
        = Some (OsPath.join root file, new)
        /\ fst (rename_file sv clean_junk dry_run sort_collections root file w)
           = Ok tt
        /\ w_files w !! new = None
        /\ w_files w' = move (OsPath.join root file) new (w_files w)
        /\ w_log w' = w_log w +:+ record_line (OsPath.join root file, new)
                      +:+ LF_STR).
Proof.
  intros [c Hold] w'. subst w'. rewrite rename_file_unfold.
  unfold step_record.
  pose proof (keeps_plan_file sv clean_junk sort_collections root file w)
    as (Hf & _ & Hl & _).
  destruct (plan_file sv clean_junk sort_collections root file w)
    as [[[p|]|e] w1] eqn:Hplan; cbn [snd] in Hf, Hl |- *;
    try (left; now repeat split).
  apply plan_file_inv in Hplan as (_ & _ & Hp & _).
  rewrite <- Hp in *. rewrite <- Hf in Hold. rewrite <- Hf, <- Hl. clear Hf Hl Hp.
  unfold apply_plan, bind, Os.exists_, print, sleep, Os.log_write.
  destruct (Os.path_exists w1 (new_path p)) eqn:Hex;
    [left; now repeat split|].
  destruct dry_run; [left; now repeat split|]. cbn [orb].
  destruct (Os.rename (old_path p) (new_path p) w1) as [r w2] eqn:Hren.
  destruct (path_exists_free _ _ Hex) as [Hnew _].
  assert (Hne : old_path p <> new_path p) by congruence.
  apply (rename_regular_ne _ _ c _ _ _ Hold Hne) in Hren
    as [(e & -> & ->)|(-> & ->)].
  - left. now repeat split.
  - right. exists (new_path p). cbn. unfold move, record_line. rewrite Hold.
    cbn [fst snd]. repeat split; try assumption.
    now rewrite !str_app_assoc.
Qed.
(** The loop over listed files that are all there, each listed once: what
    it does to the files is the renames it applies done in order, each of
    a listed file onto a free path, and what it writes to the log is their
    records; a file [keep] that is not listed is no part of them. *)
Lemma loop_replays (sv : service)
    (clean_junk dry_run sort_collections : bool)
    (cands : list (string * string)) (keep : string) (w : world) :
  let paths := List.map (fun rf => OsPath.join (fst rf) (snd rf)) cands in
  let w' := snd (for_each cands
                   (fun rf => rename_file sv clean_junk dry_run
                                sort_collections (fst rf) (snd rf)) w) in
  let rs := loop_records sv clean_junk dry_run sort_collections cands w in
  NoDup paths ->
  (forall q, q ∈ paths -> is_Some (w_files w !! q)) ->
  keep ∉ paths -> is_Some (w_files w !! keep) ->
  w_files w' = replay rs (w_files w)
  /\ w_log w' = w_log w +:+ log_text rs
  /\ applicable rs (w_files w)
  /\ Forall (fun r => fst r ∈ paths /\ fst r <> keep /\ snd r <> keep) rs.
Proof.
  revert w. induction cands as [|[root file] cands IH];
    intros w paths w' rs Hnd Hall Hkeep Hk.
  { subst w' rs. cbn. now rewrite str_app_nil_r. }
  subst paths w' rs. cbn [List.map fst snd loop_records] in *.
  apply NoDup_cons in Hnd as [Hfresh Hnd].
  apply not_elem_of_cons in Hkeep as [Hk1 Hk2].
  assert (Hold : is_Some (w_files w !! OsPath.join root file))
    by (apply Hall, elem_of_cons; now left).
  pose proof (rename_file_step_record sv clean_junk dry_run sort_collections
                root file w Hold) as Hstep.
  cbn [for_each]. unfold bind. cbn [fst snd].
  destruct (rename_file sv clean_junk dry_run sort_collections root file w)
    as [r w1]; cbn [fst snd] in Hstep.
  assert (Hwiden : forall rs,
            Forall (fun r => fst r ∈ List.map (fun rf => OsPath.join (fst rf) (snd rf)) cands
                             /\ fst r <> keep /\ snd r <> keep) rs ->
            Forall (fun r => fst r ∈ OsPath.join root file
                               :: List.map (fun rf => OsPath.join (fst rf) (snd rf)) cands
                             /\ fst r <> keep /\ snd r <> keep) rs).
  { intros rs H. eapply Forall_impl; [exact H|].
    intros x (H1 & H2 & H3). repeat split; try assumption.
    apply elem_of_cons. now right. }
  destruct Hstep as [(Hf & Hl & ->) | (new & -> & Hr & Hfree & Hf & Hl)].
  - destruct r as [[]|e]; cbn [snd app].
    + destruct (IH w1 Hnd) as (H1 & H2 & H3 & H4).
      { intros q Hq. rewrite Hf. apply Hall, elem_of_cons. now right. }
      { exact Hk2. }
      { now rewrite Hf. }
      rewrite H1, H2, Hf, Hl. rewrite Hf in H3. auto.
    + cbn. now rewrite Hf, Hl, str_app_nil_r.
  - subst r. cbn [snd app].
    assert (Hother : forall q, is_Some (w_files w !! q) ->
              q <> OsPath.join root file ->
              w_files w1 !! q = w_files w !! q).
    { intros q [cq Hq] Hne. rewrite Hf. apply move_other; congruence. }
    destruct (IH w1 Hnd) as (H1 & H2 & H3 & H4).
    { intros q Hq. rewrite Hother; [| |intros ->; contradiction];
        apply Hall, elem_of_cons; now right. }
    { exact Hk2. }
    { rewrite Hother; [exact Hk | exact Hk | congruence]. }
    rewrite H1, H2, Hf, Hl. rewrite Hf in H3.
    split; [reflexivity|]. split.
    { cbn [log_text]. now rewrite !str_app_assoc. }
    split; [cbn; auto|].
    constructor; [|now apply Hwiden].
    cbn [fst snd]. split; [apply elem_of_cons; now left|].
    split; [congruence|]. destruct Hk as [ck Hck]. congruence.
Qed.

Lemma move_insert (src dst k v : string) (F : gmap string string) :
  src <> k -> dst <> k ->
  move src dst (<[k := v]> F) = <[k := v]> (move src dst F).
Proof.
  intros Hs Hd. unfold move. rewrite lookup_insert_ne by congruence.
  destruct (F !! src); [|reflexivity].
  rewrite delete_insert_ne by congruence. apply insert_insert_ne. congruence.
Qed.

Lemma fold_move_insert (f : string * string -> string * string)
    (l : list (string * string)) (k v : string) (F : gmap string string) :
  Forall (fun r => fst (f r) <> k /\ snd (f r) <> k) l ->
  List.fold_left (fun F r => move (fst (f r)) (snd (f r)) F) l (<[k := v]> F)
  = <[k := v]> (List.fold_left (fun F r => move (fst (f r)) (snd (f r)) F) l F).
Proof.
  intros H. revert F. induction H as [|r l [H1 H2] _ IH]; intros F;
    [reflexivity|].
  cbn [List.fold_left]. rewrite move_insert by assumption. apply IH.
Qed.

Lemma move_back (old new : string) (F : gmap string string) :
  is_Some (F !! old) -> F !! new = None ->
  move new old (move old new F) = F.
Proof.
  intros [c Hc] Hn. assert (Hne : old <> new) by congruence.
  unfold move. rewrite Hc, lookup_insert_eq.
  rewrite delete_insert_eq, (delete_id _ new), insert_delete_eq, insert_id;
    try reflexivity; try assumption.
  now rewrite lookup_delete_ne.
Qed.

(** Renames onto free paths, undone from the last to the first. *)
Lemma unwind_replay (rs : list (string * string)) (F : gmap string string) :
  applicable rs F -> unwind rs (replay rs F) = F.
Proof.
  revert F. induction rs as [|r rs IH]; intros F; [reflexivity|].
  intros (Hs & Hd & Hrest). unfold unwind, replay in *.
  cbn [List.rev List.fold_left]. rewrite List.fold_left_app.
  cbn [List.fold_left]. rewrite (IH _ Hrest). now apply move_back.
Qed.
Ltac revertible_here :=
  unfold revertible, plain_record; cbn [fst snd];
  repeat split; try discriminate; vm_compute; reflexivity.

Lemma undo_is_the_unwinding_of_the_log_witness :
  let w := snd (rename_scan Example.tmdb false false true
                  [(ROOT_FOLDER, ["Unknown.mkv"; "Alien.mkv"])]
                  Example.two_files) in
  let rs := [("/Movies/Alien.mkv",
              "/Movies/Alien Collection/Alien (1979).mkv")] in
  exists w',
    undo_last_batch w = (Ok tt, w')
    /\ w_files w' = delete LOG_FILE (unwind rs (w_files w))
    /\ w_dirs w' = w_dirs w.
Proof.
  intros w rs. apply (undo_is_the_unwinding_of_the_log rs w).
  - vm_compute. reflexivity.
  - discriminate.
  - constructor; [revertible_here | constructor].
Defined.
Lemma applicable_insert (k v : string) (rs : list (string * string))
    (F : gmap string string) :
  Forall (fun r => fst r <> k /\ snd r <> k) rs ->
  applicable rs (<[k := v]> F) -> applicable rs F.
Proof.
  intros H. revert F. induction H as [|r rs [H1 H2] _ IH]; intros F;
    [trivial|].
  cbn [applicable]. rewrite !lookup_insert_ne by congruence.
  intros (Hs & Hd & Hrest). repeat split; try assumption.
  apply IH. now rewrite <- move_insert.
Qed.

(** The scan where no log is there yet and the listed files are. *)
Lemma scan_replays (sv : service)
    (clean_junk dry_run sort_collections : bool)
    (walk : list (string * list string)) (w : world) :
  NoDup (listed walk) ->
  (forall q, q ∈ listed walk -> is_Some (w_files w !! q)) ->
  LOG_FILE ∉ listed walk ->
  w_files w !! LOG_FILE = None ->
  Os.isdir w LOG_FILE = false ->
  let w' := snd (rename_scan sv clean_junk dry_run sort_collections walk w) in
  let rs := scan_records sv clean_junk dry_run sort_collections walk w in
  w_files w' = <[LOG_FILE := log_text rs]> (replay rs (w_files w))
  /\ applicable rs (w_files w)
  /\ Forall (fun r => fst r ∈ listed walk
                      /\ fst r <> LOG_FILE /\ snd r <> LOG_FILE) rs.
Proof.
  intros Hnd Hall Hlog Hnone Hdir w' rs. subst w' rs.
  unfold rename_scan, scan_records, Os.with_open_append.
  assert (Hopen : Os.open_append LOG_FILE w
                  = (Ok tt, set_log EmptyString
                              (set_files (<[LOG_FILE := EmptyString]> (w_files w)) w))).
  { unfold Os.open_append, Os.isfile. rewrite Hdir, Hnone. reflexivity. }
  rewrite Hopen.
  rewrite (scan_flat (rename_file sv clean_junk dry_run sort_collections)).
  rewrite listed_pairs in Hnd, Hall, Hlog |- *.
  set (cands := List.flat_map _ walk) in *.
  set (w0 := set_log EmptyString _).
  destruct (loop_replays sv clean_junk dry_run sort_collections cands
              LOG_FILE w0 Hnd) as (Hf & Hl & Happ & Hrs).
  { intros q Hq. subst w0. cbn [w_files set_log set_files].
    rewrite lookup_insert_ne by (intros <-; contradiction). now apply Hall. }
  { exact Hlog. }
  { subst w0. cbn [w_files set_log set_files]. rewrite lookup_insert_eq. eauto. }
  set (rs := loop_records _ _ _ _ cands w0) in *.
  assert (Hrs' : Forall (fun r => fst r <> LOG_FILE /\ snd r <> LOG_FILE) rs).
  { eapply Forall_impl; [exact Hrs|]. now intros r (_ & H1 & H2). }
  subst w0. cbn [w_files w_log set_log set_files] in Hf, Hl, Happ.
  unfold replay in Hf.
  rewrite (fold_move_insert (fun r => r)) in Hf by exact Hrs'.
  destruct (for_each cands _ _) as [r w2]. cbn [snd] in *.
  split; [|split; [now apply applicable_insert in Happ | exact Hrs]].
  unfold Os.close_append. cbn [w_files set_log set_files].
  rewrite Hf, Hl, lookup_insert_eq. cbn [from_option id].
  rewrite !str_app_nil_l. apply insert_insert_eq.
Qed.

(** X9. A scan over listed files that are all there, each listed once, no
    log being there yet: the files afterwards are those that come from
    doing the renames the scan applied, in order, each one moving a listed
    file onto a path where no file was, and the log holds one line for
    each of these renames, in the same order, and nothing else. *)
Theorem scan_is_the_replay_of_its_log (sv : service)
    (clean_junk dry_run sort_collections : bool)
    (walk : list (string * list string)) (w : world) :
  NoDup (listed walk) ->
  (forall q, q ∈ listed walk -> is_Some (w_files w !! q)) ->
  LOG_FILE ∉ listed walk ->
  w_files w !! LOG_FILE = None ->
  Os.isdir w LOG_FILE = false ->
  let w' := snd (rename_scan sv clean_junk dry_run sort_collections walk w) in
  let rs := scan_records sv clean_junk dry_run sort_collections walk w in
  w_files w' = <[LOG_FILE := log_text rs]> (replay rs (w_files w))
  /\ applicable rs (w_files w)
  /\ Forall (fun r => fst r ∈ listed walk
                      /\ fst r <> LOG_FILE /\ snd r <> LOG_FILE) rs.
Proof. apply scan_replays. Qed.

(** X10. Round trip.  A scan as above that applied at least one rename,
    the records of its renames being such that undo can act on them (they
    read back as written, and the folders of the sources are in place):
    undo then returns and the files are exactly those before the scan;
    the log is gone. *)
Theorem undo_after_scan_restores_the_files (sv : service)
    (clean_junk dry_run sort_collections : bool)
    (walk : list (string * list string)) (w : world) :
  NoDup (listed walk) ->
  (forall q, q ∈ listed walk -> is_Some (w_files w !! q)) ->
  LOG_FILE ∉ listed walk ->
  w_files w !! LOG_FILE = None ->
  Os.isdir w LOG_FILE = false ->
  let w1 := snd (rename_scan sv clean_junk dry_run sort_collections walk w) in
  let rs := scan_records sv clean_junk dry_run sort_collections walk w in
  rs <> [] ->
  Forall (revertible w1) rs ->
  exists w2,
    undo_last_batch w1 = (Ok tt, w2) /\ w_files w2 = w_files w.
Proof.
  intros Hnd Hall Hlog Hnone Hdir w1 rs Hne Hrev.
  destruct (scan_replays sv clean_junk dry_run sort_collections walk w
              Hnd Hall Hlog Hnone Hdir) as (Hf & Happ & Hrs).
  fold w1 rs in Hf, Happ, Hrs.
  destruct (undo_unwinds rs w1) as (w2 & Hrun & Hf2 & _);
    [rewrite Hf; apply lookup_insert_eq | exact Hne | exact Hrev |].
  exists w2. split; [exact Hrun|].
  rewrite Hf2, Hf.
  transitivity (delete LOG_FILE
                  (<[LOG_FILE := log_text rs]>
                     (unwind rs (replay rs (w_files w))))).
  - f_equal. unfold unwind.
    apply (fold_move_insert (fun r => (snd r, fst r))).
    apply Forall_rev. eapply Forall_impl; [exact Hrs|].
    cbn [fst snd]. now intros r (_ & H1 & H2).
  - rewrite unwind_replay by exact Happ.
    rewrite delete_insert_eq. now apply delete_id.
Qed.
Lemma scan_is_the_replay_of_its_log_witness :
  let walk := [(ROOT_FOLDER, ["Unknown.mkv"; "Alien.mkv"])] in
  let w := Example.two_files in
  let w' := snd (rename_scan Example.tmdb false false true walk w) in
  let rs := scan_records Example.tmdb false false true walk w in
  w_files w' = <[LOG_FILE := log_text rs]> (replay rs (w_files w))
  /\ applicable rs (w_files w)
  /\ Forall (fun r => fst r ∈ listed walk
                      /\ fst r <> LOG_FILE /\ snd r <> LOG_FILE) rs.
Proof.
  intros walk w.
  apply (scan_is_the_replay_of_its_log Example.tmdb false false true walk w).
  - apply (bool_decide_unpack _). vm_compute. exact I.
  - intros q Hq.
    change (q ∈ ["/Movies/Unknown.mkv"; "/Movies/Alien.mkv"]) in Hq.
    apply elem_of_cons in Hq as [->|Hq];
      [|apply list_elem_of_singleton in Hq as ->]; vm_compute; eauto.
  - apply (bool_decide_unpack _). vm_compute. exact I.
  - vm_compute. reflexivity.
  - vm_compute. reflexivity.
Defined.

Lemma undo_after_scan_restores_the_files_witness :
  let walk := [(ROOT_FOLDER, ["Unknown.mkv"; "Alien.mkv"])] in
  let w := Example.two_files in
  scan_records Example.tmdb false false true walk w
  = [("/Movies/Alien.mkv", "/Movies/Alien Collection/Alien (1979).mkv")]
  /\ exists w2,
       undo_last_batch (snd (rename_scan Example.tmdb false false true walk w))
       = (Ok tt, w2)
       /\ w_files w2 = w_files w.
Proof.
  intros walk w.
  assert (E : scan_records Example.tmdb false false true walk w
              = [("/Movies/Alien.mkv",
                  "/Movies/Alien Collection/Alien (1979).mkv")])
    by (vm_compute; reflexivity).
  split; [exact E|].
  apply (undo_after_scan_restores_the_files Example.tmdb false false true
           walk w).
  - apply (bool_decide_unpack _). vm_compute. exact I.
  - intros q Hq.
    change (q ∈ ["/Movies/Unknown.mkv"; "/Movies/Alien.mkv"]) in Hq.
    apply elem_of_cons in Hq as [->|Hq];
      [|apply list_elem_of_singleton in Hq as ->]; vm_compute; eauto.
  - apply (bool_decide_unpack _). vm_compute. exact I.
  - vm_compute. reflexivity.
  - vm_compute. reflexivity.
  - rewrite E. discriminate.
  - rewrite E. constructor; [revertible_here | constructor].
Defined.
(** ** The prompts *)

Lemma prompt_rounds_answer (message : string) (bad : list string)
    (ans : string) (rest : list string) (n : nat) (w : world) :
  w_stdin w = bad ++ ans :: rest ->
  Forall no_answer bad ->
  says_yes ans || says_no ans = true ->
  (List.length bad <= n)%nat ->
  exists w',
    prompt_yes_no_rounds n message w = (Ok (says_yes ans), w')
    /\ same_state w w'
    /\ w_stdin w' = rest
    /\ w_trace w' = w_trace w ++ asked_again message bad
                      ++ [EvInput (message +:+ " [y/n]: ")].
Proof.
  intros Hin Hbad Hans. revert n w Hin.
  induction Hbad as [|l bad [Hy Hn] _ IH]; intros n w Hin Hlen.
  - exists (set_stdin rest (emit (EvInput (message +:+ " [y/n]: ")) w)).
    split; [|now repeat split].
    destruct n; cbn [prompt_yes_no_rounds]; unfold bind, input;
      cbn [app] in Hin; rewrite Hin; fold (says_yes ans); fold (says_no ans);
      destruct (says_yes ans); try reflexivity;
      cbn [orb] in Hans; now rewrite Hans.
  - destruct n as [|n]; [cbn in Hlen; lia|].
    cbn [prompt_yes_no_rounds]. unfold bind at 1. unfold input at 1.
    cbn [app] in Hin. rewrite Hin.
    fold (says_yes l); fold (says_no l). rewrite Hy, Hn.
    unfold bind at 1. unfold print at 1.
    destruct (IH n (emit (EvPrint MsgEnterYN)
                      (set_stdin (bad ++ ans :: rest)
                         (emit (EvInput (message +:+ " [y/n]: ")) w))))
      as (w' & Hrun & Hsame & Hrest & Htrace);
      [reflexivity | cbn in Hlen; lia |].
    exists w'. split; [exact Hrun|]. split; [exact Hsame|].
    split; [exact Hrest|]. rewrite Htrace. cbn [w_trace emit set_stdin].
    cbn [asked_again List.flat_map]. now rewrite <- !List.app_assoc.
Qed.

(** X11. [prompt_yes_no] reads lines until one is an answer: after any
    number of lines that are none, each of them answered by the request to
    enter y or n, the first line that reads y, yes, n or no (in any case,
    white space around it aside) decides, and the lines after it are left
    untyped.  Files, directories and key are not touched. *)
Theorem prompt_yes_no_reads_until_answer (message : string)
    (bad : list string) (ans : string) (rest : list string) (w : world) :
  w_stdin w = bad ++ ans :: rest ->
  Forall no_answer bad ->
  says_yes ans || says_no ans = true ->
  exists w',
    prompt_yes_no message w = (Ok (says_yes ans), w')
    /\ same_state w w'
    /\ w_stdin w' = rest
    /\ w_trace w' = w_trace w ++ asked_again message bad
                      ++ [EvInput (message +:+ " [y/n]: ")].
Proof.
  intros Hin Hbad Hans. unfold prompt_yes_no.
  apply prompt_rounds_answer; try assumption.
  rewrite Hin, List.length_app. lia.
Qed.

Lemma prompt_yes_no_reads_until_answer_witness :
  exists w',
    prompt_yes_no "Sort?"
      (set_stdin ["maybe"; EmptyString; " YES "; "n"] Example.two_files)
    = (Ok true, w')
    /\ w_stdin w' = ["n"].
Proof.
  destruct (prompt_yes_no_reads_until_answer "Sort?" ["maybe"; EmptyString]
              " YES " ["n"]
              (set_stdin ["maybe"; EmptyString; " YES "; "n"]
                 Example.two_files))
    as (w' & Hrun & _ & Hrest & _).
  - reflexivity.
  - repeat constructor.
  - reflexivity.
  - exists w'. split; [exact Hrun | exact Hrest].
Defined.

Lemma prompt_rounds_eof (message : string) (n : nat) (w : world) :
  Forall no_answer (w_stdin w) ->
  (List.length (w_stdin w) <= n)%nat ->
  exists w',
    prompt_yes_no_rounds n message w = (Raise EOFError, w')
    /\ same_state w w'
    /\ w_stdin w' = []
    /\ w_trace w' = w_trace w ++ asked_again message (w_stdin w)
                      ++ [EvInput (message +:+ " [y/n]: ")].
Proof.
  remember (w_stdin w) as lines eqn:Hin. intros Hbad. revert n w Hin.
  induction Hbad as [|l bad [Hy Hn] _ IH]; intros n w Hin Hlen.
  - exists (emit (EvInput (message +:+ " [y/n]: ")) w).
    split; [|now repeat split].
    destruct n; cbn [prompt_yes_no_rounds]; unfold bind, input;
      now rewrite <- Hin.
  - destruct n as [|n]; [cbn in Hlen; lia|].
    cbn [prompt_yes_no_rounds]. unfold bind at 1.
    unfold input at 1. rewrite <- Hin.
    fold (says_yes l); fold (says_no l). rewrite Hy, Hn.
    unfold bind at 1. unfold print at 1.
    destruct (IH n (emit (EvPrint MsgEnterYN)
                      (set_stdin bad
                         (emit (EvInput (message +:+ " [y/n]: ")) w))))
      as (w' & Hrun & Hsame & Hrest & Htrace);
      [reflexivity | cbn in Hlen; lia |].
    exists w'. split; [exact Hrun|]. split; [exact Hsame|].
    split; [exact Hrest|]. rewrite Htrace. cbn [w_trace emit set_stdin].
    cbn [asked_again List.flat_map]. now rewrite <- !List.app_assoc.
Qed.

(** X12. When the typed lines run out before one of them is an answer,
    [prompt_yes_no] ends in [EOFError], raised by [input]: every line has
    been read and answered by the request to enter y or n, and files,
    directories and key are not touched. *)
Theorem prompt_yes_no_without_answer_raises (message : string) (w : world) :
  Forall no_answer (w_stdin w) ->
  exists w',
    prompt_yes_no message w = (Raise EOFError, w')
    /\ same_state w w'
    /\ w_stdin w' = []
    /\ w_trace w' = w_trace w ++ asked_again message (w_stdin w)
                      ++ [EvInput (message +:+ " [y/n]: ")].
Proof.
  intros Hbad. unfold prompt_yes_no. now apply prompt_rounds_eof.
Qed.

Lemma prompt_yes_no_without_answer_raises_witness :
  exists w',
    prompt_yes_no "Sort?" (set_stdin ["maybe"; "ja"] Example.two_files)
    = (Raise EOFError, w')
    /\ w_stdin w' = [].
Proof.
  destruct (prompt_yes_no_without_answer_raises "Sort?"
              (set_stdin ["maybe"; "ja"] Example.two_files))
    as (w' & Hrun & _ & Hrest & _).
  - repeat constructor.
  - exists w'. split; [exact Hrun | exact Hrest].
Defined.
(** ** The session of [rename_movies] *)

Lemma prompt_answer_now (message ans : string) (rest : list string)
    (w : world) :
  w_stdin w = ans :: rest ->
  says_yes ans || says_no ans = true ->
  prompt_yes_no message w
  = (Ok (says_yes ans),
     set_stdin rest (emit (EvInput (message +:+ " [y/n]: ")) w)).
Proof.
  intros Hin Hans. unfold prompt_yes_no. rewrite Hin.
  cbn [List.length prompt_yes_no_rounds]. unfold bind, input. rewrite Hin.
  fold (says_yes ans); fold (says_no ans).
  destruct (says_yes ans); [reflexivity|]. cbn [orb] in Hans. now rewrite Hans.
Qed.

(** The part of [rename_movies] after the key is settled. *)
Lemma answers_then_scan (sv : service) (walk : list (string * list string))
    (a1 a2 a3 : string) (rest : list string) (w : world) :
  w_stdin w = a1 :: a2 :: a3 :: rest ->
  says_yes a1 || says_no a1 = true ->
  says_yes a2 || says_no a2 = true ->
  says_yes a3 || says_no a3 = true ->
  exists w3,
    (clean_junk <- prompt_yes_no
       "Do you want to clean junk (1080p, BluRay, x264, etc.) from filenames?" ;;
     dry_run <- prompt_yes_no
       "Do you want to run in dry-run mode (no files will be renamed)?" ;;
     sort_collections <- prompt_yes_no
       "Do you want to sort movies into folders based on TMDb collections?" ;;
     print MsgStartingScan ;;;
     rename_scan sv clean_junk dry_run sort_collections walk) w
    = rename_scan sv (says_yes a1) (says_yes a2) (says_yes a3) walk w3
    /\ same_state w w3
    /\ w_stdin w3 = rest
    /\ w_trace w3
       = w_trace w
         ++ [EvInput "Do you want to clean junk (1080p, BluRay, x264, etc.) from filenames? [y/n]: ";
             EvInput "Do you want to run in dry-run mode (no files will be renamed)? [y/n]: ";
             EvInput "Do you want to sort movies into folders based on TMDb collections? [y/n]: ";
             EvPrint MsgStartingScan].
Proof.
  intros Hin H1 H2 H3.
  rewrite (bind_ok _ _ _ _ _ (prompt_answer_now _ a1 _ w Hin H1)).
  set (w1 := set_stdin (a2 :: a3 :: rest) _).
  rewrite (bind_ok _ _ _ _ _
             (prompt_answer_now _ a2 (a3 :: rest) w1 eq_refl H2)).
  set (w2 := set_stdin (a3 :: rest) _).
  rewrite (bind_ok _ _ _ _ _ (prompt_answer_now _ a3 rest w2 eq_refl H3)).
  unfold bind at 1. unfold print at 1.
  eexists. split; [reflexivity|]. split; [now repeat split|].
  split; [reflexivity|]. subst w1 w2. cbn [w_trace emit set_stdin].
  now rewrite <- !List.app_assoc.
Qed.

(** X13. With the key set (neither empty nor the placeholder) and three
    answers typed, [rename_movies] asks its three questions in the order
    junk cleaning, dry run, collection sorting, and then is the scan with
    these three answers as its options; up to the scan nothing but the
    typed lines and the trace has changed. *)
Theorem rename_movies_scans_with_the_answers (sv : service)
    (walk : list (string * list string))
    (a1 a2 a3 : string) (rest : list string) (w : world) :
  w_key w <> EmptyString -> w_key w <> PLACEHOLDER_KEY ->
  w_stdin w = a1 :: a2 :: a3 :: rest ->
  says_yes a1 || says_no a1 = true ->
  says_yes a2 || says_no a2 = true ->
  says_yes a3 || says_no a3 = true ->
  exists w3,
    rename_movies sv walk w
    = rename_scan sv (says_yes a1) (says_yes a2) (says_yes a3) walk w3
    /\ same_state w w3
    /\ w_stdin w3 = rest
    /\ w_trace w3
       = w_trace w
         ++ [EvInput "Do you want to clean junk (1080p, BluRay, x264, etc.) from filenames? [y/n]: ";
             EvInput "Do you want to run in dry-run mode (no files will be renamed)? [y/n]: ";
             EvInput "Do you want to sort movies into folders based on TMDb collections? [y/n]: ";
             EvPrint MsgStartingScan].
Proof.
  intros Hk1 Hk2 Hin H1 H2 H3. unfold rename_movies.
  unfold bind at 1. unfold get_key at 1.
  apply String.eqb_neq in Hk1, Hk2. rewrite Hk1, Hk2. cbn [orb].
  unfold bind at 1. unfold ret at 1. cbn [negb].
  now apply answers_then_scan.
Qed.

Lemma rename_movies_scans_with_the_answers_witness :
  exists w3,
    rename_movies Example.tmdb [(ROOT_FOLDER, ["Alien.mkv"])]
      (set_stdin ["Y"; "no"; " yes"] Example.two_files)
    = rename_scan Example.tmdb true false true [(ROOT_FOLDER, ["Alien.mkv"])] w3
    /\ w_stdin w3 = [].
Proof.
  destruct (rename_movies_scans_with_the_answers Example.tmdb
              [(ROOT_FOLDER, ["Alien.mkv"])] "Y" "no" " yes" []
              (set_stdin ["Y"; "no"; " yes"] Example.two_files))
    as (w3 & Hrun & _ & Hrest & _);
    try reflexivity; try discriminate.
  exists w3. split; [exact Hrun | exact Hrest].
Defined.

(** X14. Without a key, the key is asked for and the stripped line is
    stored in the global, whatever it is.  An empty one ends
    [rename_movies] there: no question, no request, nothing scanned, the
    file system as it was.  Any other goes on to the questions and the
    scan, which looks up with that key. *)
Theorem rename_movies_asks_for_the_key (sv : service)
    (walk : list (string * list string))
    (line : string) (rest : list string) (w : world) :
  w_key w = EmptyString \/ w_key w = PLACEHOLDER_KEY ->
  w_stdin w = line :: rest ->
  let w1 := set_key (PyStr.strip line)
              (set_stdin rest
                 (emit (EvInput "Paste your TMDb API key here: ")
                    (emit (EvPrint MsgSignUp) (emit (EvPrint MsgKeyNotSet) w)))) in
  (PyStr.strip line = EmptyString ->
   rename_movies sv walk w = (Ok tt, emit (EvPrint MsgNoKey) w1))
  /\ (PyStr.strip line <> EmptyString ->
      forall a1 a2 a3 rest',
        rest = a1 :: a2 :: a3 :: rest' ->
        says_yes a1 || says_no a1 = true ->
        says_yes a2 || says_no a2 = true ->
        says_yes a3 || says_no a3 = true ->
        exists w3,
          rename_movies sv walk w
          = rename_scan sv (says_yes a1) (says_yes a2) (says_yes a3) walk w3
          /\ same_state w1 w3
          /\ w_key w3 = PyStr.strip line
          /\ w_stdin w3 = rest').
Proof.
  intros Hkey Hin w1.
  assert (Hask : String.eqb (w_key w) EmptyString
                 || String.eqb (w_key w) PLACEHOLDER_KEY = true).
  { destruct Hkey as [-> | ->]; reflexivity. }
  assert (Hget : get_api_key_from_user w
                 = (Ok (PyStr.strip line),
                    set_stdin rest
                      (emit (EvInput "Paste your TMDb API key here: ")
                         (emit (EvPrint MsgSignUp)
                            (emit (EvPrint MsgKeyNotSet) w))))).
  { unfold get_api_key_from_user, bind, print, input, ret.
    cbn [w_stdin emit]. now rewrite Hin. }
  split.
  - intros Hs. unfold rename_movies. unfold bind at 1. unfold get_key at 1.
    rewrite Hask. unfold bind at 1. rewrite (bind_ok _ _ _ _ _ Hget).
    unfold bind at 1. unfold set_api_key at 1. subst w1. rewrite Hs.
    reflexivity.
  - intros Hne a1 a2 a3 rest' -> H1 H2 H3.
    apply String.eqb_neq in Hne.
    unfold rename_movies. unfold bind at 1. unfold get_key at 1.
    rewrite Hask. unfold bind at 1. rewrite (bind_ok _ _ _ _ _ Hget).
    unfold bind at 1. unfold set_api_key at 1. fold w1. rewrite Hne.
    unfold ret at 1. cbn [negb].
    destruct (answers_then_scan sv walk a1 a2 a3 rest' w1 eq_refl H1 H2 H3)
      as (w3 & Hrun & Hsame & Hrest & _).
    exists w3. split; [exact Hrun|]. split; [exact Hsame|].
    split; [|exact Hrest]. now destruct Hsame as (_ & _ & _ & ->).
Qed.

Lemma rename_movies_asks_for_the_key_witness :
  (let w := set_stdin ["  "; "y"]
              (set_key PLACEHOLDER_KEY Example.two_files) in
   rename_movies Example.tmdb [(ROOT_FOLDER, ["Alien.mkv"])] w
   = (Ok tt,
      emit (EvPrint MsgNoKey)
        (set_key EmptyString
           (set_stdin ["y"]
              (emit (EvInput "Paste your TMDb API key here: ")
                 (emit (EvPrint MsgSignUp) (emit (EvPrint MsgKeyNotSet) w)))))))
  /\ (let w := set_stdin [" K2 "; "n"; "y"; "n"]
                 (set_key EmptyString Example.two_files) in
      exists w3,
        rename_movies Example.tmdb [(ROOT_FOLDER, ["Alien.mkv"])] w
        = rename_scan Example.tmdb false true false
            [(ROOT_FOLDER, ["Alien.mkv"])] w3
        /\ w_key w3 = "K2").
Proof.
  split.
  - intros w.
    apply (rename_movies_asks_for_the_key Example.tmdb
             [(ROOT_FOLDER, ["Alien.mkv"])] "  " ["y"] w).
    + right. reflexivity.
    + reflexivity.
    + reflexivity.
  - intros w.
    destruct (rename_movies_asks_for_the_key Example.tmdb
                [(ROOT_FOLDER, ["Alien.mkv"])] " K2 " ["n"; "y"; "n"] w)
      as [_ H].
    + left. reflexivity.
    + reflexivity.
    + destruct (H ltac:(discriminate) "n" "y" "n" [] eq_refl eq_refl eq_refl
                  eq_refl) as (w3 & Hrun & _ & Hk & _).
      exists w3. split; [exact Hrun | exact Hk].
Defined.
(** ** The requests of a lookup *)

(** The world after the body of the [try] of [get_movie_data]: the search
    request has been made, and at most the details request after it. *)
Lemma get_movie_data_body_worlds (sv : service)
    (params : list (string * string)) (w w1 : world) (r : result json) :
  get_movie_data_body sv SEARCH_URL params w = (r, w1) ->
  w1 = emit (EvRequest SEARCH_URL params) w
  \/ exists movie_id,
       w1 = emit (EvRequest (DETAILS_URL +:+ movie_id) [("api_key", w_key w)])
              (emit (EvRequest SEARCH_URL params) w).
Proof.
  unfold get_movie_data_body. intros H.
  apply bind_inv in H as [(resp & w2 & Hget & H) | (e & Hget & _)];
    unfold requests_get in Hget; injection Hget as _ <-; [|now left].
  apply bind_inv in H as [(? & w3 & H0 & H) | (e & H0 & _)];
    apply lift_inv in H0 as [_ ->]; [|now left].
  apply bind_inv in H as [(data & w3 & H0 & H) | (e & H0 & _)];
    apply lift_inv in H0 as [_ ->]; [|now left].
  apply bind_inv in H as [(results & w3 & H0 & H) | (e & H0 & _)];
    apply lift_inv in H0 as [_ ->]; [|now left].
  apply bind_inv in H as [(ms & w3 & H0 & H) | (e & H0 & _)];
    apply lift_inv in H0 as [_ ->]; [|now left].
  apply bind_inv in H as [(movie & w3 & H0 & H) | (e & H0 & _)];
    apply lift_inv in H0 as [_ ->]; [|now left].
  destruct (negb (Py.truthy movie)); [injection H as _ <-; now left|].
  apply bind_inv in H as [(movie_id & w3 & H0 & H) | (e & H0 & _)];
    apply lift_inv in H0 as [_ ->]; [|now left].
  apply bind_inv in H as [(key & w3 & H0 & H) | (e & H0 & _)];
    unfold get_key in H0; [injection H0 as <- <- | discriminate].
  right. exists (Py.str movie_id). cbn [w_key emit] in H.
  apply bind_inv in H as [(dresp & w4 & Hget & H) | (e & Hget & _)];
    unfold requests_get in Hget; injection Hget as _ <-; [|reflexivity].
  apply bind_inv in H as [(? & w5 & H0 & H) | (e & H0 & _)];
    apply lift_inv in H0 as [_ ->]; [|reflexivity].
  now apply lift_inv in H as [_ ->].
Qed.

(** X15. A lookup never raises and sends one request or two: first the
    search, with the key and the title as its parameters, and then at most
    the details request for one identifier, with the key alone.  Beyond
    that it prints at most the error it has caught; it reads no line and
    leaves files, directories and key alone. *)
Theorem lookup_sends_search_then_details (sv : service) (title : string)
    (w : world) :
  let search := EvRequest SEARCH_URL [("api_key", w_key w); ("query", title)] in
  exists v w' sent said,
    get_movie_data sv title w = (Ok v, w')
    /\ same_state w w'
    /\ w_stdin w' = w_stdin w
    /\ w_trace w' = w_trace w ++ search :: sent ++ said
    /\ (sent = []
        \/ exists movie_id,
             sent = [EvRequest (DETAILS_URL +:+ movie_id)
                       [("api_key", w_key w)]])
    /\ (said = [] \/ exists e, said = [EvPrint (MsgTmdbError title e)]).
Proof.
  intros search. unfold get_movie_data, bind, get_key, try_except.
  destruct (get_movie_data_body sv SEARCH_URL
              [("api_key", w_key w); ("query", title)] w) as [r w1] eqn:Hbody.
  pose proof (get_movie_data_body_worlds _ _ _ _ _ Hbody) as Hw.
  assert (Hshape : exists sent,
             w_trace w1 = w_trace w ++ search :: sent
             /\ same_state w w1 /\ w_stdin w1 = w_stdin w
             /\ (sent = []
                 \/ exists movie_id,
                      sent = [EvRequest (DETAILS_URL +:+ movie_id)
                                [("api_key", w_key w)]])).
  { destruct Hw as [-> | (movie_id & ->)].
    - exists []. repeat split. now left.
    - eexists. split; [|split; [now repeat split|split; [reflexivity|]]].
      + cbn [w_trace emit]. now rewrite <- List.app_assoc.
      + right. now exists movie_id. }
  destruct Hshape as (sent & Htrace & Hsame & Hin & Hsent).
  destruct r as [v|e].
  - exists v, w1, sent, []. rewrite List.app_nil_r. repeat split;
      try assumption; try apply Hsame. now left.
  - eexists JNull, _, sent, [EvPrint (MsgTmdbError title e)].
    split; [reflexivity|]. cbn [w_trace w_stdin emit].
    split; [exact Hsame|]. split; [exact Hin|].
    split; [rewrite Htrace; now rewrite <- List.app_assoc|].
    split; [exact Hsent|]. right. now exists e.
Qed.
(** ** A renamed file at the next scan *)

Lemma year_search_tag (before : string) (d1 d2 d3 d4 : ascii) (rest : string) :
  PyStr.isdigit d1 = true -> PyStr.isdigit d2 = true ->
  PyStr.isdigit d3 = true -> PyStr.isdigit d4 = true ->
  has_year (before +:+ year_tag d1 d2 d3 d4 rest) = true.
Proof.
  intros H1 H2 H3 H4. unfold has_year.
  assert (Hat : Re.year_at (year_tag d1 d2 d3 d4 rest) = true)
    by (apply year_at_iff; now exists d1, d2, d3, d4, rest).
  induction before as [|c b IH].
  - rewrite str_app_nil_l. unfold year_tag in *. cbn [Re.year_search].
    now rewrite Hat.
  - rewrite str_app_cons. cbn [Re.year_search]. rewrite IH. apply orb_true_r.
Qed.

(** The lookup and the release date behind a plan. *)
Lemma plan_file_year (sv : service) (clean_junk sort_collections : bool)
    (root file : string) (w w1 : world) (p : plan) :
  plan_file sv clean_junk sort_collections root file w = (Ok (Some p), w1) ->
  exists details release_date year,
    fst (get_movie_data sv (clean_title file clean_junk) w) = Ok details
    /\ Py.getitem details "release_date" = Ok release_date
    /\ Py.slice_to 4 release_date = Ok year
    /\ new_name p
       = clean_title file clean_junk +:+ " (" +:+ Py.str year +:+ ")"
         +:+ PyStr.lower (snd (OsPath.splitext file)).
Proof.
  unfold plan_file. destruct (OsPath.splitext file) as [name ext0]. cbn [snd].
  destruct (in_list (PyStr.lower ext0) VIDEO_EXTENSIONS); [|discriminate].
  destruct (has_year file); [discriminate|]. cbn [negb].
  intros H.
  apply bind_ok_inv in H as (movie_data & wa & Hdata & H).
  apply bind_ok_inv in H as (no_date & wb & _ & H).
  destruct no_date.
  { apply bind_ok_inv in H as (_ & wc & _ & H). discriminate. }
  apply bind_ok_inv in H as (release_date & wc & Hdate & H).
  apply bind_ok_inv in H as (year & wd & Hyear & H).
  apply bind_ok_inv in H as (folder & we & _ & H).
  injection H as <- <-. cbn [new_name].
  exists movie_data, release_date, year. rewrite Hdata.
  apply lift_inv in Hdate as [Hdate _]. apply lift_inv in Hyear as [Hyear _].
  now repeat split.
Qed.

(** X16. A file renamed after a release date that begins with four
    digits is not renamed again: its new name is the title, the year in
    parentheses and the extension, so it carries a year, and every later
    round of the loop on that name, with whatever options and in whatever
    folder, passes it over without a request. *)
Theorem renamed_file_is_passed_over (sv : service)
    (clean_junk sort_collections : bool) (root file : string)
    (w w1 : world) (p : plan) (details : json)
    (d1 d2 d3 d4 : ascii) (rest : string) :
  plan_file sv clean_junk sort_collections root file w = (Ok (Some p), w1) ->
  fst (get_movie_data sv (clean_title file clean_junk) w) = Ok details ->
  Py.getitem details "release_date"
  = Ok (JStr (String d1 (String d2 (String d3 (String d4 rest))))) ->
  PyStr.isdigit d1 = true -> PyStr.isdigit d2 = true ->
  PyStr.isdigit d3 = true -> PyStr.isdigit d4 = true ->
  new_name p
  = clean_title file clean_junk +:+ " "
    +:+ year_tag d1 d2 d3 d4 (PyStr.lower (snd (OsPath.splitext file)))
  /\ has_year (new_name p) = true
  /\ forall sv' clean_junk' dry_run' sort_collections' root' w',
       rename_file sv' clean_junk' dry_run' sort_collections' root'
         (new_name p) w' = (Ok tt, w').
Proof.
  intros Hplan Hdata Hdate H1 H2 H3 H4.
  apply plan_file_year in Hplan
    as (details' & release_date & year & Hdata' & Hdate' & Hyear & Hname).
  rewrite Hdata in Hdata'. injection Hdata' as <-.
  rewrite Hdate in Hdate'. injection Hdate' as <-.
  injection Hyear as <-. cbn [Py.str PyStr.take] in Hname.
  assert (Hname' : new_name p
            = (clean_title file clean_junk +:+ " ")
              +:+ year_tag d1 d2 d3 d4
                    (PyStr.lower (snd (OsPath.splitext file)))).
  { rewrite Hname, str_app_assoc. reflexivity. }
  assert (Hyear : has_year (new_name p) = true)
    by (rewrite Hname'; now apply year_search_tag).
  split; [now rewrite Hname', str_app_assoc|]. split; [exact Hyear|].
  intros sv' cj' dr' sc' root' w'. rewrite rename_file_unfold.
  unfold plan_file. destruct (OsPath.splitext (new_name p)) as [name ext].
  destruct (in_list (PyStr.lower ext) VIDEO_EXTENSIONS); [|reflexivity].
  now rewrite Hyear.
Qed.

Lemma renamed_file_is_passed_over_witness :
  rename_file Example.offline true false true "/Movies/Alien Collection"
    "Alien (1979).mkv" Example.taken = (Ok tt, Example.taken).
Proof.
  apply (renamed_file_is_passed_over Example.tmdb true true ROOT_FOLDER
           "Alien.MKV" Example.two_files
           (snd (plan_file Example.tmdb true true ROOT_FOLDER "Alien.MKV"
                   Example.two_files))
           (mkPlan "/Movies/Alien.MKV"
                   "/Movies/Alien Collection/Alien (1979).mkv"
                   "Alien (1979).mkv")
           (JObj [("id", JNum 348); ("release_date", JStr "1979-05-25");
                  ("belongs_to_collection",
                   JObj [("id", JNum 8091);
                         ("name", JStr "Alien Collection")])])
           "1" "9" "7" "9" "-05-25");
    vm_compute; reflexivity.
Defined.
(** ** The log across scans and undos *)

Lemma fold_move_lookup (f : string * string -> string * string)
    (l : list (string * string)) (k : string) (F : gmap string string) :
  Forall (fun r => fst (f r) <> k /\ snd (f r) <> k) l ->
  List.fold_left (fun F r => move (fst (f r)) (snd (f r)) F) l F !! k = F !! k.
Proof.
  intros H. revert F. induction H as [|r l [H1 H2] _ IH]; intros F;
    [reflexivity|].
  cbn [List.fold_left]. rewrite IH. apply move_other; congruence.
Qed.

(** X17. The log is appended to.  A scan that finds a log, the listed
    files being there, each listed once and the log not among them, leaves
    what the log held in place and adds, after it, one line for each
    rename it applied; the files are otherwise those that come from doing
    these renames in order. *)
Theorem scan_appends_to_the_log (sv : service)
    (clean_junk dry_run sort_collections : bool)
    (walk : list (string * list string)) (w : world) (held : string) :
  NoDup (listed walk) ->
  (forall q, q ∈ listed walk -> is_Some (w_files w !! q)) ->
  LOG_FILE ∉ listed walk ->
  w_files w !! LOG_FILE = Some held ->
  Os.isdir w LOG_FILE = false ->
  let w' := snd (rename_scan sv clean_junk dry_run sort_collections walk w) in
  let rs := scan_records sv clean_junk dry_run sort_collections walk w in
  w_files w' = <[LOG_FILE := held +:+ log_text rs]> (replay rs (w_files w))
  /\ applicable rs (w_files w).
Proof.
  intros Hnd Hall Hlog Hheld Hdir w' rs. subst w' rs.
  unfold rename_scan, scan_records, Os.with_open_append.
  assert (Hopen : Os.open_append LOG_FILE w = (Ok tt, set_log EmptyString w)).
  { unfold Os.open_append, Os.isfile. now rewrite Hdir, Hheld. }
  rewrite Hopen.
  rewrite (scan_flat (rename_file sv clean_junk dry_run sort_collections)).
  rewrite listed_pairs in Hnd, Hall, Hlog.
  set (cands := List.flat_map _ walk) in *.
  destruct (loop_replays sv clean_junk dry_run sort_collections cands
              LOG_FILE (set_log EmptyString w) Hnd Hall Hlog)
    as (Hf & Hl & Happ & Hrs); [cbn [w_files set_log]; eauto|].
  set (rs := loop_records _ _ _ _ cands _) in *.
  cbn [w_files w_log set_log] in Hf, Hl, Happ.
  destruct (for_each cands _ _) as [r w2]. cbn [snd] in *.
  split; [|exact Happ].
  unfold Os.close_append. cbn [w_files set_log set_files].
  rewrite Hf, Hl. unfold replay at 1.
  rewrite (fold_move_lookup (fun r => r)), Hheld.
  - cbn [from_option id]. now rewrite str_app_nil_l.
  - eapply Forall_impl; [exact Hrs|]. now intros x (_ & H1 & H2).
Qed.

Lemma scan_appends_to_the_log_witness :
  let walk := [(ROOT_FOLDER, ["Alien.mkv"])] in
  let w := set_files (<[LOG_FILE := "a.mkv -> a (2000).mkv" +:+ LF_STR]>
                        (w_files Example.two_files)) Example.two_files in
  w_files (snd (rename_scan Example.tmdb false false false walk w))
  !! LOG_FILE
  = Some ("a.mkv -> a (2000).mkv" +:+ LF_STR
          +:+ "/Movies/Alien.mkv -> /Movies/Alien (1979).mkv" +:+ LF_STR).
Proof.
  intros walk w.
  destruct (scan_appends_to_the_log Example.tmdb false false false walk w
              ("a.mkv -> a (2000).mkv" +:+ LF_STR)) as [Hf _].
  - apply (bool_decide_unpack _). vm_compute. exact I.
  - intros q Hq. apply list_elem_of_singleton in Hq as ->.
    vm_compute. eauto.
  - intros Hq. apply list_elem_of_singleton in Hq. discriminate.
  - vm_compute. reflexivity.
  - vm_compute. reflexivity.
  - rewrite Hf, lookup_insert_eq. vm_compute. reflexivity.
Defined.

(** X18. Undo is done once.  After an undo of a log of records that it
    can act on, a second undo finds no log, says so and changes nothing. *)
Theorem second_undo_finds_no_log (rs : list (string * string)) (w : world) :
  w_files w !! LOG_FILE = Some (log_text rs) ->
  rs <> [] ->
  Forall (revertible w) rs ->
  Os.isdir w LOG_FILE = false ->
  exists w1,
    undo_last_batch w = (Ok tt, w1)
    /\ undo_last_batch w1 = (Ok tt, emit (EvPrint MsgNoLog) w1).
Proof.
  intros Hlog Hne Hall Hdir.
  destruct (undo_unwinds rs w Hlog Hne Hall) as (w1 & Hrun & Hf & Hd).
  exists w1. split; [exact Hrun|].
  assert (Habsent : Os.path_exists w1 LOG_FILE = false).
  { unfold Os.path_exists, Os.isfile. rewrite Hf, lookup_delete_eq.
    rewrite (isdir_dirs w w1) by exact Hd. exact Hdir. }
  unfold undo_last_batch. unfold bind at 1. unfold Os.exists_ at 1.
  now rewrite Habsent.
Qed.

Lemma second_undo_finds_no_log_witness :
  let w := snd (rename_scan Example.tmdb false false true
                  [(ROOT_FOLDER, ["Unknown.mkv"; "Alien.mkv"])]
                  Example.two_files) in
  exists w1,
    undo_last_batch w = (Ok tt, w1)
    /\ undo_last_batch w1 = (Ok tt, emit (EvPrint MsgNoLog) w1).
Proof.
  intros w.
  apply (second_undo_finds_no_log
           [("/Movies/Alien.mkv",
             "/Movies/Alien Collection/Alien (1979).mkv")] w).
  - vm_compute. reflexivity.
  - discriminate.
  - constructor; [revertible_here | constructor].
  - vm_compute. reflexivity.
Defined.
(** ** The title without junk removal *)

Lemma rstrip_end (s : string) :
  ends_with_space (PyStr.rstrip s) = false.
Proof.
  induction s as [|c s IH]; [reflexivity|]. cbn [PyStr.rstrip].
  destruct (PyStr.rstrip s) as [|x r].
  - destruct (PyStr.isspace c) eqn:E; [reflexivity|]. cbn. exact E.
  - exact IH.
Qed.

Lemma lstrip_end (s : string) :
  ends_with_space s = false -> ends_with_space (PyStr.lstrip s) = false.
Proof.
  induction s as [|c s IH]; [reflexivity|]. intros H. cbn [PyStr.lstrip].
  destruct (PyStr.isspace c) eqn:E; [|exact H].
  apply IH. destruct s; [reflexivity | exact H].
Qed.

Lemma lstrip_head (s : string) : Re.head_isspace (PyStr.lstrip s) = false.
Proof.
  induction s as [|c s IH]; [reflexivity|]. cbn [PyStr.lstrip].
  destruct (PyStr.isspace c) eqn:E; [exact IH|]. cbn. exact E.
Qed.

(** X19. Without junk removal the title has no white space at either
    end. *)
Theorem clean_title_plain_is_trimmed (filename : string) :
  Re.head_isspace (clean_title filename false) = false
  /\ ends_with_space (clean_title filename false) = false.
Proof.
  unfold clean_title, PyStr.strip. split.
  - apply lstrip_head.
  - apply lstrip_end, rstrip_end.
Qed.
